(** * Complaint intake and triage: a shallow embedding of the dashboard
      (actions/app.py), the chatbot actions (actions/actions.py), the SMS
      webhook (actions/sms_handler.py), the stand-alone dashboard
      (actions/local_dashboard.py) and the cross-node webhook
      (ileco1-render/cloud_app.py), with the properties of the triage
      pipeline proved over it.

    Conventions of the embedding.
    - Python [str] is [string]; [lower], [upper] and [strip] act on the
      ASCII range.  Where a pattern is matched against what a user typed,
      the [str] is the list of its code points ([Unicode.text]) and the
      Unicode tables of the interpreter are a parameter.  [None] is
      [option]'s [None].
    - A table is the list of its rows in heap order; a SQL [NULL] is [None].
    - A timestamp is the Unix time of the instant, an integer number of
      microseconds (the resolution of [datetime]).
    - Everything outside the program (connection pools, whether a database
      statement raises, clocks, identifier generators, the socket layer) is
      read from an [env] record, one per call.
    - Python exceptions are the [Raise] case of [outcome]; [try]/[except]
      is [try_except].  [cur.close()] and the return of the connection to
      its pool are taken not to raise; what was not committed is gone when
      the call ends.
    - [conn.rollback()] in a handler can raise, as it does on a connection
      that has gone dead.  In the listing of the board
      ([get_unified_complaints] and the [ensure_columns] it calls), whose
      callers count on a list, it is the statement [StRollback].  The
      routes answer 500 whether or not the rollback of their handler
      raises; there it is taken not to raise.
    - [ensure_columns] and [ensure_converted_table_joblist] add missing
      columns or tables and change no row.  In the routes they swallow
      their own errors and do not appear; in the listing of the board
      [ensure_columns] is modelled with its handler. *)

From Stdlib Require Import String Ascii List ZArith Lia Bool Sorted Permutation.
Import ListNotations.
Open Scope string_scope.
Open Scope Z_scope.

(** ** Python strings *)

Module Py.

Definition is_upper (c : ascii) : bool :=
  let n := nat_of_ascii c in ((65 <=? n) && (n <=? 90))%nat.

Definition is_lower (c : ascii) : bool :=
  let n := nat_of_ascii c in ((97 <=? n) && (n <=? 122))%nat.

Definition lower_char (c : ascii) : ascii :=
  if is_upper c then ascii_of_nat (nat_of_ascii c + 32) else c.

Definition upper_char (c : ascii) : ascii :=
  if is_lower c then ascii_of_nat (nat_of_ascii c - 32) else c.

(** [str.lower()] *)
Fixpoint lower (s : string) : string :=
  match s with
  | EmptyString => EmptyString
  | String c s' => String (lower_char c) (lower s')
  end.

(** [str.upper()] *)
Fixpoint upper (s : string) : string :=
  match s with
  | EmptyString => EmptyString
  | String c s' => String (upper_char c) (upper s')
  end.

(** [str.isspace()] on one character: TAB, LF, VT, FF, CR, FS, GS, RS, US
    and the space. *)
Definition isspace (c : ascii) : bool :=
  let n := nat_of_ascii c in
  (((9 <=? n) && (n <=? 13)) || ((28 <=? n) && (n <=? 32)))%nat.

Fixpoint lstrip (s : string) : string :=
  match s with
  | EmptyString => EmptyString
  | String c s' => if isspace c then lstrip s' else s
  end.

Fixpoint rstrip (s : string) : string :=
  match s with
  | EmptyString => EmptyString
  | String c s' =>
      match rstrip s' with
      | EmptyString => if isspace c then EmptyString else String c EmptyString
      | t => String c t
      end
  end.

(** [str.strip()] *)
Definition strip (s : string) : string := rstrip (lstrip s).

(** [str.startswith] *)
Fixpoint startswith (p s : string) : bool :=
  match p, s with
  | EmptyString, _ => true
  | String _ _, EmptyString => false
  | String a p', String b s' => Ascii.eqb a b && startswith p' s'
  end.

(** [needle in hay] on strings *)
Fixpoint contains (needle hay : string) : bool :=
  startswith needle hay ||
  match hay with
  | EmptyString => false
  | String _ hay' => contains needle hay'
  end.

(** [any(word in text for word in words)] *)
Definition any_in (words : list string) (text : string) : bool :=
  existsb (fun word => contains word text) words.

(** [x in xs] on a list of strings *)
Definition mem (x : string) (xs : list string) : bool :=
  existsb (String.eqb x) xs.

(** Truth value of an optional string: [None] and [''] are false. *)
Definition truthy (x : option string) : bool :=
  match x with
  | Some s => negb (String.eqb s "")
  | None => false
  end.

(** [x or d] *)
Definition or_else (x : option string) (d : string) : string :=
  match x with
  | Some s => if String.eqb s "" then d else s
  | None => d
  end.

(** [a or b] on strings *)
Definition or_str (a b : string) : string :=
  if String.eqb a "" then b else a.

(** Truth value of an optional number: [None] and zero are false. *)
Definition truthy_num (x : option Z) : bool :=
  match x with
  | Some z => negb (z =? 0)
  | None => false
  end.

(** [x or ''] on an optional number, the empty text being [None] *)
Definition num_or_empty (x : option Z) : option Z :=
  if truthy_num x then x else None.

(** [s.replace('_', ' ')] *)
Fixpoint underscores_to_spaces (s : string) : string :=
  match s with
  | EmptyString => EmptyString
  | String c s' =>
      String (if Ascii.eqb c "_" then " "%char else c) (underscores_to_spaces s')
  end.

(** [sep.join(xs)] *)
Fixpoint join (sep : string) (xs : list string) : string :=
  match xs with
  | [] => ""
  | [x] => x
  | x :: rest => x ++ sep ++ join sep rest
  end.

(** [s[:n]] *)
Definition take (n : nat) (s : string) : string := substring 0 n s.

End Py.

(** ** Exceptions *)

Inductive outcome (A : Type) : Type :=
| Return (a : A)
| Raise (e : string).
Arguments Return {A} a.
Arguments Raise {A} e.

Definition bind {A B : Type} (m : outcome A) (k : A -> outcome B) : outcome B :=
  match m with
  | Return a => k a
  | Raise e => Raise e
  end.

(** [try: body  except Exception as e: handler(e)] *)
Definition try_except {A : Type} (body : outcome A) (handler : string -> outcome A)
  : outcome A :=
  match body with
  | Return a => Return a
  | Raise e => handler e
  end.

Notation "x <- m ;; k" := (bind m (fun x => k))
  (at level 61, m at next level, right associativity).
Notation "m ;;; k" := (bind m (fun _ => k))
  (at level 61, right associativity).

(** ** Stable sorting, as [list.sort(key=...)] and [ORDER BY] use it *)

Section StableSort.
Context {A : Type} (le : A -> A -> bool).

(** [x] is placed in front of the first element it is not greater than, so
    elements that compare equal keep their relative order. *)
Fixpoint insert_sorted (x : A) (l : list A) : list A :=
  match l with
  | [] => [x]
  | y :: l' => if le x y then x :: y :: l' else y :: insert_sorted x l'
  end.

Fixpoint stable_sort (l : list A) : list A :=
  match l with
  | [] => []
  | x :: l' => insert_sorted x (stable_sort l')
  end.

End StableSort.

(** ** SQL values and predicates *)

Module Sql.

(** [col = FALSE OR col IS NULL] *)
Definition false_or_null (b : option bool) : bool :=
  match b with
  | Some true => false
  | _ => true
  end.

(** [COALESCE(col, d)] *)
Definition coalesce (x : option string) (d : string) : string :=
  match x with
  | Some s => s
  | None => d
  end.

(** [text LIKE pattern]: [%] matches any run of characters, [_] any one
    character, a backslash quotes the character after it. *)
Fixpoint like (p s : string) : bool :=
  match p with
  | EmptyString =>
      match s with
      | EmptyString => true
      | String _ _ => false
      end
  | String "%" p' =>
      (fix skip (t : string) : bool :=
         like p' t ||
         match t with
         | EmptyString => false
         | String _ t' => skip t'
         end) s
  | String "_" p' =>
      match s with
      | EmptyString => false
      | String _ s' => like p' s'
      end
  | String "\" (String c p') =>
      match s with
      | EmptyString => false
      | String d s' => Ascii.eqb c d && like p' s'
      end
  | String c p' =>
      match s with
      | EmptyString => false
      | String d s' => Ascii.eqb c d && like p' s'
      end
  end.

(** [col ILIKE pattern]; a [NULL] column never matches. *)
Definition ilike (col : option string) (pattern : string) : bool :=
  match col with
  | Some s => like (Py.lower pattern) (Py.lower s)
  | None => false
  end.

(** [col >= bound] and [col <= bound]; a [NULL] column never satisfies
    either. *)
Definition ge_bound (col : option Z) (bound : Z) : bool :=
  match col with
  | Some t => bound <=? t
  | None => false
  end.

Definition le_bound (col : option Z) (bound : Z) : bool :=
  match col with
  | Some t => t <=? bound
  | None => false
  end.

(** Order of [ORDER BY col DESC]: [NULL]s first, then decreasing. *)
Definition desc_le (a b : option Z) : bool :=
  match a, b with
  | None, _ => true
  | Some _, None => false
  | Some x, Some y => y <=? x
  end.

(** Order of [ORDER BY col ASC]: increasing, [NULL]s last. *)
Definition asc_le (a b : option Z) : bool :=
  match a, b with
  | _, None => true
  | None, Some _ => false
  | Some x, Some y => x <=? y
  end.

End Sql.

(** ** The complaint store *)

(** The three record families, one table each. *)
Inductive family : Type :=
| power_outage_reports
| meter_concern
| agent_queue.

Definition table_name (f : family) : string :=
  match f with
  | power_outage_reports => "power_outage_reports"
  | meter_concern => "meter_concern"
  | agent_queue => "agent_queue"
  end.

Definition family_of_table (table : string) : option family :=
  if String.eqb table "power_outage_reports" then Some power_outage_reports
  else if String.eqb table "meter_concern" then Some meter_concern
  else if String.eqb table "agent_queue" then Some agent_queue
  else None.

(** One row of a complaint table.  The three tables share most columns;
    [r_id] is [report_id] in [power_outage_reports] and [id] elsewhere,
    [r_full_name] is [meter_concern.name], [r_details] is [concern] in
    [meter_concern] and [agent_queue], [r_account_no] is
    [power_outage_reports.account_number].  A column a table does not have
    stays [None].  Coordinates are fixed-point numbers. *)
Record row : Type := mkRow {
  r_id : Z;
  r_user_id : option string;
  r_account_no : option string;
  r_full_name : option string;
  r_address : option string;
  r_contact_number : option string;
  r_details : option string;
  r_description : option string;
  r_job_order_id : option string;
  r_status : option string;
  r_issue_type : option string;
  r_priority : option string;
  r_source : option string;
  r_timestamp : option Z;
  r_latitude : option Z;
  r_longitude : option Z;
  r_accuracy : option Z;
  r_hidden : option bool;
  r_resumed : option bool;
  r_email : option string;
  r_landmark : option string;
  r_incident_type_detail : option string;
  r_affected_area : option string;
  r_incident_time : option string;
  r_duration : option string
}.

(** [SET status = s] *)
Definition set_status (s : string) (r : row) : row :=
  mkRow (r_id r) (r_user_id r) (r_account_no r) (r_full_name r) (r_address r)
    (r_contact_number r) (r_details r) (r_description r) (r_job_order_id r)
    (Some s) (r_issue_type r) (r_priority r) (r_source r) (r_timestamp r)
    (r_latitude r) (r_longitude r) (r_accuracy r) (r_hidden r) (r_resumed r)
    (r_email r) (r_landmark r) (r_incident_type_detail r) (r_affected_area r)
    (r_incident_time r) (r_duration r).

(** [SET job_order_id = j] *)
Definition set_job_order_id (j : string) (r : row) : row :=
  mkRow (r_id r) (r_user_id r) (r_account_no r) (r_full_name r) (r_address r)
    (r_contact_number r) (r_details r) (r_description r) (Some j)
    (r_status r) (r_issue_type r) (r_priority r) (r_source r) (r_timestamp r)
    (r_latitude r) (r_longitude r) (r_accuracy r) (r_hidden r) (r_resumed r)
    (r_email r) (r_landmark r) (r_incident_type_detail r) (r_affected_area r)
    (r_incident_time r) (r_duration r).

(** [SET hidden = TRUE] *)
Definition set_hidden (r : row) : row :=
  mkRow (r_id r) (r_user_id r) (r_account_no r) (r_full_name r) (r_address r)
    (r_contact_number r) (r_details r) (r_description r) (r_job_order_id r)
    (r_status r) (r_issue_type r) (r_priority r) (r_source r) (r_timestamp r)
    (r_latitude r) (r_longitude r) (r_accuracy r) (Some true) (r_resumed r)
    (r_email r) (r_landmark r) (r_incident_type_detail r) (r_affected_area r)
    (r_incident_time r) (r_duration r).

(** [SET resumed = TRUE] *)
Definition set_resumed (r : row) : row :=
  mkRow (r_id r) (r_user_id r) (r_account_no r) (r_full_name r) (r_address r)
    (r_contact_number r) (r_details r) (r_description r) (r_job_order_id r)
    (r_status r) (r_issue_type r) (r_priority r) (r_source r) (r_timestamp r)
    (r_latitude r) (r_longitude r) (r_accuracy r) (r_hidden r) (Some true)
    (r_email r) (r_landmark r) (r_incident_type_detail r) (r_affected_area r)
    (r_incident_time r) (r_duration r).

(** [SET latitude = la, longitude = lo, accuracy = ac] *)
Definition set_location (la lo : Z) (ac : option Z) (r : row) : row :=
  mkRow (r_id r) (r_user_id r) (r_account_no r) (r_full_name r) (r_address r)
    (r_contact_number r) (r_details r) (r_description r) (r_job_order_id r)
    (r_status r) (r_issue_type r) (r_priority r) (r_source r) (r_timestamp r)
    (Some la) (Some lo) ac (r_hidden r) (r_resumed r)
    (r_email r) (r_landmark r) (r_incident_type_detail r) (r_affected_area r)
    (r_incident_time r) (r_duration r).

(** The complaint database: the rows of each table, oldest insertion
    first. *)
Record store : Type := mkStore {
  outage_rows : list row;
  meter_rows : list row;
  agent_rows : list row
}.

Definition rows (st : store) (f : family) : list row :=
  match f with
  | power_outage_reports => outage_rows st
  | meter_concern => meter_rows st
  | agent_queue => agent_rows st
  end.

Definition set_rows (st : store) (f : family) (l : list row) : store :=
  match f with
  | power_outage_reports => mkStore l (meter_rows st) (agent_rows st)
  | meter_concern => mkStore (outage_rows st) l (agent_rows st)
  | agent_queue => mkStore (outage_rows st) (meter_rows st) l
  end.

(** [SELECT ... WHERE pk = id] followed by [fetchone()] *)
Definition fetch_by_id (st : store) (f : family) (id : Z) : option row :=
  find (fun r => r_id r =? id) (rows st f).

(** [UPDATE table SET ... WHERE pk = id] *)
Definition update_by_id (st : store) (f : family) (id : Z) (change : row -> row)
  : store :=
  set_rows st f (map (fun r => if r_id r =? id then change r else r) (rows st f)).

(** [cursor.rowcount] after that [UPDATE] *)
Definition rowcount (st : store) (f : family) (id : Z) : nat :=
  length (filter (fun r => r_id r =? id) (rows st f)).

(** [INSERT INTO table ...] *)
Definition insert_row (st : store) (f : family) (r : row) : store :=
  set_rows st f (rows st f ++ [r]).

(** [ORDER BY timestamp DESC]; rows with equal timestamps stay in heap
    order, one of the orders the database may choose. *)
Definition newest_first (l : list row) : list row :=
  stable_sort (fun a b => Sql.desc_le (r_timestamp a) (r_timestamp b)) l.

(** [ORDER BY timestamp ASC] *)
Definition oldest_first (l : list row) : list row :=
  stable_sort (fun a b => Sql.asc_le (r_timestamp a) (r_timestamp b)) l.

(** ** The job-order store *)

(** One row of [converted], the 28 text columns of
    [ensure_converted_table_joblist]; [type] is [j_type]. Coordinates keep
    the row's value, [None] standing for the empty text. *)
Record job_order : Type := mkJobOrder {
  unique_id : string;
  creator : string;
  created : string;
  follower : string;
  followed : string;
  name : string;
  spinners : string;
  town0 : string;
  brgy0 : string;
  town : string;
  brgy : string;
  town2 : string;
  brgy2 : string;
  assignedto : string;
  status : string;
  subs : string;
  feeder : string;
  section : string;
  cause : string;
  equip : string;
  j_type : string;
  notes : string;
  landmark : string;
  phone : string;
  location : string;
  latitude : option Z;
  longitude : option Z;
  actiontaken : string
}.

Definition job_store : Type := list job_order.

(** ** The world outside the program *)

(** A database statement of a call, named by what it does. *)
Inductive stmt : Type :=
| StConnect                  (* psycopg2.connect, in the chatbot actions *)
| StCursor                   (* conn.cursor() *)
| StTables                   (* query on information_schema.tables *)
| StEnsure (table : string)   (* a statement of ensure_columns(conn, table) *)
| StSelect (table : string)
| StQueue                    (* the queue listing of the agent form *)
| StInsert (table : string)
| StUpdate (table : string)
| StCommit (n : nat)         (* the n-th conn.commit() of the call *)
| StRollback                 (* conn.rollback(), in a handler of the listing *)
| StJobCursor
| StJobInsert
| StJobCommit
| StHttp                     (* requests.post to the dialogue engine *)
| StUnboundLocal (var : string). (* a local variable read before assignment *)

Record env : Type := mkEnv {
  now : Z;                         (* datetime.now(), CURRENT_TIMESTAMP *)
  now_text : string;               (* strftime('%m/%d/%y %I:%M:%S %p') of it *)
  fmt_time : Z -> string;          (* strftime('%I:%M %p') *)
  strptime_date : string -> option Z; (* '%Y-%m-%d'; None is ValueError *)
  strptime_hm : string -> option Z;   (* '%H:%M', as time of day *)
  serial : Z;                      (* next value of the table's SERIAL key *)
  fresh_id : string;               (* the identifier generator of the call *)
  pool_ok : bool;                  (* get_rasa_connection() is not None *)
  joblist_pool_ok : bool;          (* get_joblist_connection() is not None *)
  table_exists : family -> bool;   (* what information_schema reports *)
  raises : stmt -> bool;           (* the statement raises *)
  exc_text : stmt -> string;       (* str(e) of what it raises *)
  emit_ok : bool;                  (* socketio.emit does not raise *)
  stats_ok : bool                  (* get_current_stats() yields statistics *)
}.

(** Run a statement: nothing is returned, or it raises. *)
Definition execute (e : env) (s : stmt) : outcome unit :=
  if raises e s then Raise (exc_text e s) else Return tt.

(** Calendar day of a timestamp. *)
Definition date_of (t : Z) : Z := t / 86400000000.

(** ** Realtime notifier *)

Inductive event : Type :=
| EvNewComplaint (record_id : Z) (priority : option string)
| EvStatusUpdate (table : string) (record_id : Z)
    (old_status : option string) (new_status : string)
| EvCriticalAlert (record_id : Z)
| EvStatsUpdate.

(** What a call committed, in the order of the commits. *)
Inductive effect : Type :=
| EffInsert (table : string) (record_id : Z)
| EffJobOrder (unique_id : string)
| EffLink (table : string) (record_id : Z) (job_order_id : string).

(** ** HTTP responses

    The JSON envelope of the mutating endpoints, with the HTTP status. *)
Record response : Type := mkResponse {
  success : bool;
  http_status : Z;
  error : option string;
  new_status : option string;
  job_order_id : option string;
  original_job_order_id : option string
}.

Definition ok_response : response :=
  mkResponse true 200 None None None None.

Definition error_response (code : Z) (msg : string) : response :=
  mkResponse false code (Some msg) None None None.

(** ** actions/app.py: the dashboard *)

Module App.

(** *** Priority classification *)

Module Shadowed.

(** [get_priority_from_concern] as first defined (line 1860).  The module
    defines the name again further down, so this body is never the one a
    call reaches. *)
Definition get_priority_from_concern (concern : option string) : string :=
  let concern := Py.lower (Py.or_else concern "") in
  if Py.any_in
       ["fire"; "explosion"; "burning"; "smoke"; "accident";
        "fallen wire"; "electric shock"; "live wire"; "transformer burst";
        "emergency"; "danger"; "hazard"; "sparking"; "exposed wire";
        "electrocuted"; "injured"; "death"; "pole down"; "wire down";
        "short circuit"; "arcing"; "flames"] concern
  then "CRITICAL"
  else "HIGH".

End Shadowed.

Definition critical_keywords : list string :=
  ["fire"; "explosion"; "burning"; "shock"; "emergency"; "danger";
   "hazard"; "fallen wire"; "live wire"; "injured"; "death"].

(** [get_priority_from_concern] as defined last (line 2970): the function
    the module's callers run. *)
Definition get_priority_from_concern (concern : option string) : string :=
  let concern := Py.lower (Py.or_else concern "") in
  if Py.any_in critical_keywords concern then "CRITICAL" else "HIGH".

Definition critical_types : list string :=
  ["fallen_wire"; "fire_hazard"; "transformer_issue"].

(** The "Determine priority" step of [submit_power_outage]. *)
Definition determine_priority (incident_type details : string) : string :=
  if Py.mem incident_type critical_types then "CRITICAL"
  else get_priority_from_concern (Some details).

(** *** Locality of an address *)

Definition is_alpha (c : ascii) : bool := Py.is_upper c || Py.is_lower c.

(** [str.title()] *)
Fixpoint title_from (inside_word : bool) (s : string) : string :=
  match s with
  | EmptyString => EmptyString
  | String c s' =>
      if is_alpha c
      then String (if inside_word then Py.lower_char c else Py.upper_char c)
                  (title_from true s')
      else String c (title_from false s')
  end.

Definition title (s : string) : string := title_from false s.

(** [s.split(',')[0]] *)
Fixpoint before_comma (s : string) : string :=
  match s with
  | EmptyString => EmptyString
  | String c s' => if Ascii.eqb c "," then EmptyString else String c (before_comma s')
  end.

Definition towns : list (string * string) :=
  [("tubungan", "Tubungan"); ("alimodian", "Alimodian"); ("cabatuan", "Cabatuan");
   ("guimbal", "Guimbal"); ("igbaras", "Igbaras"); ("leganes", "Leganes");
   ("leon", "Leon"); ("miagao", "Miag-ao"); ("oton", "Oton"); ("pavia", "Pavia");
   ("san joaquin", "San Joaquin"); ("san miguel", "San Miguel");
   ("sta barbara", "Sta. Barbara"); ("tigbauan", "Tigbauan")].

(** [extract_location_parts] as defined last (line 2988); the definition at
    line 2654 is replaced by it when the module loads. *)
Definition extract_location_parts (location : string) : string * string :=
  if String.eqb location "" then ("", "")
  else
    let location := Py.lower (Py.strip location) in
    let town :=
      match find (fun kv => Py.contains (fst kv) location) towns with
      | Some kv => snd kv
      | None => ""
      end in
    let barangay := Py.strip (before_comma location) in
    (title barangay, town).

(** *** Unified aggregator *)

Record filters : Type := mkFilters {
  status_filter : option string;
  priority_filter : option string;
  type_filter : option string;
  search_term : option string;
  show_hidden : bool;
  date_from : option string;
  date_to : option string;
  time_from : option string;
  time_to : option string
}.

(** The call [get_unified_complaints()] with every argument defaulted. *)
Definition no_filters : filters :=
  mkFilters None None None None false None None None None.

(** [x.strip().upper() if x and x != all_label else None] *)
Definition normalize_filter (x : option string) (all_label : string)
  : option string :=
  match x with
  | Some s =>
      if negb (String.eqb s "") && negb (String.eqb s all_label)
      then Some (Py.upper (Py.strip s))
      else None
  | None => None
  end.

Definition strptime (parse : string -> option Z) (text : string) : outcome Z :=
  match parse text with
  | Some t => Return t
  | None => Raise "ValueError"
  end.

(** One half of [parse_datetime_filters]: the date, with the time of day
    when one is given and [default_time] otherwise. *)
Definition parse_bound (e : env) (date time : option string) (default_time : Z)
  : outcome (option Z) :=
  match date with
  | Some d =>
      if String.eqb d "" then Return None
      else
        day <- strptime (strptime_date e) d ;;
        tod <- (match time with
                | Some t => if String.eqb t "" then Return default_time
                            else strptime (strptime_hm e) t
                | None => Return default_time
                end) ;;
        Return (Some (day + tod))
  | None => Return None
  end.

(** [parse_datetime_filters]: one [try] around both halves, so a
    [ValueError] in the first leaves both bounds unset and one in the second
    keeps the first. *)
Definition parse_datetime_filters (e : env) (date_from date_to time_from time_to : option string)
  : option Z * option Z :=
  match parse_bound e date_from time_from 0 with
  | Raise _ => (None, None)
  | Return start_datetime =>
      match parse_bound e date_to time_to 86399000000 with
      | Raise _ => (start_datetime, None)
      | Return end_datetime => (start_datetime, end_datetime)
      end
  end.

(** The unit of the aggregator's output.  [c_full_data] is the row the
    entry was built from, as stored (the query's [COALESCE] defaults show in
    the entry's own fields). *)
Record complaint : Type := mkComplaint {
  c_time : string;
  c_customer_id : string;
  c_job_order_id : option string;
  c_issue_type : string;
  c_description : string;
  c_priority : string;
  c_status : string;
  c_source : string;
  c_table : string;
  c_record_id : Z;
  c_customer_name : string;
  c_customer_phone : string;
  c_full_data : row
}.

(** [NULL] priority of a family, as its query and its Python fallback put it. *)
Definition default_priority (f : family) : string :=
  match f with
  | agent_queue => "LOW"
  | meter_concern => "MEDIUM"
  | power_outage_reports => "HIGH"
  end.

(** The columns [search_term] is matched against. *)
Definition search_columns (f : family) (r : row) : list (option string) :=
  match f with
  | agent_queue => [r_user_id r; r_full_name r; r_details r]
  | meter_concern => [r_account_no r; r_full_name r; r_details r]
  | power_outage_reports => [r_full_name r; r_address r; r_details r]
  end.

(** The [type_filter] makes the loop [continue] past the family. *)
Definition type_excluded (f : family) (type_filter_norm : option string) : bool :=
  match type_filter_norm with
  | Some t =>
      negb (String.eqb t "") &&
      match f with
      | agent_queue => negb (String.eqb t "SERVICE")
      | meter_concern => negb (String.eqb t "BILLING")
      | power_outage_reports => negb (Py.mem t ["POWER OUTAGE"; "POWER_OUTAGE"])
      end
  | None => false
  end.

(** The [WHERE] clause the loop assembles for a family. *)
Definition where_clause (f : family) (show_hidden : bool)
  (search_term status_filter_norm priority_filter_norm : option string)
  (start_datetime end_datetime : option Z) (r : row) : bool :=
  (show_hidden || Sql.false_or_null (r_hidden r)) &&
  (match f with
   | agent_queue => Sql.false_or_null (r_resumed r)
   | _ => true
   end) &&
  (match search_term with
   | Some term =>
       if String.eqb term "" then true
       else existsb (fun col => Sql.ilike col ("%" ++ term ++ "%")) (search_columns f r)
   | None => true
   end) &&
  (match status_filter_norm with
   | Some s =>
       if String.eqb s "" then true
       else String.eqb (Py.upper (Sql.coalesce (r_status r) "NEW")) s
   | None => true
   end) &&
  (match priority_filter_norm with
   | Some p =>
       if String.eqb p "" then true
       else String.eqb (Py.upper (Sql.coalesce (r_priority r) (default_priority f))) p
   | None => true
   end) &&
  (match start_datetime with
   | Some t => Sql.ge_bound (r_timestamp r) t
   | None => true
   end) &&
  (match end_datetime with
   | Some t => Sql.le_bound (r_timestamp r) t
   | None => true
   end).

Definition time_text (e : env) (r : row) : string :=
  match r_timestamp r with
  | Some t => fmt_time e t
  | None => "N/A"
  end.

(** [(text[:50] + '...') if text and len(text) > 50 else (text or default)] *)
Definition short_description (text : option string) (default : string) : string :=
  match text with
  | Some s =>
      if negb (String.eqb s "") && (50 <? String.length s)%nat
      then Py.take 50 s ++ "..."
      else Py.or_else text default
  | None => default
  end.

(** A fetched row in the common shape. *)
Definition to_complaint (e : env) (f : family) (r : row) : complaint :=
  match f with
  | agent_queue =>
      mkComplaint (time_text e r) (Py.or_else (r_user_id r) "N/A") None "Service"
        (short_description (r_details r) "Service request")
        (Py.upper (Py.or_else (r_priority r) "LOW"))
        (Py.upper (Py.or_else (r_status r) "NEW"))
        "Agent Request" "agent_queue" (r_id r)
        (Py.or_else (r_full_name r) "Unknown")
        (Py.or_else (r_contact_number r) "N/A") r
  | meter_concern =>
      mkComplaint (time_text e r) (Py.or_else (r_account_no r) "N/A")
        (r_job_order_id r) "Billing"
        (short_description (r_details r) "Meter concern")
        (Py.upper (Py.or_else (r_priority r) "MEDIUM"))
        (Py.upper (Py.or_else (r_status r) "NEW"))
        "Chatbot" "meter_concern" (r_id r)
        (Py.or_else (r_full_name r) "Unknown")
        (Py.or_else (r_contact_number r) "N/A") r
  | power_outage_reports =>
      mkComplaint (time_text e r) (Py.or_else (r_user_id r) "N/A")
        (r_job_order_id r)
        (Py.upper (Py.strip (Py.or_else (r_issue_type r) "Power Outage")))
        (Py.or_else (r_details r) "Power outage reported")
        (Py.upper (Py.or_else (r_priority r) "HIGH"))
        (Py.upper (Py.or_else (r_status r) "NEW"))
        (Py.or_else (r_source r) "Outage Report")
        "power_outage_reports" (r_id r)
        (Py.or_else (r_full_name r) "Unknown")
        (Py.or_else (r_contact_number r) "N/A") r
  end.

(** The body of the per-table [try]: skip on a type mismatch, else run the
    family's query and convert what it fetched. *)
Definition family_complaints (e : env) (st : store) (show_hidden : bool)
  (search_term status_filter_norm priority_filter_norm type_filter_norm : option string)
  (start_datetime end_datetime : option Z) (f : family) : outcome (list complaint) :=
  if type_excluded f type_filter_norm then Return []
  else
    execute e (StSelect (table_name f)) ;;;
    Return (map (to_complaint e f)
              (newest_first
                 (filter (where_clause f show_hidden search_term
                            status_filter_norm priority_filter_norm
                            start_datetime end_datetime)
                         (rows st f)))).

(** The loop over the three tables: a table that is missing is skipped, and
    so is one whose query raises. *)
(** [ensure_columns], as defined last (line 4519): its statements add the
    columns a table lacks and change no row.  What they raise is caught by
    a handler that rolls the connection back, and the rollback is not
    guarded. *)
Definition ensure_columns (e : env) (table : string) : outcome bool :=
  try_except
    (execute e (StEnsure table) ;;; Return true)
    (fun _ => execute e StRollback ;;; Return false).

Fixpoint process_tables (e : env) (st : store) (show_hidden : bool)
  (search_term status_filter_norm priority_filter_norm type_filter_norm : option string)
  (start_datetime end_datetime : option Z)
  (tables : list family) (complaints : list complaint) : outcome (list complaint) :=
  match tables with
  | [] => Return complaints
  | f :: rest =>
      if negb (table_exists e f)
      then process_tables e st show_hidden search_term status_filter_norm
             priority_filter_norm type_filter_norm start_datetime end_datetime
             rest complaints
      else
        ensure_columns e (table_name f) ;;;
        complaints' <-
          try_except
            (found <- family_complaints e st show_hidden search_term status_filter_norm
                        priority_filter_norm type_filter_norm start_datetime end_datetime f ;;
             Return (complaints ++ found)%list)
            (fun _ => Return complaints) ;;
        process_tables e st show_hidden search_term status_filter_norm
          priority_filter_norm type_filter_norm start_datetime end_datetime
          rest complaints'
  end.

Definition status_order (status : string) : Z :=
  if String.eqb status "NEW" then 0
  else if String.eqb status "ASSIGNED" then 1
  else if String.eqb status "IN_PROGRESS" then 2
  else if String.eqb status "RESOLVED" then 3
  else 4.

Definition priority_order (priority : string) : Z :=
  if String.eqb priority "CRITICAL" then 0
  else if String.eqb priority "HIGH" then 1
  else if String.eqb priority "MEDIUM" then 2
  else if String.eqb priority "LOW" then 3
  else 4.

Definition sort_key (c : complaint) : Z * Z * Z :=
  let status := Py.upper (Py.strip (c_status c)) in
  let priority := Py.upper (Py.strip (c_priority c)) in
  let timestamp_unix :=
    match r_timestamp (c_full_data c) with
    | Some t => t
    | None => 0
    end in
  (status_order status, priority_order priority, - timestamp_unix).

(** Python's order on the key tuples. *)
Definition key_le (k1 k2 : Z * Z * Z) : bool :=
  let '(s1, p1, t1) := k1 in
  let '(s2, p2, t2) := k2 in
  (s1 <? s2) || ((s1 =? s2) && ((p1 <? p2) || ((p1 =? p2) && (t1 <=? t2)))).

Definition get_unified_complaints (e : env) (st : store) (flt : filters)
  : outcome (list complaint) :=
  let status_filter_norm := normalize_filter (status_filter flt) "All Status" in
  let priority_filter_norm := normalize_filter (priority_filter flt) "All Priorities" in
  let type_filter_norm := normalize_filter (type_filter flt) "All Types" in
  let '(start_datetime, end_datetime) :=
    parse_datetime_filters e (date_from flt) (date_to flt) (time_from flt) (time_to flt) in
  if negb (pool_ok e) then Return []
  else
    try_except
      (execute e StCursor ;;;
       execute e StTables ;;;
       complaints <-
         process_tables e st (show_hidden flt) (search_term flt) status_filter_norm
           priority_filter_norm type_filter_norm start_datetime end_datetime
           [agent_queue; meter_concern; power_outage_reports] [] ;;
       Return (stable_sort (fun a b => key_le (sort_key a) (sort_key b)) complaints))
      (fun _ => execute e StRollback ;;; Return []).

(** [get_agent_queue], as the rows its entries are built from. *)
Definition get_agent_queue (e : env) (st : store) : list row :=
  if negb (pool_ok e) then []
  else if raises e StCursor || raises e (StSelect "agent_queue") then []
  else
    oldest_first
      (filter (fun r => Sql.false_or_null (r_hidden r) && Sql.false_or_null (r_resumed r))
              (agent_rows st)).

(** *** Broadcast helpers: each swallows whatever the socket layer raises *)

Definition stats_events (e : env) : list event :=
  if stats_ok e then [EvStatsUpdate] else [].

Definition broadcast_new_complaint (e : env) (record_id : Z) (priority : option string)
  : list event :=
  if emit_ok e then EvNewComplaint record_id priority :: stats_events e else [].

Definition broadcast_status_update (e : env) (table : string) (record_id : Z)
  (old_status : option string) (new_status : string) : list event :=
  if emit_ok e
  then EvStatusUpdate table record_id old_status new_status :: stats_events e
  else [].

Definition broadcast_critical_alert (e : env) (record_id : Z) : list event :=
  if emit_ok e then [EvCriticalAlert record_id] else [].

(** *** Lifecycle manager *)

Definition valid_statuses : list string :=
  ["NEW"; "ASSIGNED"; "IN_PROGRESS"; "RESOLVED"].

(** The inner [try] of [update_status].  [ensure_columns] changes no row
    and swallows its own errors; a table name that is none of the three
    complaint tables makes the first statement on it raise. *)
Definition update_status_body (e : env) (st : store) (table : string)
  (record_id : Z) (new_status : string) : outcome (store * list event * response) :=
  execute e StCursor ;;;
  execute e (StSelect table) ;;;
  match family_of_table table with
  | None => Raise (exc_text e (StSelect table))
  | Some f =>
      match fetch_by_id st f record_id with
      | None => Return (st, [], error_response 200 "Record not found")
      | Some found =>
          let old_status := r_status found in
          execute e (StUpdate table) ;;;
          if (rowcount st f record_id =? 0)%nat
          then Return (st, [], error_response 200 "Failed to update status")
          else
            execute e (StCommit 0) ;;;
            Return (update_by_id st f record_id (set_status new_status),
                    broadcast_status_update e table record_id old_status new_status,
                    mkResponse true 200 None (Some new_status) None None)
      end
  end.

(** [POST /update_status/<table>/<record_id>] with body [{status}] *)
Definition update_status (e : env) (st : store) (table : string) (record_id : Z)
  (status : string) : store * list event * response :=
  let new_status := Py.upper (Py.strip status) in
  if String.eqb new_status ""
  then (st, [], error_response 200 "Status is required")
  else if negb (Py.mem new_status valid_statuses)
  then (st, [], error_response 200
                  ("Invalid status. Must be one of: " ++ Py.join ", " valid_statuses))
  else if negb (pool_ok e)
  then (st, [], error_response 200 "Database connection failed")
  else
    match update_status_body e st table record_id new_status with
    | Return res => res
    | Raise msg => (st, [], error_response 200 msg)
    end.

(** [POST /hide_complaint/<table>/<record_id>].  The database is taken to
    hold the three complaint tables only, so another table name is reported
    as missing. *)
Definition hide_complaint (e : env) (st : store) (table : string) (record_id : Z)
  : store * response :=
  if negb (pool_ok e)
  then (st, error_response 500 "Database connection failed")
  else
    match
      (execute e StCursor ;;;
       execute e StTables ;;;
       match family_of_table table with
       | None => Return (st, error_response 400 ("Table " ++ table ++ " does not exist"))
       | Some f =>
           if negb (table_exists e f)
           then Return (st, error_response 400 ("Table " ++ table ++ " does not exist"))
           else
             execute e (StSelect table) ;;;
             match fetch_by_id st f record_id with
             | None => Return (st, error_response 404 "Complaint not found")
             | Some _ =>
                 execute e (StUpdate table) ;;;
                 execute e (StCommit 0) ;;;
                 Return (update_by_id st f record_id set_hidden, ok_response)
             end
       end)
    with
    | Return res => res
    | Raise msg => (st, error_response 500 msg)
    end.

(** [POST /delete_complaint/<table>/<record_id>]; [record_id] is [None]
    when [int(record_id)] raises [ValueError]. *)
Definition delete_complaint (e : env) (st : store) (table : string)
  (record_id : option Z) : store * response :=
  match record_id with
  | None => (st, error_response 400 "Invalid record ID")
  | Some record_id =>
      match family_of_table table with
      | None => (st, error_response 400 "Invalid table name")
      | Some f =>
          if negb (pool_ok e)
          then (st, error_response 500 "Database connection failed")
          else
            match
              (execute e StCursor ;;;
               execute e (StSelect table) ;;;
               match fetch_by_id st f record_id with
               | None => Return (st, error_response 404 "Record not found")
               | Some _ =>
                   execute e (StUpdate table) ;;;
                   if (rowcount st f record_id =? 0)%nat
                   then Return (st, error_response 500 "Failed to delete record")
                   else
                     execute e (StCommit 0) ;;;
                     Return (update_by_id st f record_id set_hidden, ok_response)
               end)
            with
            | Return res => res
            | Raise msg => (st, error_response 500 msg)
            end
      end
  end.

(** [POST /resume_conversation/<row_id>]; a success is the redirect to the
    dashboard. *)
Definition resume_conversation (e : env) (st : store) (row_id : Z) : store * response :=
  if negb (pool_ok e)
  then (st, error_response 200 "Database connection failed")
  else
    match
      (execute e StCursor ;;;
       execute e (StSelect "agent_queue") ;;;
       let user_id_value :=
         match fetch_by_id st agent_queue row_id with
         | Some found => r_user_id found
         | None => None
         end in
       if Py.truthy user_id_value
       then
         execute e StHttp ;;;
         execute e (StUpdate "agent_queue") ;;;
         execute e (StCommit 0) ;;;
         Return (update_by_id st agent_queue row_id set_resumed,
                 mkResponse true 302 None None None None)
       else Return (st, mkResponse true 302 None None None None))
    with
    | Return res => res
    | Raise msg => (st, error_response 200 msg)
    end.

(** A coordinate of a request body. *)
Inductive coord : Type :=
| Missing
| Malformed
| Coord (value : Z).

(** [POST /api/update_location/<table>/<record_id>] *)
Definition update_complaint_location (e : env) (st : store) (table : string)
  (record_id : Z) (latitude longitude accuracy : coord) : store * response :=
  match latitude, longitude with
  | Missing, _ | _, Missing =>
      (st, error_response 400 "Latitude and longitude are required")
  | Malformed, _ | _, Malformed =>
      (st, error_response 400 "Invalid latitude, longitude, or accuracy format")
  | Coord la, Coord lo =>
      match accuracy with
      | Malformed =>
          (st, error_response 400 "Invalid latitude, longitude, or accuracy format")
      | _ =>
          let ac := match accuracy with Coord a => Some a | _ => None end in
          match family_of_table table with
          | None => (st, error_response 400 "Invalid table name")
          | Some f =>
              if negb (pool_ok e)
              then (st, error_response 500 "Database connection failed")
              else
                match
                  (execute e StCursor ;;;
                   execute e (StUpdate table) ;;;
                   if (rowcount st f record_id =? 0)%nat
                   then Return (st, error_response 404 "Record not found")
                   else
                     execute e (StCommit 0) ;;;
                     Return (update_by_id st f record_id (set_location la lo ac),
                             ok_response))
                with
                | Return res => res
                | Raise msg => (st, error_response 500 msg)
                end
          end
      end
  end.

(** *** Job-order assignment *)

(** The locals [assign_job_order] reads from the complaint row. *)
Record assignment : Type := mkAssignment {
  a_full_name : string;
  a_phone : string;
  a_location_raw : string;
  a_concern : string;
  a_priority : string;
  a_existing_job_order : string;
  a_latitude : option Z;
  a_longitude : option Z
}.

(** [converted_data] of [assign_job_order] *)
Definition converted_data (e : env) (a : assignment) : job_order :=
  let '(brgy0, town0) := extract_location_parts (a_location_raw a) in
  mkJobOrder
    (fresh_id e)
    (Py.or_str (a_phone a) (Py.or_str (a_full_name a) "Dashboard"))
    (now_text e)
    (Py.or_str (a_phone a) (Py.or_str (a_full_name a) "Unknown"))
    (now_text e)
    (a_full_name a)
    (Py.or_str (a_phone a) "")
    town0 brgy0
    "Select Town" "Select Brgy" "Select Town" "Select Brgy"
    (Py.or_str town0 "")
    "Select Status" "Substation" "Feeder" "Category"
    (a_concern a)
    "Equipment"
    (if Py.any_in ["power"; "outage"; "emergency"] (Py.lower (a_concern a))
     then "high" else "low")
    (if String.eqb (a_existing_job_order a) ""
     then "Priority: " ++ a_priority a ++ " | " ++ a_concern a
     else "Original Job Order: " ++ a_existing_job_order a ++
          " | Priority: " ++ a_priority a ++ " | " ++ a_concern a)
    ""
    (a_phone a)
    (a_location_raw a)
    (a_latitude a) (a_longitude a)
    "Pending".

(** The fetch of the complaint row.  The [power_outage_reports] branch
    assigns none of [full_name], [phone], [location_raw], [concern],
    [priority], [existing_job_order]: the first read of [location_raw]
    after it raises. *)
Definition read_for_assignment (e : env) (st : store) (table : string) (record_id : Z)
  : outcome (response + assignment) :=
  execute e StCursor ;;;
  match family_of_table table with
  | Some power_outage_reports =>
      execute e (StSelect table) ;;;
      Raise (exc_text e (StUnboundLocal "location_raw"))
  | Some meter_concern =>
      execute e (StSelect table) ;;;
      match fetch_by_id st meter_concern record_id with
      | None => Return (inl (error_response 200 "Record not found"))
      | Some db_row =>
          Return (inr (mkAssignment
                         (Py.or_else (r_full_name db_row) "Unknown")
                         (Py.or_else (r_contact_number db_row) "N/A")
                         (Py.or_else (r_address db_row) "N/A")
                         (Py.or_else (r_details db_row) "Meter concern")
                         "MEDIUM"
                         (Py.or_else (r_job_order_id db_row) "")
                         (Py.num_or_empty (r_latitude db_row))
                         (Py.num_or_empty (r_longitude db_row))))
      end
  | Some agent_queue =>
      execute e (StSelect table) ;;;
      match fetch_by_id st agent_queue record_id with
      | None => Return (inl (error_response 200 "Record not found"))
      | Some db_row =>
          Return (inr (mkAssignment
                         (Py.or_else (r_full_name db_row) "Unknown")
                         (Py.or_else (r_contact_number db_row) "N/A")
                         ""
                         (Py.or_else (r_details db_row) "Service request")
                         (Py.or_else (r_priority db_row) "LOW")
                         (Py.or_else (r_job_order_id db_row) "")
                         (Py.num_or_empty (r_latitude db_row))
                         (Py.num_or_empty (r_longitude db_row))))
      end
  | None => Return (inl (error_response 200 "Invalid table name"))
  end.

(** The [try] that inserts into [converted] and commits on the job-order
    connection. *)
Definition write_job_order (e : env) (js : job_store) (job : job_order)
  : outcome job_store :=
  execute e StJobCursor ;;;
  execute e StJobInsert ;;;
  execute e StJobCommit ;;;
  Return (js ++ [job])%list.

(** The [UPDATE] of the complaint row and its commit. *)
Definition link_complaint (e : env) (st : store) (table : string) (record_id : Z)
  (converted_unique_id : string) : outcome (response + store) :=
  execute e (StUpdate table) ;;;
  match family_of_table table with
  | None => Raise (exc_text e (StUpdate table))
  | Some f =>
      if (rowcount st f record_id =? 0)%nat
      then Return (inl (error_response 200 "Failed to update record status"))
      else
        execute e (StCommit 0) ;;;
        Return (inr (update_by_id st f record_id
                       (fun r => set_job_order_id converted_unique_id
                                   (set_status "ASSIGNED" r))))
  end.

(** [POST /assign_job_order/<table>/<record_id>] *)
Definition assign_job_order (e : env) (st : store) (js : job_store)
  (table : string) (record_id : Z) : store * job_store * list effect * response :=
  if negb (pool_ok e)
  then (st, js, [], error_response 200 "Database connection failed")
  else
    match read_for_assignment e st table record_id with
    | Raise msg => (st, js, [], error_response 200 msg)
    | Return (inl resp) => (st, js, [], resp)
    | Return (inr a) =>
        let job := converted_data e a in
        let converted_unique_id := unique_id job in
        if negb (joblist_pool_ok e)
        then (st, js, [], error_response 200 "Joblist database connection failed")
        else
          match write_job_order e js job with
          | Raise msg => (st, js, [], error_response 200 msg)
          | Return js' =>
              match link_complaint e st table record_id converted_unique_id with
              | Raise msg =>
                  (st, js', [EffJobOrder converted_unique_id], error_response 200 msg)
              | Return (inl resp) =>
                  (st, js', [EffJobOrder converted_unique_id], resp)
              | Return (inr st') =>
                  (st', js',
                   [EffJobOrder converted_unique_id;
                    EffLink table record_id converted_unique_id],
                   mkResponse true 200 None (Some "ASSIGNED")
                     (Some converted_unique_id)
                     (Some (a_existing_job_order a)))
              end
          end
    end.

(** *** Public intake form *)

Record outage_form : Type := mkOutageForm {
  f_full_name : string;
  f_contact_number : string;
  f_email : string;
  f_account_number : string;
  f_address : string;
  f_latitude : option Z;
  f_longitude : option Z;
  f_accuracy : option Z;
  f_incident_type : string;
  f_affected_area : string;
  f_incident_time : string;
  f_duration : string;
  f_details : string;
  f_landmark : string;
  f_source : string
}.

(** The row the [INSERT] of [submit_power_outage] creates. *)
Definition submitted_row (e : env) (d : outage_form) (priority : string) : row :=
  mkRow (serial e) None
    (Some (Py.strip (f_account_number d)))
    (Some (Py.strip (f_full_name d)))
    (Some (Py.strip (f_address d)))
    (Some (Py.strip (f_contact_number d)))
    (Some (Py.strip (f_details d)))
    None None
    (Some "NEW")
    (Some "Power Outage")
    (Some priority)
    (Some (f_source d))
    (Some (now e))
    (f_latitude d) (f_longitude d) (f_accuracy d)
    (Some false) None
    (Some (Py.strip (f_email d)))
    (Some (Py.strip (f_landmark d)))
    (Some (f_incident_type d))
    (Some (f_affected_area d))
    (Some (f_incident_time d))
    (Some (f_duration d)).

(** [converted_data] of [submit_power_outage] *)
Definition submitted_job_order (e : env) (d : outage_form) (priority : string)
  : job_order :=
  let full_name := Py.strip (f_full_name d) in
  let contact_number := Py.strip (f_contact_number d) in
  let address := Py.strip (f_address d) in
  let details := Py.strip (f_details d) in
  let '(brgy0, town0) := extract_location_parts address in
  mkJobOrder
    (fresh_id e)
    (Py.or_str contact_number full_name)
    (now_text e)
    (Py.or_str contact_number full_name)
    (now_text e)
    full_name
    contact_number
    town0 brgy0
    "Select Town" "Select Brgy" "Select Town" "Select Brgy"
    (Py.or_str town0 "")
    "Select Status" "Substation" "Feeder" "Category"
    (title (Py.underscores_to_spaces (f_incident_type d)) ++ ": " ++ details)
    "Equipment"
    "high"
    ("Priority: " ++ priority ++ " | Type: " ++ f_incident_type d ++
     " | Area: " ++ f_affected_area d ++ " | " ++ details)
    (Py.or_str (Py.strip (f_landmark d)) "")
    contact_number
    address
    (f_latitude d) (f_longitude d)
    "Pending".

(** The automatic job order of [submit_power_outage], after the report is
    committed: the inner [try], whose [except] only logs.  The result is
    the stores as the call leaves them and the value of the local
    [job_order_id], which is set once the job order is committed. *)
Definition automatic_job_order (e : env) (st : store) (js : job_store)
  (d : outage_form) (priority : string)
  : store * job_store * list effect * option string :=
  if negb (Py.mem priority ["CRITICAL"; "HIGH"]) then (st, js, [], None)
  else if negb (joblist_pool_ok e) then (st, js, [], None)
  else
    let job := submitted_job_order e d priority in
    match write_job_order e js job with
    | Raise _ => (st, js, [], None)
    | Return js' =>
        match
          (execute e (StUpdate "power_outage_reports") ;;;
           execute e (StCommit 1) ;;;
           Return (update_by_id st power_outage_reports (serial e)
                     (set_job_order_id (unique_id job))))
        with
        | Raise _ => (st, js', [EffJobOrder (unique_id job)], Some (unique_id job))
        | Return st' =>
            (st', js',
             [EffJobOrder (unique_id job);
              EffLink "power_outage_reports" (serial e) (unique_id job)],
             Some (unique_id job))
        end
    end.

(** The [INSERT] of [submit_power_outage].  [incident_time] is a TIME
    column (line 1428) and takes the text as the form gave it: the empty
    text, which is what a submission without the field gives (line 1980),
    is no time of day, and the server refuses the statement.  Whatever else
    the server refuses is the environment's to say. *)
Definition insert_report (e : env) (d : outage_form) : outcome unit :=
  if String.eqb (f_incident_time d) ""
  then Raise (exc_text e (StInsert "power_outage_reports"))
  else execute e (StInsert "power_outage_reports").

(** [POST /api/submit_power_outage] *)
Definition submit_power_outage (e : env) (st : store) (js : job_store) (d : outage_form)
  : store * job_store * list event * list effect * response :=
  let full_name := Py.strip (f_full_name d) in
  let contact_number := Py.strip (f_contact_number d) in
  let address := Py.strip (f_address d) in
  let details := Py.strip (f_details d) in
  if negb (negb (String.eqb full_name "") && negb (String.eqb contact_number "") &&
           negb (String.eqb address "") && negb (String.eqb details "") &&
           Py.truthy_num (f_latitude d) && Py.truthy_num (f_longitude d))
  then (st, js, [], [], error_response 400 "Missing required fields")
  else
    let priority := determine_priority (f_incident_type d) details in
    if negb (pool_ok e)
    then (st, js, [], [], error_response 500 "Database connection failed")
    else
      match
        (execute e StCursor ;;;
         insert_report e d ;;;
         execute e (StCommit 0))
      with
      | Raise msg => (st, js, [], [], error_response 500 msg)
      | Return _ =>
          let report_id := serial e in
          let st1 := insert_row st power_outage_reports (submitted_row e d priority) in
          let events :=
            (broadcast_new_complaint e report_id (Some priority) ++
             (if String.eqb priority "CRITICAL"
              then broadcast_critical_alert e report_id else []))%list in
          let '(st2, js2, effects, job_order_id) :=
            automatic_job_order e st1 js d priority in
          (st2, js2, events,
           (EffInsert "power_outage_reports" report_id :: effects),
           mkResponse true 200 None None
             (Some (Py.or_else job_order_id "Will be assigned by operator")) None)
      end.

End App.

(** ** actions/actions.py: the chatbot's form actions *)

Module Actions.

(** What an action hands back to the dialogue engine. *)
Inductive rasa_event : Type :=
| SlotSet (slot : string) (value : option string)
| ConversationPaused.

(** The messages of the actions, by template, with the values they
    interpolate. *)
Inductive utterance : Type :=
| AlreadyReported (full_name job_order_id : option string)
| ReportLogged (full_name : option string) (job_order_id : string)
    (address contact_number : option string)
| ErrorSavingReport (text : string)
| DetailsMissing
| ErrorSavingConcern (text : string)
| ConcernSubmitted (full_name job_order_id : string)
| IncompleteInformation
| ConcernRecorded (full_name concern contact_number : string)
| QueuePosition (position : nat)
| SomethingWentWrong
| NoMoreUsers
| Served (full_name : option string)
| FailedToServe.

(** An optional value inside an f-string. *)
Definition fmt (x : option string) : string :=
  match x with
  | Some s => s
  | None => "None"
  end.

Definition eq_opt (col : option string) (value : string) : bool :=
  match col with
  | Some s => String.eqb s value
  | None => false
  end.

Module ActionSubmitPowerOutageFormEnhanced.

(** "Check for existing report today": the newest report of the address
    whose timestamp falls on the current day. *)
Definition existing (e : env) (st : store) (address : option string) : option row :=
  match address with
  | None => None
  | Some a =>
      hd_error
        (newest_first
           (filter (fun r =>
                      eq_opt (r_address r) a &&
                      match r_timestamp r with
                      | Some t => date_of t =? date_of (now e)
                      | None => false
                      end)
                   (outage_rows st)))
  end.

(** [existing[2] not in ['RESOLVED', 'FINISHED']] *)
Definition unresolved (r : row) : bool :=
  match r_status r with
  | Some s => negb (Py.mem s ["RESOLVED"; "FINISHED"])
  | None => true
  end.

Definition new_report (e : env) (user_id : string)
  (full_name address contact_number : option string) : row :=
  mkRow (serial e) (Some user_id) None full_name address contact_number None
    (Some ("Power outage reported at " ++ fmt address))
    (Some (fresh_id e))
    (Some "NEW") (Some "POWER OUTAGE") (Some "HIGH") (Some "Chatbot")
    (Some (now e)) None None None (Some false) None
    None None None None None None.

Definition run (e : env) (st : store)
  (po_full_name po_address po_contact_number : option string) (sender_id : string)
  : store * list utterance * list rasa_event :=
  match
    (execute e StConnect ;;;
     execute e StCursor ;;;
     execute e (StSelect "power_outage_reports") ;;;
     match existing e st po_address with
     | Some found =>
         if unresolved found
         then
           execute e (StCommit 0) ;;;
           Return (st, AlreadyReported po_full_name (r_job_order_id found))
         else
           execute e (StInsert "power_outage_reports") ;;;
           execute e (StCommit 0) ;;;
           Return (insert_row st power_outage_reports
                     (new_report e sender_id po_full_name po_address po_contact_number),
                   ReportLogged po_full_name (fresh_id e) po_address po_contact_number)
     | None =>
         execute e (StInsert "power_outage_reports") ;;;
         execute e (StCommit 0) ;;;
         Return (insert_row st power_outage_reports
                   (new_report e sender_id po_full_name po_address po_contact_number),
                 ReportLogged po_full_name (fresh_id e) po_address po_contact_number)
     end)
  with
  | Raise msg => (st, [ErrorSavingReport msg], [])
  | Return (st', message) =>
      (st', [message],
       [SlotSet "po_full_name" None; SlotSet "po_address" None;
        SlotSet "po_contact_number" None])
  end.

End ActionSubmitPowerOutageFormEnhanced.

Module ActionSubmitMeterConcern.

Definition new_concern (e : env) (user_id account_no full_name address contact_number concern : string)
  : row :=
  mkRow (serial e) (Some user_id) (Some account_no) (Some full_name) (Some address)
    (Some contact_number) (Some concern) None
    (Some (fresh_id e))
    (Some "PENDING") None (Some "MEDIUM") (Some "Chatbot")
    (Some (now e)) None None None (Some false) None
    None None None None None None.

Definition run (e : env) (st : store)
  (mc_account_no mc_full_name mc_address mc_contact_number mc_meter_concern : option string)
  (sender_id : string) : store * list utterance * list rasa_event :=
  match mc_account_no, mc_full_name, mc_address, mc_contact_number, mc_meter_concern with
  | Some account_no, Some full_name, Some address, Some contact_number, Some concern =>
      if String.eqb account_no "" || String.eqb full_name "" || String.eqb address "" ||
         String.eqb contact_number "" || String.eqb concern ""
      then (st, [DetailsMissing], [])
      else
        match
          (execute e StConnect ;;;
           execute e StCursor ;;;
           execute e (StInsert "meter_concern") ;;;
           execute e (StCommit 0))
        with
        | Raise msg => (st, [ErrorSavingConcern msg], [])
        | Return _ =>
            (insert_row st meter_concern
               (new_concern e sender_id account_no full_name address contact_number concern),
             [ConcernSubmitted full_name (fresh_id e)],
             [SlotSet "mc_account_no" None; SlotSet "mc_full_name" None;
              SlotSet "mc_address" None; SlotSet "mc_contact_number" None;
              SlotSet "mc_meter_concern" None])
        end
  | _, _, _, _, _ => (st, [DetailsMissing], [])
  end.

End ActionSubmitMeterConcern.

Module ActionSubmitTalkToAgentForm.

Definition get_priority_from_concern (concern : option string) : string :=
  let concern := Py.lower (Py.or_else concern "") in
  if Py.any_in ["emergency"; "fire"; "fallen"; "accident"; "hazard"] concern
  then "critical"
  else if Py.any_in ["no electricity"; "power outage"; "blackout"] concern
  then "high"
  else if Py.any_in ["billing"; "bill"; "payment"; "follow-up"; "follow up"] concern
  then "medium"
  else if Py.any_in ["transfer"; "new connection"; "installation"; "application"] concern
  then "low"
  else "low".

(** [WHERE status = 'Pending' ORDER BY timestamp ASC] *)
Definition pending (l : list row) : list row :=
  oldest_first (filter (fun r => eq_opt (r_status r) "Pending") l).

Module Shadowed.

Definition new_request (e : env) (user_id full_name concern contact_number priority : string)
  : row :=
  mkRow (serial e) (Some user_id) None (Some full_name) None (Some contact_number)
    (Some concern) None None
    (Some "Pending") None (Some priority) None
    (Some (now e)) None None None (Some false) (Some false)
    None None None None None None.

(** [queue_positions[user_id]]: one more than the last index at which the
    sender occurs in the queue; [None] is the [KeyError]. *)
Fixpoint queue_position (user_id : string) (queue : list row) (idx : nat) : option nat :=
  match queue with
  | [] => None
  | r :: rest =>
      match queue_position user_id rest (S idx) with
      | Some p => Some p
      | None => if eq_opt (r_user_id r) user_id then Some (S idx) else None
      end
  end.

(** [run] as first defined in the class (line 676).  The class body
    defines [run] a second time (line 760), so this method is not the one
    the dialogue engine calls. *)
Definition run (e : env) (st : store)
  (tta_full_name tta_concern tta_contact_number : option string) (sender_id : string)
  : store * list utterance * list rasa_event :=
  let priority := get_priority_from_concern tta_concern in
  match tta_full_name, tta_contact_number, tta_concern with
  | Some full_name, Some contact_number, Some concern =>
      if String.eqb full_name "" || String.eqb contact_number "" || String.eqb concern ""
      then (st, [IncompleteInformation], [])
      else
        let st' := insert_row st agent_queue
                     (new_request e sender_id full_name concern contact_number priority) in
        match
          (execute e StConnect ;;;
           execute e StCursor ;;;
           execute e (StInsert "agent_queue") ;;;
           execute e StQueue ;;;
           match queue_position sender_id (pending (agent_rows st')) 0 with
           | None => Raise "KeyError"
           | Some position =>
               execute e (StCommit 0) ;;;
               Return position
           end)
        with
        | Raise _ => (st, [SomethingWentWrong], [])
        | Return position =>
            (st',
             [ConcernRecorded full_name concern contact_number; QueuePosition position],
             [SlotSet "tta_full_name" None; SlotSet "tta_concern" None;
              SlotSet "tta_contact_number" None; ConversationPaused])
        end
  | _, _, _ => (st, [IncompleteInformation], [])
  end.

End Shadowed.

(** [run] as the class ends up with it (line 760): the body written for
    the nested [ActionServeNextUser], which takes the head of the pending
    queue and marks it resolved. *)
Definition run (e : env) (st : store) : store * list utterance * list rasa_event :=
  match
    (execute e StConnect ;;;
     execute e StCursor ;;;
     execute e StQueue ;;;
     match hd_error (pending (agent_rows st)) with
     | None => Return (st, NoMoreUsers)
     | Some first_user =>
         execute e (StUpdate "agent_queue") ;;;
         execute e (StCommit 0) ;;;
         Return (update_by_id st agent_queue (r_id first_user) (set_status "Resolved"),
                 Served (r_full_name first_user))
     end)
  with
  | Raise _ => (st, [FailedToServe], [])
  | Return (st', message) => (st', [message], [])
  end.

End ActionSubmitTalkToAgentForm.

End Actions.

(** ** actions/sms_handler.py: inbound SMS *)

Module SmsHandler.

Record parsed_sms : Type := mkParsed {
  p_issue_type : string;
  p_full_name : string;
  p_address : string;
  p_contact_number : string;
  p_details : string;
  p_priority : string;
  p_from_number : string
}.

Module SMSParser.

Definition _detect_issue_type (content : string) : string :=
  let content_lower := Py.lower content in
  if Py.any_in ["outage"; "blackout"; "no power"; "brownout"; "walang kuryente"] content_lower
  then "POWER OUTAGE"
  else if Py.any_in ["bill"; "billing"; "bayad"; "presyo"] content_lower
  then "BILLING"
  else "SERVICE".

Definition _determine_priority (details : string) : string :=
  let details_lower := Py.lower details in
  if Py.any_in ["fire"; "emergency"; "danger"; "explosion"; "accident";
                "fallen wire"; "live wire"; "sunog"; "emergency"; "delikado"]
       details_lower
  then "CRITICAL"
  else "HIGH".

End SMSParser.

Section Webhook.

(** [SMSParser.parse_sms] splits the message with [re.match]; the regular
    expression engine is not part of this development, and the webhook is
    taken over an arbitrary parser. *)
Variable parse_sms : string -> string -> option parsed_sms.

Definition sms_row (e : env) (p : parsed_sms) : family * row :=
  if String.eqb (p_issue_type p) "POWER OUTAGE"
  then (power_outage_reports,
        mkRow (serial e) None None (Some (p_full_name p)) (Some (p_address p))
          (Some (p_contact_number p)) (Some (p_details p)) None None
          (Some "NEW") (Some "Power Outage") (Some (p_priority p)) (Some "SMS")
          (Some (now e)) None None None (Some false) None
          None None None None None None)
  else if String.eqb (p_issue_type p) "BILLING"
  then (meter_concern,
        mkRow (serial e) None (Some "N/A") (Some (p_full_name p)) (Some (p_address p))
          (Some (p_contact_number p)) (Some (p_details p)) None None
          (Some "NEW") None (Some "MEDIUM") (Some "SMS")
          (Some (now e)) None None None (Some false) None
          None None None None None None)
  else (agent_queue,
        mkRow (serial e) (Some (p_from_number p)) None (Some (p_full_name p)) None
          (Some (p_contact_number p)) (Some (p_details p)) None None
          (Some "NEW") None (Some (p_priority p)) None
          (Some (now e)) None None None (Some false) (Some false)
          None None None None None None).

(** [POST /api/sms/webhook] *)
Definition sms_webhook (e : env) (st : store) (from_number message_body : string)
  : store * list event * response :=
  match parse_sms message_body from_number with
  | None => (st, [], mkResponse false 200 (Some "Invalid format") None None None)
  | Some parsed_data =>
      if negb (pool_ok e)
      then (st, [], error_response 500 "System error. Please try again later.")
      else
        let '(f, new_row) := sms_row e parsed_data in
        match
          (execute e StCursor ;;;
           execute e (StInsert (table_name f)) ;;;
           execute e (StCommit 0))
        with
        | Raise _ =>
            (st, [], error_response 500 "Error processing your complaint. Please try again.")
        | Return _ =>
            (insert_row st f new_row,
             (App.broadcast_new_complaint e (serial e) (Some (p_priority parsed_data)) ++
              (if String.eqb (p_priority parsed_data) "CRITICAL"
               then App.broadcast_critical_alert e (serial e) else []))%list,
             ok_response)
        end
  end.

End Webhook.

End SmsHandler.

(** ** ileco1-render/cloud_app.py: complaints relayed by the public node *)

Module CloudApp.

Record relayed : Type := mkRelayed {
  w_full_name : option string;
  w_contact_number : option string;
  w_email : option string;
  w_address : option string;
  w_latitude : option Z;
  w_longitude : option Z;
  w_details : option string;
  w_incident_type : option string;
  w_priority : option string
}.

Definition relayed_row (e : env) (data : relayed) : row :=
  mkRow (serial e) None None (w_full_name data) (w_address data)
    (w_contact_number data) (w_details data) None None
    (Some "NEW") None (w_priority data) (Some "AWS EC2 Public Form")
    (Some (now e)) (w_latitude data) (w_longitude data) None (Some false) None
    (w_email data) None (w_incident_type data) None None None.

(** [POST /api/webhook/new_complaint] *)
Definition webhook_new_complaint (e : env) (st : store) (data : relayed)
  : store * list event * response :=
  if negb (pool_ok e)
  then (st, [], error_response 500 "Database connection failed")
  else
    match
      (execute e StCursor ;;;
       execute e (StInsert "power_outage_reports") ;;;
       execute e (StCommit 0))
    with
    | Raise msg => (st, [], error_response 500 msg)
    | Return _ =>
        (insert_row st power_outage_reports (relayed_row e data),
         (App.broadcast_new_complaint e (serial e) (w_priority data) ++
          (if Actions.eq_opt (w_priority data) "CRITICAL"
           then App.broadcast_critical_alert e (serial e) else []))%list,
         ok_response)
    end.

End CloudApp.

(** ** actions/local_dashboard.py: the stand-alone dashboard

    Its two mutating endpoints take a table name and ignore it: they act on
    [power_outage_reports]. *)

Module LocalDashboard.

(** [POST /update_status/<table>/<record_id>] *)
Definition update_status (e : env) (st : store) (record_id : Z) (status : string)
  : store * response :=
  let new_status := Py.upper status in
  if negb (Py.mem new_status ["NEW"; "ASSIGNED"; "IN_PROGRESS"; "RESOLVED"])
  then (st, error_response 400 "Invalid status")
  else
    match
      (execute e StConnect ;;;
       execute e StCursor ;;;
       execute e (StUpdate "power_outage_reports") ;;;
       execute e (StCommit 0))
    with
    | Raise msg => (st, error_response 500 msg)
    | Return _ =>
        (update_by_id st power_outage_reports record_id (set_status new_status),
         mkResponse true 200 None (Some new_status) None None)
    end.

(** [POST /delete_complaint/<table>/<record_id>] *)
Definition delete_complaint (e : env) (st : store) (record_id : Z) : store * response :=
  match
    (execute e StConnect ;;;
     execute e StCursor ;;;
     execute e (StUpdate "power_outage_reports") ;;;
     execute e (StCommit 0))
  with
  | Raise msg => (st, error_response 500 msg)
  | Return _ => (update_by_id st power_outage_reports record_id set_hidden, ok_response)
  end.

End LocalDashboard.

(** ** The public contract as a transition system *)

(** Both stores. *)
Record world : Type := mkWorld {
  complaints_db : store;
  joblist_db : job_store
}.

(** The requests that can change a complaint table. *)
Inductive request : Type :=
| SubmitPowerOutage (d : App.outage_form)
| UpdateStatus (table : string) (record_id : Z) (status : string)
| HideComplaint (table : string) (record_id : Z)
| DeleteComplaint (table : string) (record_id : option Z)
| ResumeConversation (row_id : Z)
| UpdateLocation (table : string) (record_id : Z) (latitude longitude accuracy : App.coord)
| AssignJobOrder (table : string) (record_id : Z)
| ChatPowerOutage (full_name address contact_number : option string) (sender_id : string)
| ChatMeterConcern (account_no full_name address contact_number concern : option string)
    (sender_id : string)
| ChatTalkToAgent
| SmsWebhook (from_number message_body : string)
| RelayedComplaint (data : CloudApp.relayed)
| LocalUpdateStatus (record_id : Z) (status : string)
| LocalDeleteComplaint (record_id : Z).

Section Contract.

Variable parse_sms : string -> string -> option SmsHandler.parsed_sms.

(** One request served in an environment. *)
Definition handle (e : env) (w : world) (req : request) : world :=
  let st := complaints_db w in
  let js := joblist_db w in
  match req with
  | SubmitPowerOutage d =>
      let '(st', js', _, _, _) := App.submit_power_outage e st js d in mkWorld st' js'
  | UpdateStatus table record_id status =>
      let '(st', _, _) := App.update_status e st table record_id status in mkWorld st' js
  | HideComplaint table record_id =>
      mkWorld (fst (App.hide_complaint e st table record_id)) js
  | DeleteComplaint table record_id =>
      mkWorld (fst (App.delete_complaint e st table record_id)) js
  | ResumeConversation row_id =>
      mkWorld (fst (App.resume_conversation e st row_id)) js
  | UpdateLocation table record_id latitude longitude accuracy =>
      mkWorld (fst (App.update_complaint_location e st table record_id
                      latitude longitude accuracy)) js
  | AssignJobOrder table record_id =>
      let '(st', js', _, _) := App.assign_job_order e st js table record_id in
      mkWorld st' js'
  | ChatPowerOutage full_name address contact_number sender_id =>
      let '(st', _, _) :=
        Actions.ActionSubmitPowerOutageFormEnhanced.run e st
          full_name address contact_number sender_id in
      mkWorld st' js
  | ChatMeterConcern account_no full_name address contact_number concern sender_id =>
      let '(st', _, _) :=
        Actions.ActionSubmitMeterConcern.run e st
          account_no full_name address contact_number concern sender_id in
      mkWorld st' js
  | ChatTalkToAgent =>
      let '(st', _, _) := Actions.ActionSubmitTalkToAgentForm.run e st in mkWorld st' js
  | SmsWebhook from_number message_body =>
      let '(st', _, _) := SmsHandler.sms_webhook parse_sms e st from_number message_body in
      mkWorld st' js
  | RelayedComplaint data =>
      let '(st', _, _) := CloudApp.webhook_new_complaint e st data in mkWorld st' js
  | LocalUpdateStatus record_id status =>
      mkWorld (fst (LocalDashboard.update_status e st record_id status)) js
  | LocalDeleteComplaint record_id =>
      mkWorld (fst (LocalDashboard.delete_complaint e st record_id)) js
  end.

(** A history of requests, each in its own environment. *)
Fixpoint serve (w : world) (history : list (env * request)) : world :=
  match history with
  | [] => w
  | (e, req) :: rest => serve (handle e w req) rest
  end.

End Contract.

(** An environment in which nothing fails. *)
Definition healthy (e : env) : Prop :=
  pool_ok e = true /\
  joblist_pool_ok e = true /\
  (forall f, table_exists e f = true) /\
  (forall s, raises e s = false) /\
  emit_ok e = true.

(** A row at a later time: the same key, and the soft-delete and resumed
    marks still set if they were. *)
Definition row_kept (r r' : row) : Prop :=
  r_id r' = r_id r /\
  (r_hidden r = Some true -> r_hidden r' = Some true) /\
  (r_resumed r = Some true -> r_resumed r' = Some true).

(** A row at a later time, as far as its job order goes: the same key and
    the same [job_order_id]. *)
Definition row_job_kept (r r' : row) : Prop :=
  r_id r' = r_id r /\ r_job_order_id r' = r_job_order_id r.

(** A store at a later time: each table holds its earlier rows, in place
    and related by [R], followed by the rows added since. *)
Definition evolves_by (R : row -> row -> Prop) (st st' : store) : Prop :=
  forall f, exists kept added,
    rows st' f = (kept ++ added)%list /\ Forall2 R (rows st f) kept.

Definition evolves : store -> store -> Prop := evolves_by row_kept.

(** Lexicographic order on the sort keys. *)
Definition key_leq (k1 k2 : Z * Z * Z) : Prop :=
  let '(s1, p1, t1) := k1 in
  let '(s2, p2, t2) := k2 in
  s1 < s2 \/ (s1 = s2 /\ (p1 < p2 \/ (p1 = p2 /\ t1 <= t2))).

(** [needle] occurs in [hay]. *)
Definition occurs_in (needle hay : string) : Prop :=
  exists before after, hay = before ++ needle ++ after.

(** A concrete environment in which nothing fails. *)
Definition calm (clock key : Z) (generated : string) : env :=
  mkEnv clock "01/01/26 12:00:00 AM" (fun _ => "12:00 AM")
    (fun _ => None) (fun _ => None) key generated
    true true (fun _ => true) (fun _ => false) (fun _ => "error") true true.


(** ** Sample data *)

(** A row with the given key, status, priority and timestamp, and nothing
    else set beyond a name. *)
Definition sample_row (id : Z) (status priority : string) (timestamp : Z) : row :=
  mkRow id (Some "u1") None (Some "Juan Dela Cruz") (Some "Brgy. Bacan, Cabatuan, Iloilo")
    (Some "09123456789") (Some "no power") None None
    (Some status) None (Some priority) None
    (Some timestamp) None None None (Some false) (Some false)
    None None None None None None.

(** Three complaints, one per table, fetched in the order RESOLVED/CRITICAL,
    NEW/LOW, NEW/HIGH; the resolved one is the most recent. *)
Definition three_complaints : store :=
  mkStore [sample_row 7 "NEW" "HIGH" 1000]
          [sample_row 7 "NEW" "LOW" 2000]
          [sample_row 7 "RESOLVED" "CRITICAL" 3000].


(** What the query of a family yields when it runs: its rows that pass the
    filters, newest first, in the common shape; nothing when the type
    filter passes the family over. *)
Definition matching (e : env) (st : store) (flt : App.filters) (f : family)
  : list App.complaint :=
  let bounds :=
    App.parse_datetime_filters e (App.date_from flt) (App.date_to flt)
      (App.time_from flt) (App.time_to flt) in
  if App.type_excluded f (App.normalize_filter (App.type_filter flt) "All Types")
  then []
  else
    map (App.to_complaint e f)
      (newest_first
         (filter (App.where_clause f (App.show_hidden flt) (App.search_term flt)
                    (App.normalize_filter (App.status_filter flt) "All Status")
                    (App.normalize_filter (App.priority_filter flt) "All Priorities")
                    (fst bounds) (snd bounds))
                 (rows st f))).

(** What a family adds to the merged list: nothing when its table is
    missing or its query raises. *)
Definition contribution (e : env) (st : store) (flt : App.filters) (f : family)
  : list App.complaint :=
  if table_exists e f && negb (raises e (StSelect (table_name f)))
  then matching e st flt f
  else [].

(** The merge order. *)
(** Bringing the table of a family up to date raises: one of the
    statements of [ensure_columns] fails, and so does the rollback of its
    handler. *)
Definition ensure_fails (e : env) (f : family) : bool :=
  table_exists e f && raises e (StEnsure (table_name f)) && raises e StRollback.

Definition by_sort_key (l : list App.complaint) : list App.complaint :=
  stable_sort (fun a b => App.key_le (App.sort_key a) (App.sort_key b)) l.


(** The request is not a job-order assignment; if it is a submission of the
    public form, the key its report draws from the sequence belongs to no
    earlier report. *)
Definition not_an_assignment (e : env) (st : store) (req : request) : Prop :=
  match req with
  | AssignJobOrder _ _ => False
  | SubmitPowerOutage _ => forall r, In r (outage_rows st) -> r_id r <> serial e
  | _ => True
  end.

(** A meter concern that already carries a job order. *)
Definition assigned_concern : row :=
  mkRow 7 (Some "u1") (Some "123456") (Some "Juan Dela Cruz")
    (Some "Brgy. Bacan, Cabatuan, Iloilo") (Some "09123456789")
    (Some "broken meter") None (Some "JO-20260101-1234")
    (Some "ASSIGNED") None (Some "MEDIUM") (Some "Chatbot")
    (Some 1000) None None None (Some false) None
    None None None None None None.

Definition one_assigned_concern : store := mkStore [] [assigned_concern] [].

Definition empty_store : store := mkStore [] [] [].

(** A complete submission of the public form: an outage noticed at half
    past eight. *)
Definition sample_form : App.outage_form :=
  App.mkOutageForm "Juan Dela Cruz" "09123456789" "" ""
    "Brgy. Bacan, Cabatuan, Iloilo" (Some 10800000) (Some 122500000) None
    "power_outage" "single_house" "08:30" "just_now" "no electricity since morning" ""
    "Web Form".

(** The store after a first submission of that form: one report of the
    address, made the same day and still NEW. *)
Definition one_outage_report : store :=
  fst (fst (fst (fst
    (App.submit_power_outage (calm 1000 1 "AAAAAAAAAAAA") empty_store [] sample_form)))).

(** An environment in which only the query on one table raises. *)
Definition query_fails (table : string) : env :=
  mkEnv 5000 "01/01/26 12:00:00 AM" (fun _ => "12:00 AM")
    (fun _ => None) (fun _ => None) 1 "id"
    true true (fun _ => true)
    (fun s => match s with
              | StSelect t => String.eqb t table
              | _ => false
              end)
    (fun _ => "query failed") true true.

(** An environment whose pooled connection has gone dead after the pool
    handed it out: every statement on it raises, the rollback included. *)
Definition dead_connection : env :=
  mkEnv 5000 "01/01/26 12:00:00 AM" (fun _ => "12:00 AM")
    (fun _ => None) (fun _ => None) 1 "id"
    true true (fun _ => true)
    (fun _ => true)
    (fun _ => "connection already closed") true true.

(** ** Vocabulary of the further properties *)

(** The text has none of the characters [LIKE] reads as a wildcard or as
    an escape. *)
Fixpoint plain (t : string) : bool :=
  match t with
  | EmptyString => true
  | String c t' =>
      negb (Ascii.eqb c "%" || Ascii.eqb c "_" || Ascii.eqb c "\") && plain t'
  end.

(** The bounds the listing works with. *)
Definition bounds (e : env) (flt : App.filters) : option Z * option Z :=
  App.parse_datetime_filters e (App.date_from flt) (App.date_to flt)
    (App.time_from flt) (App.time_to flt).

(** The row passes every test the listing puts on a row of its family. *)
Definition passes (e : env) (flt : App.filters) (f : family) (r : row) : bool :=
  negb (App.type_excluded f (App.normalize_filter (App.type_filter flt) "All Types")) &&
  App.where_clause f (App.show_hidden flt) (App.search_term flt)
    (App.normalize_filter (App.status_filter flt) "All Status")
    (App.normalize_filter (App.priority_filter flt) "All Priorities")
    (fst (bounds e flt)) (snd (bounds e flt)) r.

(** The filters with the date and time fields cleared. *)
Definition without_dates (flt : App.filters) : App.filters :=
  App.mkFilters (App.status_filter flt) (App.priority_filter flt) (App.type_filter flt)
    (App.search_term flt) (App.show_hidden flt) None None None None.

(** The filters with the end date and time cleared. *)
Definition without_end (flt : App.filters) : App.filters :=
  App.mkFilters (App.status_filter flt) (App.priority_filter flt) (App.type_filter flt)
    (App.search_term flt) (App.show_hidden flt)
    (App.date_from flt) None (App.time_from flt) None.

(** The call [get_unified_complaints(search_term=term)]. *)
Definition search_for (term : string) : App.filters :=
  App.mkFilters None None None (Some term) false None None None None.

(** The call [get_unified_complaints(show_hidden=True)]. *)
Definition with_hidden : App.filters :=
  App.mkFilters None None None None true None None None None.


(** The call [get_unified_complaints(priority_filter=priority)]. *)
Definition with_priority (priority : string) : App.filters :=
  App.mkFilters None (Some priority) None None false None None None None.


(** An environment in which nothing fails and whose date parser knows one
    date. *)
Definition calm_with_date (clock : Z) (date : string) (day : Z) : env :=
  mkEnv clock "01/01/26 12:00:00 AM" (fun _ => "12:00 AM")
    (fun d => if String.eqb d date then Some day else None) (fun _ => None) 1 "id"
    true true (fun _ => true) (fun _ => false) (fun _ => "error") true true.

(** The event is a critical alert. *)
Definition is_alert (ev : event) : bool :=
  match ev with
  | EvCriticalAlert _ => true
  | _ => false
  end.

(** A submission of the public form that reports a fallen wire. *)
Definition fallen_wire_form : App.outage_form :=
  App.mkOutageForm "Juan Dela Cruz" "09123456789" "" ""
    "Brgy. Bacan, Cabatuan, Iloilo" (Some 10800000) (Some 122500000) None
    "fallen_wire" "single_house" "08:30" "just_now" "a wire is on the road" ""
    "Web Form".

(** ** Text beyond ASCII

    What a user types into the chatbot is a [str] of any characters of
    Unicode.  A validator that matches a pattern against the answer reads
    it character by character: there the answer is the list of its code
    points, and what Python takes from the Unicode tables of the
    interpreter is a parameter: which characters are decimal digits (what
    [\d] matches in a [str] pattern), [str.upper] and [str.strip]. *)

Module Unicode.

Definition text : Type := list N.

(** The text of a [string]: the code point of each character. *)
Definition of_string (s : string) : text :=
  map N_of_ascii (list_ascii_of_string s).

Record tables : Type := mkTables {
  isdecimal : N -> bool;      (* the character is a decimal digit (category Nd) *)
  upper : text -> text;       (* str.upper() *)
  strip : text -> text        (* str.strip() *)
}.

Definition is_ascii (t : text) : bool := forallb (fun c => (c <? 128)%N) t.

(** [a == b] *)
Fixpoint eqb (a b : text) : bool :=
  match a, b with
  | [], [] => true
  | c :: a', d :: b' => N.eqb c d && eqb a' b'
  | _, _ => false
  end.

(** What the tables say on ASCII, whatever their version: 0 to 9 are
    decimal digits, and on a text of ASCII characters [str.upper] and
    [str.strip] are the functions of [Py]. *)
Definition standard (u : tables) : Prop :=
  (forall c, (48 <= c <= 57)%N -> isdecimal u c = true) /\
  (forall s, is_ascii (of_string s) = true ->
             upper u (of_string s) = of_string (Py.upper s)) /\
  (forall s, is_ascii (of_string s) = true ->
             strip u (of_string s) = of_string (Py.strip s)).

End Unicode.

(** ** Regular expressions, as [re.fullmatch] runs them

    The patterns of actions/actions.py are built from literal ASCII
    characters, [\d], concatenation and counted repetition, and are matched
    against [str] values: [\d] is any decimal digit of Unicode. *)

Module Re.

Inductive pattern : Type :=
| Lit (c : ascii)                       (* a literal character *)
| Digit                                 (* \d *)
| Seq (p q : pattern)                   (* pq *)
| Repeat (lo hi : nat) (p : pattern).   (* p{lo,hi} *)

Section Matcher.

Variable isdecimal : N -> bool.

(** The backtracking matcher: [p] is tried at the front of [s], and [k]
    on what is left after it; a repetition takes as many rounds as it can
    and gives them back one at a time. *)
Fixpoint run (p : pattern) (s : Unicode.text) (k : Unicode.text -> bool) : bool :=
  match p with
  | Lit c =>
      match s with
      | [] => false
      | d :: s' => N.eqb (N_of_ascii c) d && k s'
      end
  | Digit =>
      match s with
      | [] => false
      | d :: s' => isdecimal d && k s'
      end
  | Seq p1 p2 => run p1 s (fun rest => run p2 rest k)
  | Repeat lo hi p' =>
      (fix rounds (lo hi : nat) (s : Unicode.text) {struct hi} : bool :=
         match hi with
         | O => match lo with O => k s | S _ => false end
         | S hi' =>
             run p' s (fun rest => rounds (Nat.pred lo) hi' rest) ||
             match lo with O => k s | S _ => false end
         end) lo hi s
  end.

(** [re.fullmatch(p, s)] as a truth value *)
Definition fullmatch (p : pattern) (s : Unicode.text) : bool :=
  run p s (fun rest => match rest with [] => true | _ :: _ => false end).

End Matcher.

End Re.

(** ** actions/actions.py: the form validators

    A validator returns the value its slot is set to, [None] when the
    answer is rejected; the message it utters on a rejection is a fixed
    text.  The name validators, which rest on [str.isalpha], are not part of
    this development. *)

(** [r"09\d{9}"] *)
Definition contact_number_pattern : Re.pattern :=
  Re.Seq (Re.Lit "0") (Re.Seq (Re.Lit "9") (Re.Repeat 9 9 Re.Digit)).

(** [r"\d{6,12}"] *)
Definition account_no_pattern : Re.pattern := Re.Repeat 6 12 Re.Digit.

(** [r"JO-\d{8}-\d{4}"] *)
Definition job_order_id_pattern : Re.pattern :=
  Re.Seq (Re.Lit "J") (Re.Seq (Re.Lit "O") (Re.Seq (Re.Lit "-")
    (Re.Seq (Re.Repeat 8 8 Re.Digit) (Re.Seq (Re.Lit "-") (Re.Repeat 4 4 Re.Digit))))).

Module ValidatePowerOutageForm.

Definition allowed_towns : list string :=
  ["tubungan"; "alimodian"; "cabatuan"; "guimbal"; "igbaras";
   "leganes"; "leon"; "miag-ao"; "miagao";
   "oton"; "pavia"; "san joaquin"; "san miguel"; "sta. barbara"; "sta barbara";
   "tigbauan"].


Definition validate_po_contact_number (u : Unicode.tables) (slot_value : Unicode.text)
  : option Unicode.text :=
  if Re.fullmatch (Unicode.isdecimal u) contact_number_pattern slot_value
  then Some slot_value else None.

End ValidatePowerOutageForm.

Module ValidateMeterConcernForm.

(** The format test, then the lookup in [consumer_accounts], whose
    [acctno] column is given as a list; whatever the lookup raises rejects
    the answer. *)
Definition validate_mc_account_no (u : Unicode.tables) (e : env)
  (consumer_accounts : list Unicode.text) (slot_value : Unicode.text)
  : option Unicode.text :=
  let account_no := Unicode.strip u slot_value in
  if negb (Re.fullmatch (Unicode.isdecimal u) account_no_pattern account_no) then None
  else
    match
      (execute e StConnect ;;;
       execute e StCursor ;;;
       execute e (StSelect "consumer_accounts") ;;;
       Return (existsb (Unicode.eqb account_no) consumer_accounts))
    with
    | Return true => Some account_no
    | Return false => None
    | Raise _ => None
    end.

Definition allowed_towns : list string :=
  ["tubungan"; "alimodian"; "cabatuan"; "guimbal"; "igbaras";
   "leganes"; "leon"; "miag-ao"; "miagao";
   "oton"; "pavia"; "san joaquin"; "san miguel";
   "sta. barbara"; "sta barbara"; "tigbauan"].


Definition validate_mc_contact_number (u : Unicode.tables) (slot_value : Unicode.text)
  : option Unicode.text :=
  if Re.fullmatch (Unicode.isdecimal u) contact_number_pattern slot_value
  then Some slot_value else None.



End ValidateMeterConcernForm.

Module ValidateFollowUpReportForm.

(** [match.group(0)] of a full match is the text that was matched. *)
Definition validate_fr_job_order_id (u : Unicode.tables) (slot_value : Unicode.text)
  : option Unicode.text :=
  let text := Unicode.strip u (Unicode.upper u slot_value) in
  if Re.fullmatch (Unicode.isdecimal u) job_order_id_pattern text then Some text else None.

End ValidateFollowUpReportForm.

Module ValidateTalkToAgentForm.

Definition validate_tta_contact_number (u : Unicode.tables) (slot_value : Unicode.text)
  : option Unicode.text :=
  if Re.fullmatch (Unicode.isdecimal u) contact_number_pattern slot_value
  then Some slot_value else None.

End ValidateTalkToAgentForm.

(** ** actions/actions.py: job order numbers and the follow-up action *)

(** [str(n)] for an integer that is not negative: the decimal digits, most
    significant first. *)
Fixpoint decimal (fuel : nat) (n : Z) (acc : string) : string :=
  match fuel with
  | O => acc
  | S fuel' =>
      let acc' := String (ascii_of_nat (48 + Z.to_nat (n mod 10))) acc in
      if n <? 10 then acc' else decimal fuel' (n / 10) acc'
  end.

Definition str_int (n : Z) : string := decimal (S (Z.to_nat (Z.log2 n))) n "".

(** [f"JO-{datetime.now().strftime('%Y%m%d')}-{random.randint(1000, 9999)}"],
    from the text of the date and the number drawn. *)
Definition job_order_number (today : string) (draw : Z) : string :=
  "JO-" ++ today ++ "-" ++ str_int draw.

Module ActionSubmitFollowUpReportForm.

(** The messages of the action, by template. *)
Inductive answer : Type :=
| ResolvedAs (job_order_id : option string) (status : string)
| CurrentStatus (status : string)
| StatusUpdate (job_order_id : option string) (status : string)
| NoReportFound (job_order_id : option string)
| ErrorCheckingReport (text : string).

(** [WHERE job_order_id = %s]: a [NULL] column or a [None] parameter
    matches nothing. *)
Definition has_job_order (fr_job_order_id : option string) (r : row) : bool :=
  match fr_job_order_id with
  | Some j => Actions.eq_opt (r_job_order_id r) j
  | None => false
  end.

(** [fetchone()] takes the first matching row in heap order, one of the
    orders the database may choose.  A [NULL] status makes
    [status.lower()] raise. *)
Definition run (e : env) (st : store) (fr_job_order_id : option string)
  : answer * list Actions.rasa_event :=
  let message :=
    match
      (execute e StConnect ;;;
       execute e StCursor ;;;
       execute e (StSelect "power_outage_reports") ;;;
       match find (has_job_order fr_job_order_id) (outage_rows st) with
       | Some result =>
           match r_status result with
           | None => Raise "'NoneType' object has no attribute 'lower'"
           | Some status =>
               let status_lower := Py.lower status in
               if Py.mem status_lower ["completed"; "finished"]
               then Return (ResolvedAs fr_job_order_id status)
               else if Py.mem status_lower ["in progress"; "pending"]
               then Return (CurrentStatus status)
               else Return (StatusUpdate fr_job_order_id status)
           end
       | None => Return (NoReportFound fr_job_order_id)
       end)
    with
    | Return m => m
    | Raise msg => ErrorCheckingReport msg
    end in
  (message, [Actions.SlotSet "fr_job_order_id" None]).

End ActionSubmitFollowUpReportForm.

(** One of the characters 0 to 9. *)
Definition ascii_digit (c : ascii) : bool :=
  let n := nat_of_ascii c in ((48 <=? n) && (n <=? 57))%nat.

(** Every character is one of 0 to 9. *)
Fixpoint digits (s : string) : bool :=
  match s with
  | EmptyString => true
  | String c s' => ascii_digit c && digits s'
  end.

(** [Py.upper_char], [Py.isspace], [Py.lstrip] and [Py.rstrip] on code
    points. *)
Definition upper_point (c : N) : N :=
  if ((97 <=? c) && (c <=? 122))%N then (c - 32)%N else c.

Definition space_point (c : N) : bool :=
  (((9 <=? c) && (c <=? 13)) || ((28 <=? c) && (c <=? 32)))%N.

Fixpoint lstrip_points (t : Unicode.text) : Unicode.text :=
  match t with
  | [] => []
  | c :: t' => if space_point c then lstrip_points t' else t
  end.

Fixpoint rstrip_points (t : Unicode.text) : Unicode.text :=
  match t with
  | [] => []
  | c :: t' =>
      match rstrip_points t' with
      | [] => if space_point c then [] else [c]
      | r => c :: r
      end
  end.

(** Tables that know the decimal digits of ASCII and the Arabic-Indic
    ones (U+0660 to U+0669), and in which only ASCII has letter case and
    white space. *)
Definition two_scripts : Unicode.tables :=
  Unicode.mkTables
    (fun c => ((48 <=? c) && (c <=? 57)) || ((1632 <=? c) && (c <=? 1641)))%N
    (map upper_point)
    (fun t => rstrip_points (lstrip_points t)).

(** The Arabic-Indic digit three. *)
Definition arabic_indic_three : N := 1635%N.

(** No report carries the job order number. *)
Definition unused_number (st : store) (j : string) : Prop :=
  forall r, In r (outage_rows st) -> r_job_order_id r <> Some j.

(** No character is white space. *)
Fixpoint spaceless (s : string) : bool :=
  match s with
  | EmptyString => true
  | String c s' => negb (Py.isspace c) && spaceless s'
  end.

(** An environment in which the statements of a chatbot action raise
    nothing. *)
Definition answers (e : env) : Prop :=
  raises e StConnect = false /\ raises e StCursor = false /\
  forall table, raises e (StSelect table) = false.

(** Two requests waiting for an agent, the later one inserted first. *)
Definition waiting_room : store :=
  mkStore [] [] [sample_row 1 "Pending" "low" 2000; sample_row 2 "Pending" "low" 1000].

(** ** actions/app.py: accounts and the login

    The [users] table is the list of its rows.  The helpers of the login
    each take their own connection from the pool, so each runs in its own
    environment.  [check_account_locked] reads the clock twice, before and
    after its first test; the two readings are taken to be one. *)

Module Auth.

Record user : Type := mkUser {
  u_id : Z;
  u_username : string;
  u_password_hash : string;
  u_email : option string;
  u_full_name : option string;
  u_role : option string;
  u_is_active : option bool;
  u_last_login : option Z;
  u_failed_login_attempts : option Z;
  u_locked_until : option Z
}.

(** One row of [audit_log]. *)
Record audit_entry : Type := mkAudit {
  a_user_id : option Z;
  a_action : string;
  a_details : string;
  a_ip_address : string
}.

(** What [login] puts in the session. *)
Record session_data : Type := mkSession {
  s_user_id : Z;
  s_username : string;
  s_full_name : string;
  s_email : option string;
  s_role : option string
}.

(** [SELECT ... FROM users WHERE username = %s] followed by [fetchone()] *)
Definition fetch_user (users : list user) (username : string) : option user :=
  find (fun u => String.eqb (u_username u) username) users.

(** [UPDATE users SET ... WHERE username = %s] *)
Definition update_user (users : list user) (username : string) (change : user -> user)
  : list user :=
  map (fun u => if String.eqb (u_username u) username then change u else u) users.

(** [SET locked_until = NULL, failed_login_attempts = 0] *)
Definition unlock (u : user) : user :=
  mkUser (u_id u) (u_username u) (u_password_hash u) (u_email u) (u_full_name u)
    (u_role u) (u_is_active u) (u_last_login u) (Some 0) None.

(** [SET failed_login_attempts = failed_login_attempts + 1]; a [NULL]
    counter stays [NULL]. *)
Definition count_failure (u : user) : user :=
  mkUser (u_id u) (u_username u) (u_password_hash u) (u_email u) (u_full_name u)
    (u_role u) (u_is_active u) (u_last_login u)
    (option_map (fun n => n + 1) (u_failed_login_attempts u)) (u_locked_until u).

(** [SET locked_until = t] *)
Definition lock_until (t : Z) (u : user) : user :=
  mkUser (u_id u) (u_username u) (u_password_hash u) (u_email u) (u_full_name u)
    (u_role u) (u_is_active u) (u_last_login u) (u_failed_login_attempts u) (Some t).

(** [SET failed_login_attempts = 0, locked_until = NULL,
    last_login = CURRENT_TIMESTAMP] *)
Definition record_login (t : Z) (u : user) : user :=
  mkUser (u_id u) (u_username u) (u_password_hash u) (u_email u) (u_full_name u)
    (u_role u) (u_is_active u) (Some t) (Some 0) None.

(** [timedelta(minutes=30)] *)
Definition lock_time : Z := 1800000000.

(** [log_audit]: the entry is added unless something fails, and nothing
    is reported either way. *)
Definition log_audit (e : env) (audit : list audit_entry) (user_id : option Z)
  (action details ip_address : string) : list audit_entry :=
  if negb (pool_ok e) then audit
  else
    match
      (execute e StCursor ;;;
       execute e (StInsert "audit_log") ;;;
       execute e (StCommit 0))
    with
    | Return _ => (audit ++ [mkAudit user_id action details ip_address])%list
    | Raise _ => audit
    end.

(** [check_account_locked]: the table as the call leaves it, and the
    answer. *)
Definition check_account_locked (e : env) (users : list user) (username : string)
  : list user * bool :=
  if negb (pool_ok e) then (users, false)
  else
    match
      (execute e StCursor ;;;
       execute e (StSelect "users") ;;;
       match fetch_user users username with
       | None => Return (users, false)
       | Some result =>
           match u_locked_until result with
           | Some locked_until =>
               if now e <? locked_until then Return (users, true)
               else
                 execute e (StUpdate "users") ;;;
                 execute e (StCommit 0) ;;;
                 Return (update_user users username unlock, false)
           | None => Return (users, false)
           end
       end)
    with
    | Return res => res
    | Raise _ => (users, false)
    end.

(** [increment_failed_login].  The two [UPDATE]s are one transaction; the
    second is named apart from the first so that it can fail on its own.
    [RETURNING] yields the counter of the first row updated, and a [NULL]
    counter makes the comparison with 5 raise. *)
Definition increment_failed_login (e : env) (users : list user) (username : string)
  : list user :=
  if negb (pool_ok e) then users
  else
    match
      (execute e StCursor ;;;
       execute e (StUpdate "users") ;;;
       let counted := update_user users username count_failure in
       locked <-
         match fetch_user counted username with
         | Some result =>
             match u_failed_login_attempts result with
             | None => Raise "TypeError"
             | Some attempts =>
                 if 5 <=? attempts
                 then
                   execute e (StUpdate "users.locked_until") ;;;
                   Return (update_user counted username (lock_until (now e + lock_time)))
                 else Return counted
             end
         | None => Return counted
         end ;;
       execute e (StCommit 0) ;;;
       Return locked)
    with
    | Return users' => users'
    | Raise _ => users
    end.

(** [reset_failed_login] *)
Definition reset_failed_login (e : env) (users : list user) (username : string)
  : list user :=
  if negb (pool_ok e) then users
  else
    match
      (execute e StCursor ;;;
       execute e (StUpdate "users") ;;;
       execute e (StCommit 0))
    with
    | Return _ => update_user users username (record_login (now e))
    | Raise _ => users
    end.

(** What the route answers. *)
Inductive reply : Type :=
| RedirectToDashboard
| Json (resp : response).

Section Login.

(** [werkzeug.security.check_password_hash], taken to return a truth
    value on every hash and password. *)
Variable check_password_hash : string -> string -> bool.

(** [POST /login] with the fields [username] and [password] of the body,
    an absent field being the empty text.  [e_lock], [e_update] and
    [e_audit] are the environments of [check_account_locked], of
    [increment_failed_login] or [reset_failed_login], and of [log_audit];
    [e] is the one of the route's own connection.  The result is the two
    tables and the session as the call leaves them, and the reply. *)
Definition login (e_lock e e_update e_audit : env)
  (users : list user) (audit : list audit_entry) (session : option session_data)
  (username_field password ip_address : string)
  : list user * list audit_entry * option session_data * reply :=
  match session with
  | Some _ => (users, audit, session, RedirectToDashboard)
  | None =>
      let username := Py.strip username_field in
      if String.eqb username "" || String.eqb password ""
      then (users, audit, None,
            Json (error_response 400 "Username and password are required"))
      else
        let '(users, locked) := check_account_locked e_lock users username in
        if locked
        then (users,
              log_audit e_audit audit None "LOGIN_ATTEMPT_LOCKED"
                ("Username: " ++ username) ip_address,
              None,
              Json (error_response 403
                      "Account is locked due to too many failed attempts. Please try again in 30 minutes."))
        else if negb (pool_ok e)
        then (users, audit, None, Json (error_response 500 "Database connection failed"))
        else
          match (execute e StCursor ;;; execute e (StSelect "users")) with
          | Raise _ =>
              (users, audit, None,
               Json (error_response 500 "An error occurred during login"))
          | Return _ =>
              match fetch_user users username with
              | None =>
                  (increment_failed_login e_update users username,
                   log_audit e_audit audit None "LOGIN_FAILED"
                     ("Username: " ++ username ++ " (User not found)") ip_address,
                   None,
                   Json (error_response 401 "Invalid username or password"))
              | Some found =>
                  if negb (match u_is_active found with Some b => b | None => false end)
                  then (users,
                        log_audit e_audit audit (Some (u_id found)) "LOGIN_FAILED"
                          "Account disabled" ip_address,
                        None,
                        Json (error_response 403
                                "Account is disabled. Please contact administrator."))
                  else if negb (check_password_hash (u_password_hash found) password)
                  then (increment_failed_login e_update users username,
                        log_audit e_audit audit (Some (u_id found)) "LOGIN_FAILED"
                          "Invalid password" ip_address,
                        None,
                        Json (error_response 401 "Invalid username or password"))
                  else
                    (reset_failed_login e_update users username,
                     log_audit e_audit audit (Some (u_id found)) "LOGIN_SUCCESS"
                       ("Logged in as " ++ Actions.fmt (u_role found)) ip_address,
                     Some (mkSession (u_id found) (u_username found)
                             (Py.or_else (u_full_name found) (u_username found))
                             (u_email found) (u_role found)),
                     Json ok_response)
              end
          end
  end.

End Login.

End Auth.

(** A run of login attempts with one user name and one password, one
    after the other, the environment of each attempt serving all its
    connections; the session stays empty. *)
Fixpoint login_attempts (check_password_hash : string -> string -> bool)
  (envs : list env) (users : list Auth.user) (username password : string)
  : list Auth.user :=
  match envs with
  | [] => users
  | e :: rest =>
      let '(users', _, _, _) :=
        Auth.login check_password_hash e e e e users [] None username password "" in
      login_attempts check_password_hash rest users' username password
  end.

(** An account in good standing, its password being the text of its
    hash. *)
Definition operator_account : Auth.user :=
  Auth.mkUser 1 "operator" "secret" None (Some "Maria Santos") (Some "operator")
    (Some true) None (Some 0) None.

(** The reply to a login on a locked account. *)
Definition locked_reply : Auth.reply :=
  Auth.Json (error_response 403
               "Account is locked due to too many failed attempts. Please try again in 30 minutes.").

(** ** actions/app.py: the statistics of the dashboard *)

Module Stats.

Record stats : Type := mkStats {
  total_active : nat;
  in_queue : nat;
  critical_count : nat;
  resolved_today : nat
}.

(** [datetime.combine(date.today(), time(0, 0))] and
    [datetime.combine(date.today(), time(23, 59, 59))] *)
Definition today_start (e : env) : Z := date_of (now e) * 86400000000.
Definition today_end (e : env) : Z := today_start e + 86399000000.

(** [c.get('priority', '').upper() == 'CRITICAL'] *)
Definition is_critical (c : App.complaint) : bool :=
  String.eqb (Py.upper (App.c_priority c)) "CRITICAL".

(** The test of [resolved_today]. *)
Definition is_resolved_today (e : env) (c : App.complaint) : bool :=
  String.eqb (App.c_status c) "RESOLVED" &&
  match r_timestamp (App.c_full_data c) with
  | Some t => (today_start e <=? t) && (t <=? today_end e)
  | None => false
  end.

(** [get_current_stats], whose figures [api_dashboard_stats] and
    [send_dashboard_stats] compute in the same way.  [e] gives the day;
    [e_list] and [e_queue] are the environments of the two listings.  [None]
    is the empty dictionary of the [except] branch. *)
Definition get_current_stats (e e_list e_queue : env) (st : store) : option stats :=
  match App.get_unified_complaints e_list st App.no_filters with
  | Raise _ => None
  | Return complaints =>
      let queue := App.get_agent_queue e_queue st in
      Some (mkStats (length complaints) (length queue)
              (length (filter is_critical complaints))
              (length (filter (is_resolved_today e) complaints)))
  end.

End Stats.

(** The entry comes from [agent_queue]. *)
Definition is_service (c : App.complaint) : bool :=
  String.eqb (App.c_table c) "agent_queue".

(** ** actions/app.py: the connected dashboards

    The module keeps a counter [active_connections] and a dictionary
    [active_users] from socket session id to what is known of the user.
    Both are updated before a handler emits anything, so what an emit raises
    does not undo them. *)

Module Sockets.

Record user_info : Type := mkInfo {
  i_user_id : option Z;
  i_username : string;
  i_connected_at : Z;          (* the time whose ISO text is stored *)
  i_role : option string
}.

Record state : Type := mkState {
  active_connections : Z;
  active_users : list (string * user_info)
}.

(** The module as loaded. *)
Definition initial : state := mkState 0 [].

(** [d[key] = value] *)
Fixpoint dict_set (key : string) (value : user_info) (d : list (string * user_info))
  : list (string * user_info) :=
  match d with
  | [] => [(key, value)]
  | (k, v) :: rest =>
      if String.eqb k key then (k, value) :: rest else (k, v) :: dict_set key value rest
  end.

(** [d.pop(key, {})], as the dictionary it leaves *)
Fixpoint dict_pop (key : string) (d : list (string * user_info))
  : list (string * user_info) :=
  match d with
  | [] => []
  | (k, v) :: rest => if String.eqb k key then rest else (k, v) :: dict_pop key rest
  end.

(** [handle_connect], for the socket session [sid] of a browser whose
    login session is [session] *)
Definition handle_connect (e : env) (sid : string) (session : option Auth.session_data)
  (s : state) : state :=
  let info :=
    match session with
    | Some data =>
        mkInfo (Some (Auth.s_user_id data)) (Auth.s_username data) (now e) (Auth.s_role data)
    | None => mkInfo None "Anonymous" (now e) (Some "viewer")
    end in
  mkState (active_connections s + 1) (dict_set sid info (active_users s)).

(** [handle_disconnect] *)
Definition handle_disconnect (sid : string) (s : state) : state :=
  mkState (Z.max 0 (active_connections s - 1)) (dict_pop sid (active_users s)).

End Sockets.

(** What the socket layer delivers. *)
Inductive socket_event : Type :=
| SocketConnect (e : env) (sid : string) (session : option Auth.session_data)
| SocketDisconnect (sid : string).

Definition socket_step (s : Sockets.state) (ev : socket_event) : Sockets.state :=
  match ev with
  | SocketConnect e sid session => Sockets.handle_connect e sid session s
  | SocketDisconnect sid => Sockets.handle_disconnect sid s
  end.

(** The session ids with an entry in the dictionary. *)
Definition connected (s : Sockets.state) : list string := map fst (Sockets.active_users s).

(** Events as the socket layer delivers them: a connection brings a
    session id that is not in use, and a disconnection follows a connection
    of its session id. *)
Fixpoint orderly (s : Sockets.state) (events : list socket_event) : Prop :=
  match events with
  | [] => True
  | ev :: rest =>
      match ev with
      | SocketConnect _ sid _ => ~ In sid (connected s)
      | SocketDisconnect sid => In sid (connected s)
      end /\ orderly (socket_step s ev) rest
  end.

(** A parser that reads every message as a billing complaint about a
    fire. *)
Definition billing_fire (message_body from_number : string)
  : option SmsHandler.parsed_sms :=
  Some (SmsHandler.mkParsed "BILLING" "Juan Cruz" "Brgy. Oton" "09171234567"
          "FIRE AT THE METER" "CRITICAL" from_number).

(** ** ileco1-render/cloud_app.py: catching up with the public node *)

Module CloudSync.

(** One complaint of the export of the public node, every key present;
    the timestamp is the instant its ISO text denotes. *)
Record exported : Type := mkExported {
  x_full_name : option string;
  x_contact_number : option string;
  x_email : option string;
  x_address : option string;
  x_latitude : option Z;
  x_longitude : option Z;
  x_details : option string;
  x_priority : option string;
  x_status : option string;
  x_timestamp : option Z
}.

(** [WHERE contact_number = %s AND timestamp::date = %s::date]: a [NULL]
    on either side matches nothing. *)
Definition same_caller_same_day (c : exported) (r : row) : bool :=
  match x_contact_number c, x_timestamp c with
  | Some contact_number, Some t =>
      Actions.eq_opt (r_contact_number r) contact_number &&
      match r_timestamp r with
      | Some t' => date_of t' =? date_of t
      | None => false
      end
  | _, _ => false
  end.

(** The row the [INSERT] creates, under the key it draws. *)
Definition synced_row (key : Z) (c : exported) : row :=
  mkRow key None None (x_full_name c) (x_address c) (x_contact_number c)
    (x_details c) None None (x_status c) None (x_priority c)
    (Some "Synced from EC2") (x_timestamp c) (x_latitude c) (x_longitude c) None
    (Some false) None (x_email c) None None None None None.

(** The loop over the export, inside one transaction: the table as the
    transaction sees it, and the count [synced].  Keys are drawn from the
    sequence one after the other. *)
Fixpoint sync_loop (e : env) (key : Z) (reports : list row) (ec2_complaints : list exported)
  (synced : nat) : outcome (list row * nat) :=
  match ec2_complaints with
  | [] => Return (reports, synced)
  | complaint :: rest =>
      execute e (StSelect "power_outage_reports") ;;;
      if existsb (same_caller_same_day complaint) reports
      then sync_loop e key reports rest synced
      else
        execute e (StInsert "power_outage_reports") ;;;
        sync_loop e (key + 1) (reports ++ [synced_row key complaint])%list rest (S synced)
  end.

(** [POST /api/sync_from_ec2], for a user who is logged in.  [fetched] is
    the list of complaints in the answer of the public node, [None] when its
    status is not 200.  The result is the store, the reply and the count
    [synced] of a success.  Without a connection [conn.cursor()] raises. *)
Definition sync_from_ec2 (e : env) (st : store) (fetched : option (list exported))
  : store * response * option nat :=
  match
    (execute e StHttp ;;;
     match fetched with
     | None => Return (st, error_response 500 "Failed to fetch from EC2", None)
     | Some ec2_complaints =>
         if negb (pool_ok e)
         then Raise "'NoneType' object has no attribute 'cursor'"
         else
           execute e StCursor ;;;
           res <- sync_loop e (serial e) (outage_rows st) ec2_complaints 0 ;;
           execute e (StCommit 0) ;;;
           Return (set_rows st power_outage_reports (fst res), ok_response, Some (snd res))
     end)
  with
  | Return res => res
  | Raise msg => (st, error_response 500 msg, None)
  end.

End CloudSync.

(** The export names a caller and a time in every complaint. *)
Definition well_identified (batch : list CloudSync.exported) : Prop :=
  forall c, In c batch ->
    CloudSync.x_contact_number c <> None /\ CloudSync.x_timestamp c <> None.

(** Two complaints of one caller on one day, and one of another caller. *)
Definition sample_export : list CloudSync.exported :=
  [CloudSync.mkExported (Some "Juan Cruz") (Some "09171234567") None (Some "Brgy. Oton")
     None None (Some "no power") (Some "HIGH") (Some "NEW") (Some 1000);
   CloudSync.mkExported (Some "Juan Cruz") (Some "09171234567") None (Some "Brgy. Oton")
     None None (Some "still no power") (Some "HIGH") (Some "NEW") (Some 2000);
   CloudSync.mkExported (Some "Ana Reyes") (Some "09181234567") None (Some "Brgy. Pavia")
     None None (Some "sparks") (Some "CRITICAL") (Some "NEW") (Some 3000)].

(** * Properties *)

(** ** Strings *)

Lemma startswith_spec (p s : string) :
  Py.startswith p s = true <-> exists t, s = p ++ t.
Proof.
  revert s; induction p as [|a p IH]; intros s; simpl.
  - split; [intros _; now exists s | reflexivity].
  - destruct s as [|b s].
    + split; [discriminate | intros [t Ht]; discriminate].
    + rewrite andb_true_iff, Ascii.eqb_eq, IH. split.
      * intros [-> [t ->]]. now exists t.
      * intros [t Ht]. injection Ht as -> ->. split; [reflexivity | now exists t].
Qed.

Lemma contains_spec (needle hay : string) :
  Py.contains needle hay = true <-> occurs_in needle hay.
Proof.
  unfold occurs_in. induction hay as [|c hay IH].
  - simpl. rewrite orb_false_r, startswith_spec. split.
    + intros [t Ht]. now exists "", t.
    + intros [before [after H]]. destruct before; [now exists after|discriminate].
  - cbn [Py.contains]. rewrite orb_true_iff, startswith_spec, IH. split.
    + intros [[t Ht] | [before [after H]]].
      * now exists "", t.
      * exists (String c before), after. simpl. now rewrite H.
    + intros [before [after H]]. destruct before as [|b before].
      * left. now exists after.
      * right. simpl in H. injection H as -> H. now exists before, after.
Qed.





(** ** C5: the priority classifiers *)




(** ** Stable sorting *)

Section StableSortFacts.
Context {A : Type} (le : A -> A -> bool).

Lemma insert_sorted_perm (x : A) (l : list A) :
  Permutation (x :: l) (insert_sorted le x l).
Proof.
  induction l as [|y l IH]; simpl.
  - apply Permutation_refl.
  - destruct (le x y).
    + apply Permutation_refl.
    + eapply Permutation_trans; [apply perm_swap|]. now apply perm_skip.
Qed.

Lemma stable_sort_perm (l : list A) : Permutation l (stable_sort le l).
Proof.
  induction l as [|x l IH]; simpl.
  - apply perm_nil.
  - eapply Permutation_trans; [apply perm_skip, IH | apply insert_sorted_perm].
Qed.

Lemma stable_sort_in (l : list A) (x : A) : In x (stable_sort le l) <-> In x l.
Proof.
  split; apply Permutation_in;
    [apply Permutation_sym|]; apply stable_sort_perm.
Qed.

Hypothesis le_total : forall x y, le x y = false -> le y x = true.
Hypothesis le_trans : forall x y z, le x y = true -> le y z = true -> le x z = true.

Let R (x y : A) : Prop := le x y = true.

Lemma insert_sorted_sorted (x : A) (l : list A) :
  StronglySorted R l -> StronglySorted R (insert_sorted le x l).
Proof.
  induction 1 as [|y l Hsorted IH Hall]; simpl.
  - constructor; constructor.
  - destruct (le x y) eqn:Hxy.
    + constructor.
      * now constructor.
      * constructor; [exact Hxy|].
        eapply Forall_impl; [|exact Hall]. intros z Hz. now apply le_trans with y.
    + constructor; [exact IH|].
      apply (Permutation_Forall (insert_sorted_perm x l)).
      constructor; [now apply le_total | exact Hall].
Qed.

Lemma stable_sort_sorted (l : list A) : StronglySorted R (stable_sort le l).
Proof.
  induction l as [|x l IH]; simpl.
  - constructor.
  - now apply insert_sorted_sorted.
Qed.

End StableSortFacts.

Lemma key_le_iff (k1 k2 : Z * Z * Z) : App.key_le k1 k2 = true <-> key_leq k1 k2.
Proof.
  destruct k1 as [[s1 p1] t1], k2 as [[s2 p2] t2]. unfold App.key_le, key_leq.
  rewrite !orb_true_iff, !andb_true_iff, !orb_true_iff, !andb_true_iff,
    !Z.ltb_lt, !Z.eqb_eq, Z.leb_le. reflexivity.
Qed.

Lemma key_le_total (k1 k2 : Z * Z * Z) :
  App.key_le k1 k2 = false -> App.key_le k2 k1 = true.
Proof.
  intros H. apply key_le_iff. apply not_true_iff_false in H.
  rewrite key_le_iff in H.
  destruct k1 as [[s1 p1] t1], k2 as [[s2 p2] t2]. unfold key_leq in *. lia.
Qed.

Lemma key_le_trans (k1 k2 k3 : Z * Z * Z) :
  App.key_le k1 k2 = true -> App.key_le k2 k3 = true -> App.key_le k1 k3 = true.
Proof.
  rewrite !key_le_iff.
  destruct k1 as [[s1 p1] t1], k2 as [[s2 p2] t2], k3 as [[s3 p3] t3].
  unfold key_leq. lia.
Qed.

Lemma StronglySorted_impl {A : Type} (R R' : A -> A -> Prop) (l : list A) :
  (forall x y, R x y -> R' x y) -> StronglySorted R l -> StronglySorted R' l.
Proof.
  intros Himpl. induction 1 as [|x l Hsorted IH Hall]; constructor.
  - exact IH.
  - eapply Forall_impl; [|exact Hall]. intros y. apply Himpl.
Qed.

Lemma by_sort_key_sorted (l : list App.complaint) :
  StronglySorted (fun a b => key_leq (App.sort_key a) (App.sort_key b)) (by_sort_key l).
Proof.
  apply StronglySorted_impl
    with (R := fun a b => App.key_le (App.sort_key a) (App.sort_key b) = true).
  - intros a b. apply key_le_iff.
  - apply stable_sort_sorted.
    + intros a b. apply key_le_total.
    + intros a b c. apply key_le_trans.
Qed.

(** ** The aggregator, in closed form *)

Lemma family_complaints_eq (e : env) (st : store) (flt : App.filters) (f : family) :
  let bounds :=
    App.parse_datetime_filters e (App.date_from flt) (App.date_to flt)
      (App.time_from flt) (App.time_to flt) in
  App.family_complaints e st (App.show_hidden flt) (App.search_term flt)
    (App.normalize_filter (App.status_filter flt) "All Status")
    (App.normalize_filter (App.priority_filter flt) "All Priorities")
    (App.normalize_filter (App.type_filter flt) "All Types")
    (fst bounds) (snd bounds) f =
  if App.type_excluded f (App.normalize_filter (App.type_filter flt) "All Types")
  then Return []
  else if raises e (StSelect (table_name f))
       then Raise (exc_text e (StSelect (table_name f)))
       else Return (matching e st flt f).
Proof.
  intros bounds. unfold App.family_complaints, matching, execute. fold bounds.
  destruct (App.type_excluded _ _); [reflexivity|].
  now destruct (raises e _).
Qed.

Lemma matching_excluded (e : env) (st : store) (flt : App.filters) (f : family) :
  App.type_excluded f (App.normalize_filter (App.type_filter flt) "All Types") = true ->
  matching e st flt f = [].
Proof. intros H. unfold matching. now rewrite H. Qed.

Lemma ensure_columns_eq (e : env) (table : string) :
  App.ensure_columns e table =
  if raises e (StEnsure table)
  then if raises e StRollback then Raise (exc_text e StRollback) else Return false
  else Return true.
Proof.
  unfold App.ensure_columns, execute.
  destruct (raises e (StEnsure table)); [|reflexivity].
  now destruct (raises e StRollback).
Qed.

Lemma process_tables_eq (e : env) (st : store) (flt : App.filters)
  (tables : list family) (complaints : list App.complaint) :
  let bounds :=
    App.parse_datetime_filters e (App.date_from flt) (App.date_to flt)
      (App.time_from flt) (App.time_to flt) in
  App.process_tables e st (App.show_hidden flt) (App.search_term flt)
    (App.normalize_filter (App.status_filter flt) "All Status")
    (App.normalize_filter (App.priority_filter flt) "All Priorities")
    (App.normalize_filter (App.type_filter flt) "All Types")
    (fst bounds) (snd bounds) tables complaints =
  if existsb (ensure_fails e) tables
  then Raise (exc_text e StRollback)
  else Return (complaints ++ flat_map (contribution e st flt) tables)%list.
Proof.
  intros bounds. revert complaints.
  induction tables as [|f tables IH]; intros complaints; simpl.
  - now rewrite app_nil_r.
  - unfold contribution at 1, ensure_fails at 1.
    destruct (table_exists e f); simpl.
    + rewrite ensure_columns_eq.
      pose proof (family_complaints_eq e st flt f) as Hf. fold bounds in Hf.
      cbv zeta in Hf. rewrite Hf.
      assert (Hloop :
          (complaints' <-
             try_except
               (found' <-
                  (if App.type_excluded f
                        (App.normalize_filter (App.type_filter flt) "All Types")
                   then Return []
                   else if raises e (StSelect (table_name f))
                        then Raise (exc_text e (StSelect (table_name f)))
                        else Return (matching e st flt f)) ;;
                Return (complaints ++ found')%list)
               (fun _ => Return complaints) ;;
           App.process_tables e st (App.show_hidden flt) (App.search_term flt)
             (App.normalize_filter (App.status_filter flt) "All Status")
             (App.normalize_filter (App.priority_filter flt) "All Priorities")
             (App.normalize_filter (App.type_filter flt) "All Types")
             (fst bounds) (snd bounds) tables complaints') =
          if existsb (ensure_fails e) tables
          then Raise (exc_text e StRollback)
          else Return
                 (complaints ++
                  (if negb (raises e (StSelect (table_name f)))
                   then matching e st flt f else []) ++
                  flat_map (contribution e st flt) tables)%list).
      { destruct (App.type_excluded _ _) eqn:Hex; simpl.
        - rewrite IH, app_nil_r, (matching_excluded _ _ _ _ Hex).
          now destruct (raises e (StSelect _)).
        - destruct (raises e (StSelect _)); simpl; rewrite IH.
          + reflexivity.
          + now rewrite app_assoc. }
      destruct (raises e (StEnsure _)); simpl.
      * destruct (raises e StRollback); simpl; [reflexivity|].
        exact Hloop.
      * exact Hloop.
    + apply IH.
Qed.

(** The listing in closed form: what it returns, and when it raises. *)
Lemma get_unified_complaints_cases (e : env) (st : store) (flt : App.filters) :
  App.get_unified_complaints e st flt =
  if negb (pool_ok e) then Return []
  else if raises e StCursor || raises e StTables ||
          existsb (ensure_fails e) [agent_queue; meter_concern; power_outage_reports]
       then if raises e StRollback then Raise (exc_text e StRollback) else Return []
       else Return (by_sort_key
                      (contribution e st flt agent_queue ++
                       contribution e st flt meter_concern ++
                       contribution e st flt power_outage_reports))%list.
Proof.
  unfold App.get_unified_complaints, execute.
  pose proof (process_tables_eq e st flt
                [agent_queue; meter_concern; power_outage_reports] []) as Hloop.
  cbv zeta in Hloop.
  destruct (App.parse_datetime_filters _ _ _ _ _) as [start_datetime end_datetime].
  cbn [fst snd] in Hloop. rewrite Hloop.
  destruct (pool_ok e); [|reflexivity].
  destruct (raises e StCursor); [simpl; now destruct (raises e StRollback)|].
  destruct (raises e StTables); [simpl; now destruct (raises e StRollback)|].
  destruct (existsb _ _); simpl.
  - now destruct (raises e StRollback).
  - now rewrite app_nil_r.
Qed.

Lemma ensure_fails_rollback (e : env) (tables : list family) :
  raises e StRollback = false -> existsb (ensure_fails e) tables = false.
Proof.
  intros H. induction tables as [|f tables IH]; [reflexivity|].
  simpl. unfold ensure_fails at 1. now rewrite H, andb_false_r.
Qed.

(** Where the rollback does not raise, the listing returns. *)
Lemma get_unified_complaints_eq (e : env) (st : store) (flt : App.filters) :
  raises e StRollback = false ->
  App.get_unified_complaints e st flt =
  Return (if pool_ok e && negb (raises e StCursor) && negb (raises e StTables)
          then by_sort_key
                 (contribution e st flt agent_queue ++
                  contribution e st flt meter_concern ++
                  contribution e st flt power_outage_reports)
          else [])%list.
Proof.
  intros Hrollback. rewrite get_unified_complaints_cases.
  rewrite (ensure_fails_rollback _ _ Hrollback), Hrollback, orb_false_r.
  destruct (pool_ok e); [|reflexivity].
  destruct (raises e StCursor); [reflexivity|].
  now destruct (raises e StTables).
Qed.

(** What the listing returns, when it returns. *)
Lemma get_unified_complaints_returns (e : env) (st : store) (flt : App.filters)
  (l : list App.complaint) :
  App.get_unified_complaints e st flt = Return l ->
  l = (if pool_ok e && negb (raises e StCursor) && negb (raises e StTables)
       then by_sort_key
              (contribution e st flt agent_queue ++
               contribution e st flt meter_concern ++
               contribution e st flt power_outage_reports)
       else [])%list.
Proof.
  intros H. destruct (raises e StRollback) eqn:Hrollback.
  - rewrite get_unified_complaints_cases, Hrollback in H.
    destruct (pool_ok e); cbn [negb andb] in *; [|now injection H as <-].
    destruct (raises e StCursor); cbn [negb andb orb] in *; [discriminate|].
    destruct (raises e StTables); cbn [negb andb orb] in *; [discriminate|].
    destruct (existsb _ _); [discriminate|]. now injection H as <-.
  - rewrite (get_unified_complaints_eq _ _ _ Hrollback) in H. now injection H as <-.
Qed.

Lemma status_order_unknown (s : string) :
  ~ In s ["NEW"; "ASSIGNED"; "IN_PROGRESS"; "RESOLVED"] -> App.status_order s = 4.
Proof.
  intros H. unfold App.status_order.
  repeat match goal with
         | |- context [String.eqb s ?k] =>
             let E := fresh "E" in
             destruct (String.eqb s k) eqn:E;
             [apply String.eqb_eq in E; subst; exfalso; apply H; simpl; tauto|]
         end.
  reflexivity.
Qed.

Lemma priority_order_unknown (p : string) :
  ~ In p ["CRITICAL"; "HIGH"; "MEDIUM"; "LOW"] -> App.priority_order p = 4.
Proof.
  intros H. unfold App.priority_order.
  repeat match goal with
         | |- context [String.eqb p ?k] =>
             let E := fresh "E" in
             destruct (String.eqb p k) eqn:E;
             [apply String.eqb_eq in E; subst; exfalso; apply H; simpl; tauto|]
         end.
  reflexivity.
Qed.

(** ** C1: the merge order *)

(** C1.  Whatever the environment, the store and the filters, the list
    [get_unified_complaints] returns is sorted ascending by the key
    (status rank, priority rank, minus the creation time), each entry
    standing before every later one in the lexicographic order; and it
    returns a list whenever the rollback of its handlers does not raise.
    The ranks
    are looked up on the trimmed, upper-cased text: NEW 0, ASSIGNED 1,
    IN_PROGRESS 2, RESOLVED 3 and 4 for anything else; CRITICAL 0, HIGH 1,
    MEDIUM 2, LOW 3 and 4 for anything else.  Three complaints fetched as
    RESOLVED/CRITICAL, NEW/LOW, NEW/HIGH come out as NEW/HIGH, NEW/LOW,
    RESOLVED/CRITICAL. *)
Theorem C1_unified_complaints_sorted :
  (forall e st flt,
      (forall l,
          App.get_unified_complaints e st flt = Return l ->
          StronglySorted (fun a b => key_leq (App.sort_key a) (App.sort_key b)) l) /\
      (raises e StRollback = false ->
       exists l, App.get_unified_complaints e st flt = Return l)) /\
  (forall c,
      App.sort_key c =
      (App.status_order (Py.upper (Py.strip (App.c_status c))),
       App.priority_order (Py.upper (Py.strip (App.c_priority c))),
       - match r_timestamp (App.c_full_data c) with Some t => t | None => 0 end)) /\
  (App.status_order "NEW" = 0 /\ App.status_order "ASSIGNED" = 1 /\
   App.status_order "IN_PROGRESS" = 2 /\ App.status_order "RESOLVED" = 3 /\
   forall s, ~ In s ["NEW"; "ASSIGNED"; "IN_PROGRESS"; "RESOLVED"] ->
             App.status_order s = 4) /\
  (App.priority_order "CRITICAL" = 0 /\ App.priority_order "HIGH" = 1 /\
   App.priority_order "MEDIUM" = 2 /\ App.priority_order "LOW" = 3 /\
   forall p, ~ In p ["CRITICAL"; "HIGH"; "MEDIUM"; "LOW"] ->
             App.priority_order p = 4) /\
  (exists l,
      App.get_unified_complaints (calm 5000 1 "id") three_complaints App.no_filters
      = Return l /\
      map (fun c => (App.c_status c, App.c_priority c)) l =
      [("NEW", "HIGH"); ("NEW", "LOW"); ("RESOLVED", "CRITICAL")]).
Proof.
  split; [|split; [|split; [|split]]].
  - intros e st flt. split.
    + intros l Hl. apply get_unified_complaints_returns in Hl. subst l.
      destruct (pool_ok e && negb (raises e StCursor) && negb (raises e StTables)).
      * apply by_sort_key_sorted.
      * constructor.
    + intros Hrollback. rewrite (get_unified_complaints_eq _ _ _ Hrollback).
      eexists. reflexivity.
  - reflexivity.
  - repeat split. apply status_order_unknown.
  - repeat split. apply priority_order_unknown.
  - eexists. split; [vm_compute; reflexivity | reflexivity].
Qed.

(** The ranks of an unrecognised status and priority, and the listing of
    the sample store. *)
Lemma C1_unified_complaints_sorted_witness :
  App.status_order "PENDING" = 4 /\ App.priority_order "URGENT" = 4 /\
  exists l,
    App.get_unified_complaints (calm 5000 1 "id") three_complaints App.no_filters
    = Return l /\
    StronglySorted (fun a b => key_leq (App.sort_key a) (App.sort_key b)) l.
Proof.
  destruct C1_unified_complaints_sorted
    as [Hsorted [_ [[_ [_ [_ [_ Hs]]]] [[_ [_ [_ [_ Hp]]]] _]]]].
  split; [|split].
  - apply Hs. simpl. intros [H|[H|[H|[H|[]]]]]; discriminate.
  - apply Hp. simpl. intros [H|[H|[H|[H|[]]]]]; discriminate.
  - destruct (Hsorted (calm 5000 1 "id") three_complaints App.no_filters)
      as [Hl Hreturns].
    destruct (Hreturns eq_refl) as [l Hlist].
    exists l. split; [exact Hlist | exact (Hl l Hlist)].
Defined.

(** ** C6: failures of the aggregator *)

Lemma c_table_to_complaint (e : env) (f : family) (r : row) :
  App.c_table (App.to_complaint e f r) = table_name f.
Proof. now destruct f. Qed.

Lemma c_full_data_to_complaint (e : env) (f : family) (r : row) :
  App.c_full_data (App.to_complaint e f r) = r.
Proof. now destruct f. Qed.

Lemma table_name_inj (f g : family) : table_name f = table_name g -> f = g.
Proof. destruct f, g; simpl; intros H; try reflexivity; discriminate. Qed.

Lemma in_matching (e : env) (st : store) (flt : App.filters) (f : family)
  (c : App.complaint) :
  In c (matching e st flt f) ->
  exists r, c = App.to_complaint e f r /\ In r (rows st f) /\
            (f = agent_queue -> Sql.false_or_null (r_resumed r) = true).
Proof.
  unfold matching. destruct (App.type_excluded _ _); [intros []|].
  intros H. apply in_map_iff in H. destruct H as [r [<- Hr]].
  apply stable_sort_in in Hr. apply filter_In in Hr. destruct Hr as [Hin Hwhere].
  exists r. split; [reflexivity|]. split; [exact Hin|].
  intros ->. unfold App.where_clause in Hwhere.
  repeat (apply andb_true_iff in Hwhere; destruct Hwhere as [Hwhere ?]).
  assumption.
Qed.

Lemma in_contribution (e : env) (st : store) (flt : App.filters) (f : family)
  (c : App.complaint) :
  In c (contribution e st flt f) ->
  In c (matching e st flt f) /\ raises e (StSelect (table_name f)) = false.
Proof.
  unfold contribution.
  destruct (table_exists e f); simpl; [|intros []].
  destruct (raises e _); simpl; [intros []|]. auto.
Qed.

Lemma in_merged (e : env) (st : store) (flt : App.filters) (c : App.complaint) :
  In c (by_sort_key
          (contribution e st flt agent_queue ++
           contribution e st flt meter_concern ++
           contribution e st flt power_outage_reports)) <->
  exists f, In c (contribution e st flt f).
Proof.
  unfold by_sort_key. rewrite stable_sort_in, !in_app_iff. split.
  - intros [H|[H|H]]; eauto.
  - intros [[] H]; auto.
Qed.

(** C6.  A list [get_unified_complaints] returns is empty when no
    connection can be had or when the cursor or the table listing raises.
    Otherwise it is the sorted merge of what each family contributes, a
    family whose table is missing or whose query raises contributing
    nothing: every matching row of a family whose query ran is in the list
    whatever happened to the other families, and no entry comes from a
    family whose query raised.  The function returns whenever no connection
    can be had and whenever [conn.rollback()] does not raise.  It does raise
    to its caller when an error leaves the loop over the families (the
    cursor, the table listing, or bringing a table up to date) and the
    rollback of the handler raises in turn, as on a connection that has
    gone dead. *)
Theorem C6_aggregator_failure_handling :
  (forall e st flt l,
     App.get_unified_complaints e st flt = Return l ->
     (pool_ok e = false \/ raises e StCursor = true \/ raises e StTables = true ->
      l = []) /\
     (pool_ok e = true -> raises e StCursor = false -> raises e StTables = false ->
      l = by_sort_key
            (contribution e st flt agent_queue ++
             contribution e st flt meter_concern ++
             contribution e st flt power_outage_reports) /\
      forall f,
        (table_exists e f = true -> raises e (StSelect (table_name f)) = false ->
         forall c, In c (matching e st flt f) -> In c l) /\
        (raises e (StSelect (table_name f)) = true ->
         forall c, In c l -> App.c_table c <> table_name f))) /\
  (forall e st flt,
     pool_ok e = false \/ raises e StRollback = false ->
     exists l, App.get_unified_complaints e st flt = Return l) /\
  (forall e st flt,
     pool_ok e = true -> raises e StRollback = true ->
     (raises e StCursor = true \/ raises e StTables = true \/
      exists f, table_exists e f = true /\
                raises e (StEnsure (table_name f)) = true) ->
     App.get_unified_complaints e st flt = Raise (exc_text e StRollback)) /\
  App.get_unified_complaints dead_connection three_complaints App.no_filters =
  Raise "connection already closed".
Proof.
  split; [|split; [|split]].
  - intros e st flt l Hl. apply get_unified_complaints_returns in Hl. subst l.
    split.
    + intros [H|[H|H]]; rewrite H; simpl; try reflexivity.
      * now rewrite andb_false_r.
      * now rewrite andb_false_r.
    + intros Hpool Hcursor Htables. rewrite Hpool, Hcursor, Htables. simpl.
      split; [reflexivity|]. intros f. split.
      * intros Hexists Hruns c Hc. apply in_merged. exists f.
        unfold contribution. now rewrite Hexists, Hruns.
      * intros Hraises c Hc Htable. apply in_merged in Hc. destruct Hc as [g Hg].
        apply in_contribution in Hg. destruct Hg as [Hg Hruns].
        apply in_matching in Hg. destruct Hg as [r [-> _]].
        rewrite c_table_to_complaint in Htable. apply table_name_inj in Htable.
        subst g. congruence.
  - intros e st flt [Hpool|Hrollback].
    + rewrite get_unified_complaints_cases, Hpool. eexists. reflexivity.
    + rewrite (get_unified_complaints_eq _ _ _ Hrollback). eexists. reflexivity.
  - intros e st flt Hpool Hrollback Hwhy.
    rewrite get_unified_complaints_cases, Hpool, Hrollback. cbn [negb].
    assert (Hescapes :
      raises e StCursor || raises e StTables ||
      existsb (ensure_fails e) [agent_queue; meter_concern; power_outage_reports]
      = true).
    { destruct Hwhy as [H|[H|[f [Hexists Hensure]]]].
      - now rewrite H.
      - rewrite H. now rewrite orb_true_r.
      - apply orb_true_iff. right. apply existsb_exists. exists f. split.
        + destruct f; simpl; auto.
        + unfold ensure_fails. now rewrite Hexists, Hensure, Hrollback. }
    now rewrite Hescapes.
  - reflexivity.
Qed.

(** ** Rows are never removed, and marks never cleared *)

Lemma rows_set_rows_same (st : store) (f : family) (l : list row) :
  rows (set_rows st f l) f = l.
Proof. now destruct f. Qed.

Lemma rows_set_rows_other (st : store) (f g : family) (l : list row) :
  f <> g -> rows (set_rows st f l) g = rows st g.
Proof. destruct f, g; simpl; intros H; try reflexivity; now elim H. Qed.

Lemma family_eq_dec (f g : family) : {f = g} + {f <> g}.
Proof. decide equality. Qed.

Section Evolution.

Variable R : row -> row -> Prop.
Hypothesis R_refl : forall r, R r r.
Hypothesis R_trans : forall r1 r2 r3, R r1 r2 -> R r2 r3 -> R r1 r3.

Lemma rows_related_refl (l : list row) : Forall2 R l l.
Proof. induction l; constructor; auto. Qed.

Lemma rows_related_trans (l1 l2 l3 : list row) :
  Forall2 R l1 l2 -> Forall2 R l2 l3 -> Forall2 R l1 l3.
Proof.
  intros H; revert l3; induction H as [|r1 r2 l1 l2 Hr Hl IH]; intros l3 H23;
    inversion H23; subst; constructor.
  - eapply R_trans; eauto.
  - now apply IH.
Qed.

Lemma rows_related_map (change : row -> row) (l : list row) :
  (forall r, In r l -> R r (change r)) -> Forall2 R l (map change l).
Proof.
  intros H. induction l; simpl; constructor.
  - apply H. now left.
  - apply IHl. intros r Hr. apply H. now right.
Qed.

Lemma evolves_by_refl (st : store) : evolves_by R st st.
Proof.
  intros f. exists (rows st f), []. split; [now rewrite app_nil_r | apply rows_related_refl].
Qed.

Lemma evolves_by_trans (st1 st2 st3 : store) :
  evolves_by R st1 st2 -> evolves_by R st2 st3 -> evolves_by R st1 st3.
Proof.
  intros H12 H23 f.
  destruct (H12 f) as [k1 [a1 [E1 F1]]]. destruct (H23 f) as [k2 [a2 [E2 F2]]].
  rewrite E1 in F2. apply Forall2_app_inv_l in F2.
  destruct F2 as [k2a [k2b [Fa [Fb ->]]]].
  exists k2a, (k2b ++ a2)%list. split.
  - now rewrite E2, app_assoc.
  - eapply rows_related_trans; eauto.
Qed.

Lemma evolves_by_insert (st : store) (f : family) (r : row) :
  evolves_by R st (insert_row st f r).
Proof.
  intros g. unfold insert_row. destruct (family_eq_dec f g) as [<-|Hne].
  - rewrite rows_set_rows_same. exists (rows st f), [r]. split; [reflexivity|].
    apply rows_related_refl.
  - rewrite rows_set_rows_other by assumption.
    exists (rows st g), []. split; [now rewrite app_nil_r | apply rows_related_refl].
Qed.

Lemma evolves_by_update_where (st : store) (f : family) (id : Z) (change : row -> row) :
  (forall r, In r (rows st f) -> r_id r = id -> R r (change r)) ->
  evolves_by R st (update_by_id st f id change).
Proof.
  intros Hchange g. unfold update_by_id. destruct (family_eq_dec f g) as [<-|Hne].
  - rewrite rows_set_rows_same. eexists _, []. split; [now rewrite app_nil_r|].
    apply rows_related_map. intros r Hr. destruct (r_id r =? id) eqn:E; auto.
    apply Hchange; [assumption | now apply Z.eqb_eq].
  - rewrite rows_set_rows_other by assumption.
    exists (rows st g), []. split; [now rewrite app_nil_r | apply rows_related_refl].
Qed.

Lemma evolves_by_update (st : store) (f : family) (id : Z) (change : row -> row) :
  (forall r, R r (change r)) -> evolves_by R st (update_by_id st f id change).
Proof. intros H. apply evolves_by_update_where. auto. Qed.

Lemma evolves_by_nth (st st' : store) (f : family) (n : nat) (r : row) :
  evolves_by R st st' -> nth_error (rows st f) n = Some r ->
  exists r', nth_error (rows st' f) n = Some r' /\ R r r'.
Proof.
  intros Hev Hn. destruct (Hev f) as [kept [added [E F]]]. rewrite E.
  clear E Hev. revert n Hn. induction F as [|a b l l' Hab Hl IH]; intros n Hn.
  - destruct n; discriminate.
  - destruct n as [|n]; simpl in *.
    + injection Hn as ->. eauto.
    + now apply IH.
Qed.

End Evolution.

Lemma row_kept_refl (r : row) : row_kept r r.
Proof. unfold row_kept. auto. Qed.

Lemma row_kept_trans (r1 r2 r3 : row) :
  row_kept r1 r2 -> row_kept r2 r3 -> row_kept r1 r3.
Proof.
  unfold row_kept. intros [H1 [H2 H3]] [H4 [H5 H6]].
  repeat split; auto. congruence.
Qed.

Lemma evolves_refl (st : store) : evolves st st.
Proof. apply evolves_by_refl, row_kept_refl. Qed.

Lemma evolves_trans (st1 st2 st3 : store) :
  evolves st1 st2 -> evolves st2 st3 -> evolves st1 st3.
Proof. apply evolves_by_trans, row_kept_trans. Qed.

Lemma evolves_insert (st : store) (f : family) (r : row) :
  evolves st (insert_row st f r).
Proof. apply evolves_by_insert, row_kept_refl. Qed.

Lemma evolves_update (st : store) (f : family) (id : Z) (change : row -> row) :
  (forall r, row_kept r (change r)) -> evolves st (update_by_id st f id change).
Proof. apply evolves_by_update, row_kept_refl. Qed.

Lemma row_kept_set_status (s : string) (r : row) : row_kept r (set_status s r).
Proof. unfold row_kept. simpl. auto. Qed.

Lemma row_kept_set_job_order_id (j : string) (r : row) : row_kept r (set_job_order_id j r).
Proof. unfold row_kept. simpl. auto. Qed.

Lemma row_kept_set_hidden (r : row) : row_kept r (set_hidden r).
Proof. unfold row_kept. simpl. auto. Qed.

Lemma row_kept_set_resumed (r : row) : row_kept r (set_resumed r).
Proof. unfold row_kept. simpl. auto. Qed.

Lemma row_kept_set_location (la lo : Z) (ac : option Z) (r : row) :
  row_kept r (set_location la lo ac r).
Proof. unfold row_kept. simpl. auto. Qed.

Lemma row_kept_assigned (j : string) (r : row) :
  row_kept r (set_job_order_id j (set_status "ASSIGNED" r)).
Proof. unfold row_kept. simpl. auto. Qed.

Create HintDb evolve.
#[local] Hint Resolve evolves_refl evolves_insert evolves_update
  row_kept_set_status row_kept_set_job_order_id row_kept_set_hidden
  row_kept_set_resumed row_kept_set_location row_kept_assigned : evolve.

(** Case analysis on the next test or statement of a handler. *)
Ltac next_case :=
  match goal with
  | |- context [match ?x with _ => _ end] =>
      lazymatch x with
      | context [match _ with _ => _ end] => fail
      | _ => destruct x eqn:?
      end
  end.

Ltac handler_cases :=
  unfold execute, bind; repeat (next_case; cbn [fst snd]).

Lemma update_status_evolves e st table record_id status :
  evolves st (fst (fst (App.update_status e st table record_id status))).
Proof.
  unfold App.update_status, App.update_status_body. handler_cases;
    repeat match goal with H : Return _ = Return _ |- _ => injection H as <- end;
    try discriminate; cbn [fst snd]; auto with evolve.
Qed.

Ltac handler_evolves :=
  handler_cases;
  repeat match goal with
         | H : Return _ = Return _ |- _ => injection H; clear H; intros; subst
         | H : (_, _) = (_, _) |- _ => injection H; clear H; intros; subst
         end;
  try discriminate; cbn [fst snd]; auto with evolve.

Lemma hide_complaint_evolves e st table record_id :
  evolves st (fst (App.hide_complaint e st table record_id)).
Proof. unfold App.hide_complaint. handler_evolves. Qed.

Lemma delete_complaint_evolves e st table record_id :
  evolves st (fst (App.delete_complaint e st table record_id)).
Proof. unfold App.delete_complaint. handler_evolves. Qed.

Lemma resume_conversation_evolves e st row_id :
  evolves st (fst (App.resume_conversation e st row_id)).
Proof. unfold App.resume_conversation. handler_evolves. Qed.

Lemma update_complaint_location_evolves e st table record_id la lo ac :
  evolves st (fst (App.update_complaint_location e st table record_id la lo ac)).
Proof. unfold App.update_complaint_location. handler_evolves. Qed.

Lemma assign_job_order_evolves e st js table record_id :
  evolves st (fst (fst (fst (App.assign_job_order e st js table record_id)))).
Proof.
  unfold App.assign_job_order, App.link_complaint. handler_evolves.
Qed.

Lemma automatic_job_order_evolves e st js d priority :
  evolves st (fst (fst (fst (App.automatic_job_order e st js d priority)))).
Proof. unfold App.automatic_job_order. handler_evolves. Qed.

Lemma submit_power_outage_evolves e st js d :
  evolves st (fst (fst (fst (fst (App.submit_power_outage e st js d))))).
Proof.
  unfold App.submit_power_outage. handler_cases; cbn [fst snd]; auto with evolve.
  match goal with
  | H : App.automatic_job_order ?e ?s ?j ?d ?p = _ |- _ =>
      pose proof (automatic_job_order_evolves e s j d p) as Hauto; rewrite H in Hauto
  end.
  cbn [fst snd] in Hauto. eapply evolves_trans; [apply evolves_insert | exact Hauto].
Qed.

Lemma chat_power_outage_evolves e st full_name address contact_number sender_id :
  evolves st (fst (fst (Actions.ActionSubmitPowerOutageFormEnhanced.run e st
                          full_name address contact_number sender_id))).
Proof. unfold Actions.ActionSubmitPowerOutageFormEnhanced.run. handler_evolves. Qed.

Lemma chat_meter_concern_evolves e st account_no full_name address contact_number concern
  sender_id :
  evolves st (fst (fst (Actions.ActionSubmitMeterConcern.run e st
                          account_no full_name address contact_number concern sender_id))).
Proof. unfold Actions.ActionSubmitMeterConcern.run. handler_evolves. Qed.

Lemma chat_talk_to_agent_evolves e st :
  evolves st (fst (fst (Actions.ActionSubmitTalkToAgentForm.run e st))).
Proof. unfold Actions.ActionSubmitTalkToAgentForm.run. handler_evolves. Qed.

Lemma sms_webhook_evolves parse_sms e st from_number message_body :
  evolves st (fst (fst (SmsHandler.sms_webhook parse_sms e st from_number message_body))).
Proof. unfold SmsHandler.sms_webhook. handler_evolves. Qed.

Lemma webhook_new_complaint_evolves e st data :
  evolves st (fst (fst (CloudApp.webhook_new_complaint e st data))).
Proof. unfold CloudApp.webhook_new_complaint. handler_evolves. Qed.

Lemma handle_evolves parse_sms e w req :
  evolves (complaints_db w) (complaints_db (handle parse_sms e w req)).
Proof.
  destruct req; cbn [handle].
  - pose proof (submit_power_outage_evolves e (complaints_db w) (joblist_db w) d) as H.
    destruct (App.submit_power_outage _ _ _ _) as [[[[st' js'] ev] eff] resp]. exact H.
  - pose proof (update_status_evolves e (complaints_db w) table record_id status0) as H.
    destruct (App.update_status _ _ _ _ _) as [[st' ev] resp]. exact H.
  - apply hide_complaint_evolves.
  - apply delete_complaint_evolves.
  - apply resume_conversation_evolves.
  - apply update_complaint_location_evolves.
  - pose proof (assign_job_order_evolves e (complaints_db w) (joblist_db w) table record_id)
      as H.
    destruct (App.assign_job_order _ _ _ _ _) as [[[st' js'] eff] resp]. exact H.
  - pose proof (chat_power_outage_evolves e (complaints_db w) full_name address
                  contact_number sender_id) as H.
    destruct (Actions.ActionSubmitPowerOutageFormEnhanced.run _ _ _ _ _ _)
      as [[st' u] ev]. exact H.
  - pose proof (chat_meter_concern_evolves e (complaints_db w) account_no full_name address
                  contact_number concern sender_id) as H.
    destruct (Actions.ActionSubmitMeterConcern.run _ _ _ _ _ _ _ _) as [[st' u] ev]. exact H.
  - pose proof (chat_talk_to_agent_evolves e (complaints_db w)) as H.
    destruct (Actions.ActionSubmitTalkToAgentForm.run _ _) as [[st' u] ev]. exact H.
  - pose proof (sms_webhook_evolves parse_sms e (complaints_db w) from_number message_body)
      as H.
    destruct (SmsHandler.sms_webhook _ _ _ _ _) as [[st' ev] resp]. exact H.
  - pose proof (webhook_new_complaint_evolves e (complaints_db w) data) as H.
    destruct (CloudApp.webhook_new_complaint _ _ _) as [[st' ev] resp]. exact H.
  - cbn [complaints_db]. unfold LocalDashboard.update_status. handler_evolves.
  - cbn [complaints_db]. unfold LocalDashboard.delete_complaint. handler_evolves.
Qed.

Lemma serve_evolves parse_sms history w :
  evolves (complaints_db w) (complaints_db (serve parse_sms w history)).
Proof.
  revert w; induction history as [|[e req] history IH]; intros w; simpl.
  - apply evolves_refl.
  - eapply evolves_trans; [apply handle_evolves | apply IH].
Qed.

(** The row at a position of a table, once marked, stays marked. *)
Lemma evolves_nth (st st' : store) (f : family) (n : nat) (r : row) :
  evolves st st' -> nth_error (rows st f) n = Some r ->
  exists r', nth_error (rows st' f) n = Some r' /\ row_kept r r'.
Proof. apply evolves_by_nth. Qed.

(** ** C8: hiding *)

Lemma family_of_table_name (f : family) : family_of_table (table_name f) = Some f.
Proof. now destruct f. Qed.

Lemma family_of_table_some (table : string) (f : family) :
  family_of_table table = Some f -> table = table_name f.
Proof.
  unfold family_of_table.
  repeat match goal with
         | |- context [String.eqb table ?k] =>
             let E := fresh "E" in
             destruct (String.eqb table k) eqn:E;
             [apply String.eqb_eq in E; subst; intros H; now injection H as <-|]
         end.
  discriminate.
Qed.

Lemma rows_update_by_id (st : store) (f : family) (id : Z) (change : row -> row) :
  rows (update_by_id st f id change) f =
  map (fun r => if r_id r =? id then change r else r) (rows st f).
Proof. unfold update_by_id. apply rows_set_rows_same. Qed.

Lemma set_rows_set_rows (st : store) (f : family) (l l' : list row) :
  set_rows (set_rows st f l) f l' = set_rows st f l'.
Proof. now destruct f. Qed.

Lemma update_by_id_twice (st : store) (f : family) (id : Z) (change : row -> row) :
  (forall r, r_id (change r) = r_id r) ->
  (forall r, change (change r) = change r) ->
  update_by_id (update_by_id st f id change) f id change = update_by_id st f id change.
Proof.
  intros Hid Hidem. unfold update_by_id at 1. rewrite rows_update_by_id.
  unfold update_by_id. rewrite set_rows_set_rows. f_equal.
  rewrite map_map. apply map_ext. intros r.
  destruct (r_id r =? id) eqn:E.
  - now rewrite Hid, E, Hidem.
  - now rewrite E.
Qed.

Lemma fetch_update_by_id (st : store) (f : family) (id : Z) (change : row -> row) :
  (forall r, r_id (change r) = r_id r) ->
  fetch_by_id st f id <> None ->
  fetch_by_id (update_by_id st f id change) f id <> None.
Proof.
  intros Hid. unfold fetch_by_id. rewrite rows_update_by_id.
  induction (rows st f) as [|r l IH]; simpl; [auto|].
  destruct (r_id r =? id) eqn:E.
  - rewrite Hid, E. discriminate.
  - rewrite E. exact IH.
Qed.

Lemma rowcount_fetch (st : store) (f : family) (id : Z) :
  fetch_by_id st f id <> None -> (rowcount st f id =? 0)%nat = false.
Proof.
  unfold fetch_by_id, rowcount. induction (rows st f) as [|r l IH]; simpl.
  - intros H. now elim H.
  - destruct (r_id r =? id); simpl; auto.
Qed.

Lemma hidden_after_update (st : store) (f : family) (id : Z) (r : row) :
  In r (rows (update_by_id st f id set_hidden) f) -> r_id r = id ->
  r_hidden r = Some true.
Proof.
  rewrite rows_update_by_id. intros Hin Hid. apply in_map_iff in Hin.
  destruct Hin as [r0 [Hr0 _]]. destruct (r_id r0 =? id) eqn:E.
  - now subst r.
  - subst r. apply Z.eqb_neq in E. now elim E.
Qed.

Lemma hide_complaint_found (e : env) (st : store) (f : family) (record_id : Z) :
  healthy e -> fetch_by_id st f record_id <> None ->
  App.hide_complaint e st (table_name f) record_id =
  (update_by_id st f record_id set_hidden, ok_response).
Proof.
  intros [Hpool [_ [Hexists [Hraises _]]]] Hfound.
  unfold App.hide_complaint, execute, bind.
  rewrite Hpool, !Hraises, family_of_table_name, Hexists. simpl.
  destruct (fetch_by_id st f record_id); [reflexivity | now elim Hfound].
Qed.

Lemma delete_complaint_found (e : env) (st : store) (f : family) (record_id : Z) :
  healthy e -> fetch_by_id st f record_id <> None ->
  App.delete_complaint e st (table_name f) (Some record_id) =
  (update_by_id st f record_id set_hidden, ok_response).
Proof.
  intros [Hpool [_ [Hexists [Hraises _]]]] Hfound.
  unfold App.delete_complaint, execute, bind.
  rewrite Hpool, !Hraises, family_of_table_name. simpl.
  rewrite (rowcount_fetch _ _ _ Hfound).
  destruct (fetch_by_id st f record_id); [reflexivity | now elim Hfound].
Qed.

(** C8.  In an environment where nothing fails, [hide_complaint] and
    [delete_complaint] on a record that exists report success and leave
    every row of that key with [hidden] true, whether or not it was hidden
    before; the table keeps its length, and hiding again changes nothing and
    succeeds again.  On a key with no record they answer 404 with a
    not-found error and change nothing.  Through any history of requests of
    the public contract, a row that is hidden stays in its table, in
    place, with [hidden] still true. *)
Theorem C8_hide_idempotent_one_way :
  (forall e st f record_id,
      healthy e -> fetch_by_id st f record_id <> None ->
      let hidden_once := update_by_id st f record_id set_hidden in
      App.hide_complaint e st (table_name f) record_id = (hidden_once, ok_response) /\
      App.delete_complaint e st (table_name f) (Some record_id) = (hidden_once, ok_response) /\
      success ok_response = true /\
      (forall r, In r (rows hidden_once f) -> r_id r = record_id -> r_hidden r = Some true) /\
      length (rows hidden_once f) = length (rows st f) /\
      App.hide_complaint e hidden_once (table_name f) record_id = (hidden_once, ok_response) /\
      App.delete_complaint e hidden_once (table_name f) (Some record_id)
      = (hidden_once, ok_response)) /\
  (forall e st f record_id,
      healthy e -> fetch_by_id st f record_id = None ->
      App.hide_complaint e st (table_name f) record_id
      = (st, error_response 404 "Complaint not found") /\
      App.delete_complaint e st (table_name f) (Some record_id)
      = (st, error_response 404 "Record not found")) /\
  (forall parse_sms w history f n r,
      nth_error (rows (complaints_db w) f) n = Some r -> r_hidden r = Some true ->
      exists r',
        nth_error (rows (complaints_db (serve parse_sms w history)) f) n = Some r' /\
        r_id r' = r_id r /\ r_hidden r' = Some true).
Proof.
  split; [|split].
  - intros e st f record_id He Hfound hidden_once.
    assert (Hagain : fetch_by_id hidden_once f record_id <> None)
      by (apply fetch_update_by_id; auto).
    assert (Htwice : update_by_id hidden_once f record_id set_hidden = hidden_once)
      by (apply update_by_id_twice; auto).
    repeat split.
    + now apply hide_complaint_found.
    + now apply delete_complaint_found.
    + apply hidden_after_update.
    + unfold hidden_once. rewrite rows_update_by_id. apply length_map.
    + rewrite hide_complaint_found by assumption. now rewrite Htwice.
    + rewrite delete_complaint_found by assumption. now rewrite Htwice.
  - intros e st f record_id [Hpool [_ [Hexists [Hraises _]]]] Hnone. split.
    + unfold App.hide_complaint, execute, bind.
      rewrite Hpool, !Hraises, family_of_table_name, Hexists. simpl. now rewrite Hnone.
    + unfold App.delete_complaint, execute, bind.
      rewrite Hpool, !Hraises, family_of_table_name. simpl. now rewrite Hnone.
  - intros parse_sms w history f n r Hn Hhidden.
    destruct (evolves_nth _ _ f n r (serve_evolves parse_sms history w) Hn)
      as [r' [Hn' [Hid [Hh _]]]].
    exists r'. auto.
Qed.

(** ** C10: resumed requests *)

Lemma false_or_null_spec (b : option bool) :
  Sql.false_or_null b = true <-> b <> Some true.
Proof.
  destruct b as [[|]|]; simpl; split; intros H; try reflexivity; try discriminate.
  now elim H.
Qed.

Lemma listed_agent_row (e : env) (st : store) (flt : App.filters)
  (l : list App.complaint) (c : App.complaint) :
  App.get_unified_complaints e st flt = Return l -> In c l ->
  App.c_table c = "agent_queue" ->
  In (App.c_full_data c) (agent_rows st) /\ r_resumed (App.c_full_data c) <> Some true.
Proof.
  intros Hl Hc Htable. apply get_unified_complaints_returns in Hl. subst l.
  destruct (pool_ok e && negb (raises e StCursor) && negb (raises e StTables));
    [|now elim Hc].
  apply in_merged in Hc. destruct Hc as [f Hf]. apply in_contribution in Hf.
  destruct Hf as [Hf _]. apply in_matching in Hf. destruct Hf as [r [-> [Hin Hres]]].
  rewrite c_table_to_complaint in Htable.
  apply (table_name_inj f agent_queue) in Htable. subst f.
  rewrite c_full_data_to_complaint. split; [exact Hin|].
  apply false_or_null_spec. now apply Hres.
Qed.

Lemma resumed_after_update (st : store) (id : Z) (r : row) :
  In r (agent_rows (update_by_id st agent_queue id set_resumed)) -> r_id r = id ->
  r_resumed r = Some true.
Proof.
  change (agent_rows ?s) with (rows s agent_queue).
  rewrite rows_update_by_id. intros Hin Hid. apply in_map_iff in Hin.
  destruct Hin as [r0 [Hr0 _]]. destruct (r_id r0 =? id) eqn:E.
  - now subst r.
  - subst r. apply Z.eqb_neq in E. now elim E.
Qed.

(** C10.  Whatever the filters, [show_hidden] included, every entry of the
    merged list that comes from [agent_queue] was built from a row of that
    table whose [resumed] is not true.  [resume_conversation], when it finds
    the row with a user id and nothing fails, sets [resumed] on every row of
    that key.  A row once resumed keeps the mark through any history of
    requests, so no later listing has an entry built from it.  A row whose
    [hidden] is NULL or false (and, in [agent_queue], whose [resumed] is
    NULL or false) is listed by the unfiltered call when nothing fails.  The
    queue listing [get_agent_queue] leaves out the resumed and the hidden
    rows in the same way. *)
Theorem C10_resumed_never_listed :
  (forall e st flt l c,
      App.get_unified_complaints e st flt = Return l -> In c l ->
      App.c_table c = "agent_queue" ->
      In (App.c_full_data c) (agent_rows st) /\
      r_resumed (App.c_full_data c) <> Some true) /\
  (forall e st row_id found,
      healthy e -> fetch_by_id st agent_queue row_id = Some found ->
      Py.truthy (r_user_id found) = true ->
      let st' := fst (App.resume_conversation e st row_id) in
      st' = update_by_id st agent_queue row_id set_resumed /\
      forall r, In r (agent_rows st') -> r_id r = row_id -> r_resumed r = Some true) /\
  (forall parse_sms w history n r,
      nth_error (agent_rows (complaints_db w)) n = Some r -> r_resumed r = Some true ->
      let later := complaints_db (serve parse_sms w history) in
      exists r',
        nth_error (agent_rows later) n = Some r' /\ r_id r' = r_id r /\
        r_resumed r' = Some true /\
        forall e flt l c,
          App.get_unified_complaints e later flt = Return l -> In c l ->
          App.c_table c = "agent_queue" -> App.c_full_data c <> r') /\
  (forall e st f r,
      healthy e -> In r (rows st f) -> r_hidden r <> Some true ->
      (f = agent_queue -> r_resumed r <> Some true) ->
      exists l,
        App.get_unified_complaints e st App.no_filters = Return l /\
        In (App.to_complaint e f r) l) /\
  (forall e st r,
      In r (App.get_agent_queue e st) ->
      In r (agent_rows st) /\ r_hidden r <> Some true /\ r_resumed r <> Some true).
Proof.
  split; [|split; [|split; [|split]]].
  5: { intros e st r. unfold App.get_agent_queue.
       destruct (negb (pool_ok e)); [intros []|].
       destruct (raises e StCursor || raises e (StSelect "agent_queue")); [intros []|].
       unfold oldest_first. rewrite stable_sort_in, filter_In, andb_true_iff,
         !false_or_null_spec. tauto. }
  - apply listed_agent_row.
  - intros e st row_id found [Hpool [_ [_ [Hraises _]]]] Hfound Huser st'.
    assert (Hst' : st' = update_by_id st agent_queue row_id set_resumed).
    { unfold st', App.resume_conversation, execute, bind.
      rewrite Hpool, !Hraises. simpl. now rewrite Hfound, Huser. }
    split; [exact Hst'|]. rewrite Hst'. apply resumed_after_update.
  - intros parse_sms w history n r Hn Hres later.
    destruct (evolves_nth _ _ agent_queue n r (serve_evolves parse_sms history w) Hn)
      as [r' [Hn' [Hid [_ Hr]]]].
    exists r'. repeat split; auto.
    intros e flt l c Hl Hc Htable Heq.
    destruct (listed_agent_row _ _ _ _ _ Hl Hc Htable) as [_ Hnot].
    apply Hnot. rewrite Heq. auto.
  - intros e st f r [Hpool [_ [Hexists [Hraises _]]]] Hin Hhidden Hresumed.
    rewrite (get_unified_complaints_eq _ _ _ (Hraises _)).
    eexists. split; [reflexivity|].
    rewrite Hpool, !Hraises. simpl. apply in_merged. exists f.
    unfold contribution. rewrite Hexists, Hraises. simpl.
    unfold matching. cbn. apply in_map. apply stable_sort_in. apply filter_In.
    split; [exact Hin|]. unfold App.where_clause.
    apply false_or_null_spec in Hhidden. rewrite Hhidden. simpl.
    destruct f; try reflexivity.
    specialize (Hresumed eq_refl). apply false_or_null_spec in Hresumed.
    now rewrite Hresumed.
Qed.

(** ** C7: status updates *)

Lemma status_set_after_update (st : store) (f : family) (id : Z) (s : string) (r : row) :
  In r (rows (update_by_id st f id (set_status s)) f) -> r_id r = id ->
  r_status r = Some s.
Proof.
  rewrite rows_update_by_id. intros Hin Hid. apply in_map_iff in Hin.
  destruct Hin as [r0 [Hr0 _]]. destruct (r_id r0 =? id) eqn:E.
  - now subst r.
  - subst r. apply Z.eqb_neq in E. now elim E.
Qed.



(** ** Only an assignment rewrites a job order *)

Lemma row_job_kept_refl (r : row) : row_job_kept r r.
Proof. unfold row_job_kept. auto. Qed.

Lemma row_job_kept_trans (r1 r2 r3 : row) :
  row_job_kept r1 r2 -> row_job_kept r2 r3 -> row_job_kept r1 r3.
Proof. unfold row_job_kept. intros [H1 H2] [H3 H4]. split; congruence. Qed.

Lemma jobs_kept_refl (st : store) : evolves_by row_job_kept st st.
Proof. apply evolves_by_refl, row_job_kept_refl. Qed.

Lemma jobs_kept_insert (st : store) (f : family) (r : row) :
  evolves_by row_job_kept st (insert_row st f r).
Proof. apply evolves_by_insert, row_job_kept_refl. Qed.

Lemma jobs_kept_update (st : store) (f : family) (id : Z) (change : row -> row) :
  (forall r, row_job_kept r (change r)) ->
  evolves_by row_job_kept st (update_by_id st f id change).
Proof. apply evolves_by_update, row_job_kept_refl. Qed.

Lemma jobs_kept_insert_update (st : store) (f : family) (r : row) (id : Z)
  (change : row -> row) :
  (forall x, In x (rows st f) -> r_id x <> id) ->
  evolves_by row_job_kept st (update_by_id (insert_row st f r) f id change).
Proof.
  intros Hfresh g. unfold update_by_id, insert_row.
  destruct (family_eq_dec f g) as [<-|Hne].
  - rewrite !rows_set_rows_same, map_app. eexists _, _. split; [reflexivity|].
    apply rows_related_map. intros x Hx. destruct (r_id x =? id) eqn:E.
    + apply Z.eqb_eq in E. now elim (Hfresh x Hx).
    + apply row_job_kept_refl.
  - rewrite !rows_set_rows_other by assumption.
    exists (rows st g), []. split; [now rewrite app_nil_r|].
    apply rows_related_refl, row_job_kept_refl.
Qed.

Lemma row_job_kept_set_status (s : string) (r : row) : row_job_kept r (set_status s r).
Proof. unfold row_job_kept. simpl. auto. Qed.

Lemma row_job_kept_set_hidden (r : row) : row_job_kept r (set_hidden r).
Proof. unfold row_job_kept. simpl. auto. Qed.

Lemma row_job_kept_set_resumed (r : row) : row_job_kept r (set_resumed r).
Proof. unfold row_job_kept. simpl. auto. Qed.

Lemma row_job_kept_set_location (la lo : Z) (ac : option Z) (r : row) :
  row_job_kept r (set_location la lo ac r).
Proof. unfold row_job_kept. simpl. auto. Qed.

Create HintDb jobs.
#[local] Hint Resolve jobs_kept_refl jobs_kept_insert jobs_kept_update
  row_job_kept_set_status row_job_kept_set_hidden row_job_kept_set_resumed
  row_job_kept_set_location : jobs.

Ltac handler_keeps_jobs :=
  handler_cases;
  repeat match goal with
         | H : Return _ = Return _ |- _ => injection H; clear H; intros; subst
         | H : (_, _) = (_, _) |- _ => injection H; clear H; intros; subst
         end;
  try discriminate; cbn [fst snd complaints_db]; auto with jobs.

Lemma submit_power_outage_keeps_jobs e st js d :
  (forall r, In r (outage_rows st) -> r_id r <> serial e) ->
  evolves_by row_job_kept st (fst (fst (fst (fst (App.submit_power_outage e st js d))))).
Proof.
  intros Hfresh. unfold App.submit_power_outage, App.automatic_job_order.
  handler_keeps_jobs.
  now apply jobs_kept_insert_update.
Qed.

Lemma handle_keeps_jobs parse_sms e w req :
  not_an_assignment e (complaints_db w) req ->
  evolves_by row_job_kept (complaints_db w) (complaints_db (handle parse_sms e w req)).
Proof.
  destruct req; cbn [not_an_assignment handle]; intros Hreq.
  - pose proof (submit_power_outage_keeps_jobs e _ (joblist_db w) d Hreq) as H.
    destruct (App.submit_power_outage _ _ _ _) as [[[[st' js'] ev] eff] resp]. exact H.
  - unfold App.update_status, App.update_status_body. handler_keeps_jobs.
  - unfold App.hide_complaint. handler_keeps_jobs.
  - unfold App.delete_complaint. handler_keeps_jobs.
  - unfold App.resume_conversation. handler_keeps_jobs.
  - unfold App.update_complaint_location. handler_keeps_jobs.
  - contradiction.
  - unfold Actions.ActionSubmitPowerOutageFormEnhanced.run. handler_keeps_jobs.
  - unfold Actions.ActionSubmitMeterConcern.run. handler_keeps_jobs.
  - unfold Actions.ActionSubmitTalkToAgentForm.run. handler_keeps_jobs.
  - unfold SmsHandler.sms_webhook. handler_keeps_jobs.
  - unfold CloudApp.webhook_new_complaint. handler_keeps_jobs.
  - unfold LocalDashboard.update_status. handler_keeps_jobs.
  - unfold LocalDashboard.delete_complaint. handler_keeps_jobs.
Qed.

(** ** C4 and C2: job-order assignment *)

Lemma unique_id_converted_data (e : env) (a : App.assignment) :
  unique_id (App.converted_data e a) = fresh_id e.
Proof. unfold App.converted_data. now destruct (App.extract_location_parts _). Qed.

Lemma notes_converted_data (e : env) (a : App.assignment) :
  notes (App.converted_data e a) =
  if String.eqb (App.a_existing_job_order a) ""
  then "Priority: " ++ App.a_priority a ++ " | " ++ App.a_concern a
  else "Original Job Order: " ++ App.a_existing_job_order a ++
       " | Priority: " ++ App.a_priority a ++ " | " ++ App.a_concern a.
Proof. unfold App.converted_data. now destruct (App.extract_location_parts _). Qed.

(** The three ways a call of [assign_job_order] can end: before the job
    order is written; with the job order written and the complaint left as
    it was; with the job order written and then the complaint linked. *)
Lemma assign_job_order_cases (e : env) (st : store) (js : job_store)
  (table : string) (record_id : Z) :
  let '(st', js', effects, resp) := App.assign_job_order e st js table record_id in
  (effects = [] /\ st' = st /\ js' = js /\ success resp = false) \/
  (exists job,
      unique_id job = fresh_id e /\ js' = (js ++ [job])%list /\
      joblist_pool_ok e = true /\ raises e StJobCursor = false /\
      raises e StJobInsert = false /\ raises e StJobCommit = false /\
      ((effects = [EffJobOrder (fresh_id e)] /\ st' = st /\ success resp = false) \/
       (effects = [EffJobOrder (fresh_id e); EffLink table record_id (fresh_id e)] /\
        success resp = true /\ job_order_id resp = Some (fresh_id e) /\
        exists f,
          family_of_table table = Some f /\ f <> power_outage_reports /\
          st' = update_by_id st f record_id
                  (fun r => set_job_order_id (fresh_id e) (set_status "ASSIGNED" r))))).
Proof.
  unfold App.assign_job_order, App.read_for_assignment, App.write_job_order,
    App.link_complaint.
  handler_cases;
    repeat match goal with
           | H : Return _ = Return _ |- _ => injection H; clear H; intros; subst
           | H : Raise _ = Return _ |- _ => discriminate H
           | H : Return _ = Raise _ |- _ => discriminate H
           | H : negb _ = true |- _ => apply negb_true_iff in H
           | H : negb _ = false |- _ => apply negb_false_iff in H
           end;
    rewrite ?unique_id_converted_data;
    try (left; repeat split; reflexivity);
    right; eexists; (split; [apply unique_id_converted_data|]);
    (split; [reflexivity|]); repeat (split; [first [assumption | reflexivity]|]);
    try (left; repeat split; reflexivity);
    right; repeat (split; [reflexivity|]);
    eexists; (split; [reflexivity|]); (split; [discriminate|reflexivity]).
Qed.

Lemma assigned_after_update (st : store) (f g : family) (id : Z) (j : string) (r : row) :
  In r (rows (update_by_id st f id
                (fun r => set_job_order_id j (set_status "ASSIGNED" r))) g) ->
  In r (rows st g) \/ (g = f /\ r_id r = id /\ r_job_order_id r = Some j /\ r_status r = Some "ASSIGNED").
Proof.
  destruct (family_eq_dec f g) as [<-|Hne].
  - rewrite rows_update_by_id. intros Hin. apply in_map_iff in Hin.
    destruct Hin as [r0 [Hr0 Hin]]. destruct (r_id r0 =? id) eqn:E.
    + right. subst r. apply Z.eqb_eq in E. simpl. auto.
    + left. now subst r.
  - unfold update_by_id. rewrite rows_set_rows_other by assumption. auto.
Qed.

(** The automatic job order of the public form ends in one of the same
    three ways. *)
Lemma automatic_job_order_cases (e : env) (st : store) (js : job_store)
  (d : App.outage_form) (priority : string) :
  let '(st', js', effects, job_order_id) := App.automatic_job_order e st js d priority in
  (effects = [] /\ st' = st /\ js' = js /\ job_order_id = None) \/
  (exists job,
      unique_id job = fresh_id e /\ js' = (js ++ [job])%list /\
      job_order_id = Some (fresh_id e) /\
      ((effects = [EffJobOrder (fresh_id e)] /\ st' = st) \/
       (effects = [EffJobOrder (fresh_id e);
                   EffLink "power_outage_reports" (serial e) (fresh_id e)] /\
        st' = update_by_id st power_outage_reports (serial e)
                (set_job_order_id (fresh_id e))))).
Proof.
  assert (Hid : unique_id (App.submitted_job_order e d priority) = fresh_id e).
  { unfold App.submitted_job_order. now destruct (App.extract_location_parts _). }
  unfold App.automatic_job_order, App.write_job_order.
  handler_cases;
    repeat match goal with
           | H : Return _ = Return _ |- _ => injection H; clear H; intros; subst
           | H : Raise _ = Return _ |- _ => discriminate H
           | H : Return _ = Raise _ |- _ => discriminate H
           end;
    rewrite ?Hid;
    try (left; repeat split; reflexivity);
    right; eexists; (split; [exact Hid|]); (split; [reflexivity|]);
    (split; [reflexivity|]);
    first [left; split; reflexivity | right; split; reflexivity].
Qed.

(** C4.  A call of [assign_job_order] commits nothing, or the job order
    alone, or the job order and then the link on the complaint row, in that
    order.  The complaint store differs from what it was only when the link
    was committed.  When the job-order write fails (no connection to the
    job-order store, or its cursor, insert or commit raises) both stores are
    as before.  When the complaint store did change, the job order with the
    generated id is in the job-order store, and every row that changed
    carries that id and the status ASSIGNED.  The automatic job order of
    [submit_power_outage] keeps the same order: the report's [job_order_id]
    is set only after the job order is in the job-order store. *)
Theorem C4_write_then_link :
  (forall e st js table record_id st' js' effects resp,
      App.assign_job_order e st js table record_id = (st', js', effects, resp) ->
      (effects = [] \/
       effects = [EffJobOrder (fresh_id e)] \/
       effects = [EffJobOrder (fresh_id e); EffLink table record_id (fresh_id e)]) /\
      (st' = st \/ In (EffLink table record_id (fresh_id e)) effects) /\
      (joblist_pool_ok e = false \/ raises e StJobCursor = true \/
       raises e StJobInsert = true \/ raises e StJobCommit = true ->
       st' = st /\ js' = js) /\
      (st' <> st ->
       exists job,
         In job js' /\ unique_id job = fresh_id e /\ success resp = true /\
         forall f r,
           In r (rows st' f) -> ~ In r (rows st f) ->
           r_job_order_id r = Some (unique_id job) /\ r_status r = Some "ASSIGNED")) /\
  (forall e st js d priority st' js' effects job_order_id,
      App.automatic_job_order e st js d priority = (st', js', effects, job_order_id) ->
      (effects = [] \/
       effects = [EffJobOrder (fresh_id e)] \/
       effects = [EffJobOrder (fresh_id e);
                  EffLink "power_outage_reports" (serial e) (fresh_id e)]) /\
      (st' <> st -> exists job, In job js' /\ unique_id job = fresh_id e)).
Proof.
  split.
  { intros e st js table record_id st' js' effects resp Hcall.
  pose proof (assign_job_order_cases e st js table record_id) as Hcases.
  rewrite Hcall in Hcases.
  destruct Hcases as [[-> [-> [-> Hfail]]]
                     |[job [Hid [-> [Hpool [Hcur [Hins [Hcom Hlink]]]]]]]].
  - split; [now left|]. split; [now left|]. split; [auto|].
    intros Hne. now elim Hne.
  - assert (Hwritten :
              joblist_pool_ok e = false \/ raises e StJobCursor = true \/
              raises e StJobInsert = true \/ raises e StJobCommit = true -> False)
      by (intros [H|[H|[H|H]]]; congruence).
    destruct Hlink as [[-> [-> Hfail]] | [-> [Hok [Hresp [f [Htable [Hf ->]]]]]]].
    + split; [right; now left|]. split; [now left|].
      split; [intros H; now elim Hwritten|].
      intros Hne. now elim Hne.
    + split; [right; now right|]. split; [right; simpl; auto|].
      split; [intros H; now elim Hwritten|].
      intros _. exists job. split; [apply in_or_app; right; now left|].
      split; [exact Hid|]. split; [exact Hok|].
      intros g r Hin Hnew. apply assigned_after_update in Hin.
      destruct Hin as [Hin | [_ [_ [Hj Hs]]]]; [now elim Hnew|].
      rewrite Hid. auto. }
  intros e st js d priority st' js' effects job_order_id Hcall.
  pose proof (automatic_job_order_cases e st js d priority) as Hcases.
  rewrite Hcall in Hcases.
  destruct Hcases as [[-> [-> _]] | [job [Hid [-> [_ [[-> ->] | [-> ->]]]]]]].
  - split; [now left|]. intros Hne. now elim Hne.
  - split; [right; now left|]. intros Hne. now elim Hne.
  - split; [right; now right|]. intros _. exists job.
    split; [apply in_or_app; right; now left | exact Hid].
Qed.

Lemma healthy_calm (clock key : Z) (generated : string) : healthy (calm clock key generated).
Proof. repeat split. Qed.

(** An assignment that goes through, on a concrete store: the job order is
    in the job-order store and the complaint row points at it. *)
Lemma C4_write_then_link_witness :
  exists st' js' effects resp job,
    App.assign_job_order (calm 5000 1 "9876543210") one_assigned_concern []
      "meter_concern" 7 = (st', js', effects, resp) /\
    In job js' /\ unique_id job = "9876543210" /\
    map r_job_order_id (meter_rows st') = [Some "9876543210"].
Proof.
  destruct (proj1 C4_write_then_link (calm 5000 1 "9876543210") one_assigned_concern []
              "meter_concern" 7 _ _ _ _ eq_refl) as [_ [_ [_ Hchanged]]].
  destruct Hchanged as [job [Hin [Hid _]]]; [discriminate|].
  do 5 eexists. split; [reflexivity|]. split; [exact Hin|]. split; [exact Hid|].
  reflexivity.
Defined.

Lemma or_else_some (s d : string) : s <> "" -> Py.or_else (Some s) d = s.
Proof.
  intros H. unfold Py.or_else. destruct (String.eqb s "") eqn:E; [|reflexivity].
  apply String.eqb_eq in E. now elim H.
Qed.

Lemma assign_job_order_succeeds (e : env) (st : store) (js : job_store)
  (f : family) (record_id : Z) (found : row) :
  healthy e -> f <> power_outage_reports ->
  fetch_by_id st f record_id = Some found ->
  exists job,
    App.assign_job_order e st js (table_name f) record_id =
    (update_by_id st f record_id
       (fun r => set_job_order_id (fresh_id e) (set_status "ASSIGNED" r)),
     (js ++ [job])%list,
     [EffJobOrder (fresh_id e); EffLink (table_name f) record_id (fresh_id e)],
     mkResponse true 200 None (Some "ASSIGNED") (Some (fresh_id e))
       (Some (Py.or_else (r_job_order_id found) ""))) /\
    unique_id job = fresh_id e /\
    (forall old, r_job_order_id found = Some old -> old <> "" ->
                 exists rest, notes job = "Original Job Order: " ++ old ++ rest).
Proof.
  intros [Hpool [Hjob [_ [Hraises _]]]] Hf Hfound.
  assert (Hcount : (rowcount st f record_id =? 0)%nat = false)
    by (apply rowcount_fetch; rewrite Hfound; discriminate).
  unfold App.assign_job_order, App.read_for_assignment, App.write_job_order,
    App.link_complaint, execute, bind.
  rewrite Hpool, Hjob, ?Hraises, family_of_table_name. cbn [negb].
  destruct f; [now elim Hf | |];
    rewrite ?Hraises, Hfound, ?Hraises, ?family_of_table_name, Hcount,
      ?unique_id_converted_data;
    (eexists; split; [reflexivity|]; split; [apply unique_id_converted_data|]);
    intros old Hold Hne; rewrite notes_converted_data; cbn [App.a_existing_job_order];
    rewrite Hold, (or_else_some _ _ Hne);
    (destruct (String.eqb old "") eqn:E; [apply String.eqb_eq in E; now elim Hne|]);
    eexists; reflexivity.
Qed.

Lemma job_order_after_update (st : store) (f : family) (id : Z) (j : string) (r : row) :
  In r (rows (update_by_id st f id
                (fun r => set_job_order_id j (set_status "ASSIGNED" r))) f) ->
  r_id r = id -> r_job_order_id r = Some j.
Proof.
  rewrite rows_update_by_id. intros Hin Hid. apply in_map_iff in Hin.
  destruct Hin as [r0 [Hr0 _]]. destruct (r_id r0 =? id) eqn:E.
  - now subst r.
  - subst r. apply Z.eqb_neq in E. now elim E.
Qed.

(** C2, as the code has it.  When nothing fails, [assign_job_order] on a
    meter concern or an agent request that already carries a job order
    succeeds again: the rows of that key get the newly generated id in
    [job_order_id] (and the status ASSIGNED), the earlier id opens the notes
    of the new job order and is returned as [original_job_order_id].  A
    call that reports failure leaves the complaint store as it was; on
    [power_outage_reports] every call fails before either store is
    written.  No request other than an assignment changes the
    [job_order_id] of a row that is already there. *)
Theorem C2_reassignment_overwrites :
  (forall e st js f record_id found old,
      healthy e -> f <> power_outage_reports ->
      fetch_by_id st f record_id = Some found ->
      r_job_order_id found = Some old -> old <> "" ->
      let st' := update_by_id st f record_id
                   (fun r => set_job_order_id (fresh_id e) (set_status "ASSIGNED" r)) in
      exists job,
        App.assign_job_order e st js (table_name f) record_id =
        (st', (js ++ [job])%list,
         [EffJobOrder (fresh_id e); EffLink (table_name f) record_id (fresh_id e)],
         mkResponse true 200 None (Some "ASSIGNED") (Some (fresh_id e)) (Some old)) /\
        unique_id job = fresh_id e /\
        (exists rest, notes job = "Original Job Order: " ++ old ++ rest) /\
        (forall r, In r (rows st' f) -> r_id r = record_id ->
                   r_job_order_id r = Some (fresh_id e))) /\
  (forall e st js table record_id st' js' effects resp,
      App.assign_job_order e st js table record_id = (st', js', effects, resp) ->
      success resp = false -> st' = st) /\
  (forall e st js record_id,
      exists msg,
        App.assign_job_order e st js "power_outage_reports" record_id
        = (st, js, [], error_response 200 msg)) /\
  (forall parse_sms e w req f n r,
      not_an_assignment e (complaints_db w) req ->
      nth_error (rows (complaints_db w) f) n = Some r ->
      exists r',
        nth_error (rows (complaints_db (handle parse_sms e w req)) f) n = Some r' /\
        r_id r' = r_id r /\ r_job_order_id r' = r_job_order_id r).
Proof.
  split; [|split; [|split]].
  - intros e st js f record_id found old He Hf Hfound Hold Hne st'.
    destruct (assign_job_order_succeeds e st js f record_id found He Hf Hfound)
      as [job [Hcall [Hid Hnotes]]].
    exists job. rewrite Hold, (or_else_some _ _ Hne) in Hcall.
    split; [exact Hcall|]. split; [exact Hid|]. split; [now apply Hnotes|].
    apply job_order_after_update.
  - intros e st js table record_id st' js' effects resp Hcall Hfail.
    pose proof (assign_job_order_cases e st js table record_id) as Hcases.
    rewrite Hcall in Hcases.
    destruct Hcases as [[_ [-> _]] | [job [_ [_ [_ [_ [_ [_ Hlink]]]]]]]]; [reflexivity|].
    destruct Hlink as [[_ [-> _]] | [_ [Hok _]]]; [reflexivity | congruence].
  - intros e st js record_id.
    unfold App.assign_job_order, App.read_for_assignment, execute, bind. simpl.
    destruct (pool_ok e); simpl; [|eauto].
    destruct (raises e StCursor); simpl; [eauto|].
    destruct (raises e (StSelect "power_outage_reports")); simpl; eauto.
  - intros parse_sms e w req f n r Hreq Hn.
    destruct (evolves_by_nth _ _ _ f n r (handle_keeps_jobs parse_sms e w req Hreq) Hn)
      as [r' [Hn' [Hid Hjob]]].
    exists r'. auto.
Qed.

(** A second assignment on a concrete store. *)
Lemma C2_reassignment_overwrites_witness :
  exists job,
    App.assign_job_order (calm 5000 1 "9876543210") one_assigned_concern []
      "meter_concern" 7 =
    (update_by_id one_assigned_concern meter_concern 7
       (fun r => set_job_order_id "9876543210" (set_status "ASSIGNED" r)),
     [job],
     [EffJobOrder "9876543210"; EffLink "meter_concern" 7 "9876543210"],
     mkResponse true 200 None (Some "ASSIGNED") (Some "9876543210")
       (Some "JO-20260101-1234")) /\
    exists rest, notes job = "Original Job Order: JO-20260101-1234" ++ rest.
Proof.
  destruct C2_reassignment_overwrites as [Hagain _].
  destruct (Hagain (calm 5000 1 "9876543210") one_assigned_concern [] meter_concern 7
              assigned_concern "JO-20260101-1234" (healthy_calm _ _ _)
              ltac:(discriminate) eq_refl eq_refl ltac:(discriminate))
    as [job [Hcall [_ [Hnotes _]]]].
  exists job. split; [exact Hcall | exact Hnotes].
Defined.

(** C2 as stated fails: the complaint carries a job order, a second
    assignment succeeds, and the field holds another id afterwards. *)
Lemma C2_counterexample :
  exists st' js' effects resp,
    App.assign_job_order (calm 5000 1 "9876543210") one_assigned_concern []
      "meter_concern" 7 = (st', js', effects, resp) /\
    success resp = true /\
    map r_job_order_id (meter_rows one_assigned_concern) = [Some "JO-20260101-1234"] /\
    map r_job_order_id (meter_rows st') = [Some "9876543210"].
Proof. do 4 eexists. split; [reflexivity|]. repeat split. Qed.

(** ** C3: repeated outage reports *)

Lemma newest_first_latest (l : list row) (latest : row) (t : Z) :
  r_timestamp latest = Some t ->
  (forall x, In x l -> exists tx, r_timestamp x = Some tx /\ tx < t) ->
  newest_first (l ++ [latest]) = latest :: newest_first l.
Proof.
  intros Hlatest. unfold newest_first. induction l as [|x l IH]; intros Holder.
  - reflexivity.
  - simpl. rewrite IH by (intros y Hy; apply Holder; now right). simpl.
    destruct (Holder x (or_introl eq_refl)) as [tx [Hx Hlt]].
    rewrite Hx, Hlatest. simpl.
    destruct (t <=? tx) eqn:E; [apply Z.leb_le in E; lia | reflexivity].
Qed.

Lemma existing_after_report (e1 e2 : env) (st : store) (a user_id : string)
  (full_name contact_number : option string) :
  date_of (now e2) = date_of (now e1) ->
  (forall r t, In r (outage_rows st) -> r_address r = Some a ->
               r_timestamp r = Some t -> t < now e1) ->
  let report :=
    Actions.ActionSubmitPowerOutageFormEnhanced.new_report e1 user_id full_name (Some a)
      contact_number in
  Actions.ActionSubmitPowerOutageFormEnhanced.existing e2
    (insert_row st power_outage_reports report) (Some a) = Some report.
Proof.
  intros Hday Holder report.
  unfold Actions.ActionSubmitPowerOutageFormEnhanced.existing. simpl outage_rows.
  rewrite filter_app.
  match goal with |- context [filter ?q [report]] => set (p := q) end.
  assert (Hp : p report = true).
  { unfold p, report. simpl. rewrite String.eqb_refl, Hday, Z.eqb_refl. reflexivity. }
  change (filter p [report]) with (if p report then [report] else []). rewrite Hp.
  rewrite (newest_first_latest _ report (now e1)); [reflexivity | reflexivity |].
  intros x Hx. apply filter_In in Hx. destruct Hx as [Hin Hx]. unfold p in Hx.
  apply andb_true_iff in Hx. destruct Hx as [Haddr Htime].
  destruct (r_timestamp x) as [tx|] eqn:Hts; [|discriminate].
  exists tx. split; [reflexivity|]. apply (Holder x tx Hin); [|exact Hts].
  unfold Actions.eq_opt in Haddr. destruct (r_address x) as [s|]; [|discriminate].
  apply String.eqb_eq in Haddr. now subst.
Qed.

(** The public form takes a submission or not without a look at the two
    stores. *)
Lemma submit_power_outage_blind (e : env) (st st2 : store) (js js2 : job_store)
  (d : App.outage_form) :
  success (snd (App.submit_power_outage e st2 js2 d)) =
  success (snd (App.submit_power_outage e st js d)).
Proof.
  unfold App.submit_power_outage.
  destruct (negb _); [reflexivity|].
  destruct (negb (pool_ok e)); [reflexivity|].
  destruct (_ ;;; _); [|reflexivity].
  destruct (App.automatic_job_order e (insert_row st2 _ _) js2 _ _) as [[[? ?] ?] ?].
  destruct (App.automatic_job_order e (insert_row st _ _) js _ _) as [[[? ?] ?] ?].
  reflexivity.
Qed.

(** A submission the public form takes adds one row to
    [power_outage_reports]. *)
Lemma submit_power_outage_adds_a_row (e : env) (st st' : store) (js js' : job_store)
  (d : App.outage_form) (events : list event) (effects : list effect)
  (resp : response) :
  App.submit_power_outage e st js d = (st', js', events, effects, resp) ->
  success resp = true ->
  length (outage_rows st') = S (length (outage_rows st)).
Proof.
  unfold App.submit_power_outage.
  destruct (negb _); [intros H; injection H as <- <- <- <- <-; discriminate|].
  destruct (negb (pool_ok e)); [intros H; injection H as <- <- <- <- <-; discriminate|].
  destruct (_ ;;; _); [|intros H; injection H as <- <- <- <- <-; discriminate].
  match goal with
  | |- context [App.automatic_job_order e ?s js d ?p] =>
      pose proof (automatic_job_order_cases e s js d p) as Hauto;
      destruct (App.automatic_job_order e s js d p) as [[[st2 js2] effects2] job]
  end.
  intros H _. injection H as <- <- <- <- <-.
  assert (Hnew : forall r,
             length (outage_rows (insert_row st power_outage_reports r))
             = S (length (outage_rows st))).
  { intros r. simpl. rewrite length_app. simpl. lia. }
  destruct Hauto as [[_ [-> _]]|[job' [_ [_ [_ [[_ ->]|[_ ->]]]]]]].
  - apply Hnew.
  - apply Hnew.
  - change (outage_rows ?s) with (rows s power_outage_reports).
    rewrite rows_update_by_id, length_map. apply Hnew.
Qed.

(** C3, as the code has it.  The chatbot's outage action looks up the
    newest report of the address made on the current day; when there is one
    and its status is neither RESOLVED nor FINISHED the action inserts
    nothing, and (when no statement raises) answers with that report's job
    order id.  So when a first submission through the chatbot logged a
    report, every earlier report of the address being older, a second
    submission of the same address on the same day, right after it and with
    nothing failing, adds no row and answers with the job order id the first
    one gave.  The public form, the SMS webhook and the webhook for relayed
    complaints make no such lookup: whether they take a submission does not
    depend on what the store holds, and every submission they take adds a
    row. *)
Theorem C3_chatbot_duplicate_report :
  (forall e st full_name address contact_number sender_id found,
      Actions.ActionSubmitPowerOutageFormEnhanced.existing e st address = Some found ->
      Actions.ActionSubmitPowerOutageFormEnhanced.unresolved found = true ->
      exists utterances events,
        Actions.ActionSubmitPowerOutageFormEnhanced.run e st
          full_name address contact_number sender_id = (st, utterances, events) /\
        ((forall s, raises e s = false) ->
         utterances = [Actions.AlreadyReported full_name (r_job_order_id found)])) /\
  (forall e1 e2 st a name1 contact1 sender1 name2 contact2 sender2 st1 events1,
      healthy e1 -> healthy e2 ->
      date_of (now e2) = date_of (now e1) ->
      (forall r t, In r (outage_rows st) -> r_address r = Some a ->
                   r_timestamp r = Some t -> t < now e1) ->
      Actions.ActionSubmitPowerOutageFormEnhanced.run e1 st name1 (Some a) contact1 sender1
      = (st1, [Actions.ReportLogged name1 (fresh_id e1) (Some a) contact1], events1) ->
      length (outage_rows st1) = S (length (outage_rows st)) /\
      exists events2,
        Actions.ActionSubmitPowerOutageFormEnhanced.run e2 st1 name2 (Some a) contact2 sender2
        = (st1, [Actions.AlreadyReported name2 (Some (fresh_id e1))], events2)) /\
  (forall e st js d st' js' events effects resp,
      App.submit_power_outage e st js d = (st', js', events, effects, resp) ->
      (forall st2 js2,
          success (snd (App.submit_power_outage e st2 js2 d)) = success resp) /\
      (success resp = true ->
       length (outage_rows st') = S (length (outage_rows st)))) /\
  (forall parse_sms e st from_number message_body st' events resp,
      SmsHandler.sms_webhook parse_sms e st from_number message_body
      = (st', events, resp) ->
      (forall st2,
          success (snd (SmsHandler.sms_webhook parse_sms e st2 from_number message_body))
          = success resp) /\
      (success resp = true ->
       exists parsed,
         parse_sms message_body from_number = Some parsed /\
         st' = insert_row st (fst (SmsHandler.sms_row e parsed))
                 (snd (SmsHandler.sms_row e parsed)))) /\
  (forall e st data st' events resp,
      CloudApp.webhook_new_complaint e st data = (st', events, resp) ->
      (forall st2,
          success (snd (CloudApp.webhook_new_complaint e st2 data)) = success resp) /\
      (success resp = true ->
       st' = insert_row st power_outage_reports (CloudApp.relayed_row e data))).
Proof.
  split; [|split; [|split; [|split]]].
  3: { intros e st js d st' js' events effects resp Hcall. split.
       - intros st2 js2. rewrite (submit_power_outage_blind e st st2 js js2 d).
         now rewrite Hcall.
       - now apply (submit_power_outage_adds_a_row e st st' js js' d events effects). }
  3: { intros parse_sms e st from_number message_body st' events resp.
       unfold SmsHandler.sms_webhook.
       destruct (parse_sms message_body from_number) as [parsed|].
       - destruct (negb (pool_ok e)).
         + intros H; injection H as <- <- <-. split; [reflexivity | discriminate].
         + destruct (SmsHandler.sms_row e parsed) as [f new_row] eqn:Hrow.
           destruct (_ ;;; _).
           * intros H; injection H as <- <- <-. split; [reflexivity|].
             intros _. exists parsed. rewrite Hrow. split; reflexivity.
           * intros H; injection H as <- <- <-. split; [reflexivity | discriminate].
       - intros H; injection H as <- <- <-. split; [reflexivity | discriminate]. }
  3: { intros e st data st' events resp. unfold CloudApp.webhook_new_complaint.
       destruct (negb (pool_ok e)).
       - intros H; injection H as <- <- <-. split; [reflexivity | discriminate].
       - destruct (_ ;;; _).
         + intros H; injection H as <- <- <-. split; reflexivity.
         + intros H; injection H as <- <- <-. split; [reflexivity | discriminate]. }
  - intros e st full_name address contact_number sender_id found Hfound Hopen.
    unfold Actions.ActionSubmitPowerOutageFormEnhanced.run, execute, bind.
    rewrite Hfound, Hopen.
    destruct (raises e StConnect) eqn:H1; [do 2 eexists; split; [reflexivity|];
      intros H; rewrite H in H1; discriminate|].
    destruct (raises e StCursor) eqn:H2; [do 2 eexists; split; [reflexivity|];
      intros H; rewrite H in H2; discriminate|].
    destruct (raises e (StSelect "power_outage_reports")) eqn:H3;
      [do 2 eexists; split; [reflexivity|]; intros H; rewrite H in H3; discriminate|].
    destruct (raises e (StCommit 0)) eqn:H4; [do 2 eexists; split; [reflexivity|];
      intros H; rewrite H in H4; discriminate|].
    do 2 eexists. split; reflexivity.
  - intros e1 e2 st a name1 contact1 sender1 name2 contact2 sender2 st1 events1
      [_ [_ [_ [Hraises1 _]]]] [_ [_ [_ [Hraises2 _]]]] Hday Holder Hfirst.
    assert (Hst1 : st1 = insert_row st power_outage_reports
                           (Actions.ActionSubmitPowerOutageFormEnhanced.new_report
                              e1 sender1 name1 (Some a) contact1)).
    { revert Hfirst.
      unfold Actions.ActionSubmitPowerOutageFormEnhanced.run, execute, bind.
      rewrite !Hraises1.
      destruct (Actions.ActionSubmitPowerOutageFormEnhanced.existing e1 st (Some a))
        as [found|];
        [destruct (Actions.ActionSubmitPowerOutageFormEnhanced.unresolved found)|];
        intros H; inversion H; reflexivity. }
    subst st1. split.
    + simpl. rewrite length_app. simpl. lia.
    + unfold Actions.ActionSubmitPowerOutageFormEnhanced.run, execute, bind.
      rewrite !Hraises2.
      rewrite (existing_after_report e1 e2 st a sender1 name1 contact1 Hday Holder).
      simpl. eexists. reflexivity.
Qed.

(** Two submissions through the chatbot, same address, same day, on a
    store with no earlier report; and the public form submitted on a store
    that holds a report of the address made the same day, which leaves two
    rows. *)
Lemma C3_chatbot_duplicate_report_witness :
  (exists st1 events2,
     length (outage_rows st1) = 1%nat /\
     Actions.ActionSubmitPowerOutageFormEnhanced.run (calm 2000 2 "JO-20260101-9999") st1
       (Some "Juan Dela Cruz") (Some "Brgy. Bacan, Cabatuan, Iloilo") (Some "09123456789")
       "u1"
     = (st1, [Actions.AlreadyReported (Some "Juan Dela Cruz") (Some "JO-20260101-1234")],
        events2)) /\
  length
    (outage_rows
       (fst (fst (fst (fst
          (App.submit_power_outage (calm 2000 2 "BBBBBBBBBBBB") one_outage_report []
             sample_form))))))
  = 2%nat.
Proof.
  destruct C3_chatbot_duplicate_report as [_ [Hpair [Hform _]]].
  split.
  - destruct (Hpair (calm 1000 1 "JO-20260101-1234") (calm 2000 2 "JO-20260101-9999")
                empty_store "Brgy. Bacan, Cabatuan, Iloilo"
                (Some "Juan Dela Cruz") (Some "09123456789") "u1"
                (Some "Juan Dela Cruz") (Some "09123456789") "u1"
                _ _ (healthy_calm _ _ _) (healthy_calm _ _ _) eq_refl
                ltac:(intros r t [])
                eq_refl)
      as [Hlen [events2 Hsecond]].
    eexists _, events2. split; [exact Hlen | exact Hsecond].
  - destruct (App.submit_power_outage (calm 2000 2 "BBBBBBBBBBBB") one_outage_report []
                sample_form) as [[[[st' js'] events] effects] resp] eqn:Hcall.
    destruct (Hform _ _ _ _ _ _ _ _ _ Hcall) as [_ Hadds].
    cbn [fst]. rewrite Hadds; [reflexivity|].
    vm_compute in Hcall. injection Hcall as <- <- <- <- <-. reflexivity.
Defined.

(** C3 as stated fails: two submissions of the public form with the same
    address, on the same day, the first report still NEW, leave two rows,
    and the second answer carries another job order id than the first. *)
Lemma C3_counterexample :
  exists st1 js1 events1 effects1 resp1 st2 js2 events2 effects2 resp2,
    App.submit_power_outage (calm 1000 1 "AAAAAAAAAAAA") empty_store [] sample_form
    = (st1, js1, events1, effects1, resp1) /\
    App.submit_power_outage (calm 2000 2 "BBBBBBBBBBBB") st1 js1 sample_form
    = (st2, js2, events2, effects2, resp2) /\
    date_of 2000 = date_of 1000 /\
    map r_status (outage_rows st1) = [Some "NEW"] /\
    map r_address (outage_rows st2) =
      [Some "Brgy. Bacan, Cabatuan, Iloilo"; Some "Brgy. Bacan, Cabatuan, Iloilo"] /\
    job_order_id resp1 = Some "AAAAAAAAAAAA" /\
    job_order_id resp2 = Some "BBBBBBBBBBBB".
Proof.
  do 10 eexists. split; [vm_compute; reflexivity|].
  split; [vm_compute; reflexivity|]. repeat split.
Qed.

(** ** C9: the status a complaint is created with *)

Lemma length_rows_update_by_id (st : store) (f g : family) (id : Z) (change : row -> row) :
  length (rows (update_by_id st f id change) g) = length (rows st g).
Proof.
  destruct (family_eq_dec f g) as [<-|Hne].
  - rewrite rows_update_by_id. apply length_map.
  - unfold update_by_id. now rewrite rows_set_rows_other.
Qed.

(** C9 on the code.  A meter concern submitted through the chatbot is
    inserted with the status PENDING, where the SMS webhook inserts into the
    same table with NEW.  The rows the other adapters insert (the chatbot's
    outage report, the public form, the SMS webhook for each table, the
    relayed complaint) have the status NEW.  The agent form's insert writes
    Pending, in a [run] that the class replaces: the [run] in effect adds no
    row to any table. *)
Theorem C9_initial_status_by_adapter :
  (exists st' utterances events,
      Actions.ActionSubmitMeterConcern.run (calm 1000 1 "JO-20260101-1234") empty_store
        (Some "123456") (Some "Juan Dela Cruz") (Some "Brgy. Bacan, Cabatuan, Iloilo")
        (Some "09123456789") (Some "broken") "u1" = (st', utterances, events) /\
      map r_status (meter_rows st') = [Some "PENDING"]) /\
  (forall e user_id account_no full_name address contact_number concern,
      r_status (Actions.ActionSubmitMeterConcern.new_concern e user_id account_no full_name
                  address contact_number concern) = Some "PENDING") /\
  (forall e user_id full_name address contact_number,
      r_status (Actions.ActionSubmitPowerOutageFormEnhanced.new_report e user_id full_name
                  address contact_number) = Some "NEW") /\
  (forall e d priority, r_status (App.submitted_row e d priority) = Some "NEW") /\
  (forall e parsed, r_status (snd (SmsHandler.sms_row e parsed)) = Some "NEW") /\
  (forall e data, r_status (CloudApp.relayed_row e data) = Some "NEW") /\
  (forall e user_id full_name concern contact_number priority,
      r_status (Actions.ActionSubmitTalkToAgentForm.Shadowed.new_request e user_id full_name
                  concern contact_number priority) = Some "Pending") /\
  (forall e st f,
      length (rows (fst (fst (Actions.ActionSubmitTalkToAgentForm.run e st))) f)
      = length (rows st f)).
Proof.
  repeat split.
  - do 3 eexists. split; [vm_compute; reflexivity | reflexivity].
  - intros e parsed. unfold SmsHandler.sms_row.
    destruct (String.eqb _ "POWER OUTAGE"); [reflexivity|].
    now destruct (String.eqb _ "BILLING").
  - intros e st f. unfold Actions.ActionSubmitTalkToAgentForm.run. handler_cases;
      repeat match goal with
             | H : Return _ = Return _ |- _ => injection H; clear H; intros; subst
             end;
      try discriminate; cbn [fst snd]; auto using length_rows_update_by_id.
Qed.

(** ** Instances on concrete data *)

(** The query on [meter_concern] raises: the entries of the two other
    tables are returned, sorted, and none comes from [meter_concern].  On a
    connection that has gone dead the listing raises what the rollback
    raises. *)
Lemma C6_aggregator_failure_handling_witness :
  (exists l,
     App.get_unified_complaints (query_fails "meter_concern") three_complaints
       App.no_filters = Return l /\
     map App.c_table l = ["power_outage_reports"; "agent_queue"] /\
     forall c, In c l -> App.c_table c <> "meter_concern") /\
  App.get_unified_complaints dead_connection empty_store App.no_filters =
  Raise "connection already closed".
Proof.
  destruct C6_aggregator_failure_handling as [Hlist [Hreturns [Hraises _]]].
  split.
  - destruct (Hreturns (query_fails "meter_concern") three_complaints App.no_filters
                (or_intror eq_refl)) as [l Hl].
    destruct (Hlist _ _ _ _ Hl) as [_ Hpartial].
    destruct (Hpartial eq_refl eq_refl eq_refl) as [Hmerge Hfamilies].
    exists l. split; [exact Hl|]. split.
    + rewrite Hmerge. reflexivity.
    + exact (proj2 (Hfamilies meter_concern) eq_refl).
  - exact (Hraises dead_connection empty_store App.no_filters eq_refl eq_refl
             (or_introl eq_refl)).
Defined.


(** Hiding a record twice, and hiding one that does not exist. *)
Lemma C8_hide_idempotent_one_way_witness :
  let hidden_once := update_by_id three_complaints meter_concern 7 set_hidden in
  App.hide_complaint (calm 5000 1 "id") three_complaints "meter_concern" 7
  = (hidden_once, ok_response) /\
  App.hide_complaint (calm 5000 1 "id") hidden_once "meter_concern" 7
  = (hidden_once, ok_response) /\
  App.hide_complaint (calm 5000 1 "id") three_complaints "meter_concern" 99
  = (three_complaints, error_response 404 "Complaint not found").
Proof.
  destruct C8_hide_idempotent_one_way as [Hfound [Hmissing _]].
  destruct (Hfound (calm 5000 1 "id") three_complaints meter_concern 7
              (healthy_calm _ _ _) ltac:(discriminate))
    as [Hhide [_ [_ [_ [_ [Hagain _]]]]]].
  destruct (Hmissing (calm 5000 1 "id") three_complaints meter_concern 99
              (healthy_calm _ _ _) eq_refl) as [Hnone _].
  split; [exact Hhide|]. split; [exact Hagain | exact Hnone].
Defined.

(** The agent request of the sample store is listed, and its row is not
    resumed. *)
Lemma C10_resumed_never_listed_witness :
  let c := App.to_complaint (calm 5000 1 "id") agent_queue
             (sample_row 7 "RESOLVED" "CRITICAL" 3000) in
  In (App.c_full_data c) (agent_rows three_complaints) /\
  r_resumed (App.c_full_data c) <> Some true.
Proof.
  destruct C10_resumed_never_listed as [Hlisted _].
  apply (Hlisted (calm 5000 1 "id") three_complaints App.no_filters _ _ eq_refl).
  - vm_compute. tauto.
  - reflexivity.
Defined.

(** * Further properties of the listing *)

(** Every entry of the listing was built from a row of its table that
    passes the tests of the call. *)
Lemma listed_row (e : env) (st : store) (flt : App.filters)
  (l : list App.complaint) (c : App.complaint) :
  App.get_unified_complaints e st flt = Return l -> In c l ->
  exists f r,
    c = App.to_complaint e f r /\ In r (rows st f) /\ passes e flt f r = true.
Proof.
  intros Hl Hc. apply get_unified_complaints_returns in Hl. subst l.
  destruct (pool_ok e && negb (raises e StCursor) && negb (raises e StTables));
    [|now elim Hc].
  apply in_merged in Hc. destruct Hc as [f Hf]. apply in_contribution in Hf.
  destruct Hf as [Hf _]. unfold matching in Hf.
  destruct (App.type_excluded _ _) eqn:Hex; [now elim Hf|].
  apply in_map_iff in Hf. destruct Hf as [r [<- Hr]].
  apply stable_sort_in in Hr. apply filter_In in Hr. destruct Hr as [Hin Hwhere].
  exists f, r. split; [reflexivity|]. split; [exact Hin|].
  unfold passes, bounds. now rewrite Hex.
Qed.

(** When the connection, the cursor, the table listing and the query of
    the family work, every row that passes is listed. *)
Lemma row_listed (e : env) (st : store) (flt : App.filters) (f : family) (r : row) :
  pool_ok e = true -> raises e StCursor = false -> raises e StTables = false ->
  raises e StRollback = false ->
  table_exists e f = true -> raises e (StSelect (table_name f)) = false ->
  In r (rows st f) -> passes e flt f r = true ->
  exists l, App.get_unified_complaints e st flt = Return l /\
            In (App.to_complaint e f r) l.
Proof.
  intros Hpool Hcursor Htables Hrollback Hexists Hselect Hin Hpass.
  rewrite (get_unified_complaints_eq _ _ _ Hrollback).
  eexists. split; [reflexivity|].
  rewrite Hpool, Hcursor, Htables. simpl. apply in_merged. exists f.
  unfold contribution. rewrite Hexists, Hselect. simpl.
  unfold passes, bounds in Hpass. apply andb_true_iff in Hpass.
  destruct Hpass as [Hex Hwhere]. apply negb_true_iff in Hex.
  unfold matching. rewrite Hex. apply in_map. apply stable_sort_in.
  apply filter_In. split; assumption.
Qed.

Lemma where_clause_parts (f : family) (show_hidden : bool)
  (search status priority : option string) (t1 t2 : option Z) (r : row) :
  App.where_clause f show_hidden search status priority t1 t2 r = true ->
  (show_hidden || Sql.false_or_null (r_hidden r)) = true /\
  (match search with
   | Some term =>
       if String.eqb term "" then true
       else existsb (fun col => Sql.ilike col ("%" ++ term ++ "%")) (App.search_columns f r)
   | None => true
   end) = true /\
  (match status with
   | Some s =>
       if String.eqb s "" then true
       else String.eqb (Py.upper (Sql.coalesce (r_status r) "NEW")) s
   | None => true
   end) = true /\
  (match priority with
   | Some p =>
       if String.eqb p "" then true
       else String.eqb (Py.upper (Sql.coalesce (r_priority r) (App.default_priority f))) p
   | None => true
   end) = true /\
  (match t1 with Some t => Sql.ge_bound (r_timestamp r) t | None => true end) = true /\
  (match t2 with Some t => Sql.le_bound (r_timestamp r) t | None => true end) = true.
Proof.
  unfold App.where_clause. rewrite !andb_true_iff. tauto.
Qed.


Lemma c_status_to_complaint (e : env) (f : family) (r : row) :
  App.c_status (App.to_complaint e f r) = Py.upper (Py.or_else (r_status r) "NEW").
Proof. now destruct f. Qed.

Lemma c_priority_to_complaint (e : env) (f : family) (r : row) :
  App.c_priority (App.to_complaint e f r)
  = Py.upper (Py.or_else (r_priority r) (App.default_priority f)).
Proof. now destruct f. Qed.

Lemma c_record_id_to_complaint (e : env) (f : family) (r : row) :
  App.c_record_id (App.to_complaint e f r) = r_id r.
Proof. now destruct f. Qed.




(** X2.  Soft deletion hides and keeps.  A listing made without
    [show_hidden] has no entry built from a row whose [hidden] is true; a
    row that is hidden stays unlisted through any history of requests; and
    the listing made with [show_hidden] and no other filter still shows it
    when nothing fails (an agent request, unless it is resumed). *)
Theorem hidden_rows_listed_only_on_request :
  (forall e st flt l c,
      App.show_hidden flt = false ->
      App.get_unified_complaints e st flt = Return l -> In c l ->
      r_hidden (App.c_full_data c) <> Some true) /\
  (forall parse_sms w history f n r,
      nth_error (rows (complaints_db w) f) n = Some r -> r_hidden r = Some true ->
      exists r',
        nth_error (rows (complaints_db (serve parse_sms w history)) f) n = Some r' /\
        r_id r' = r_id r /\
        forall e flt l c,
          App.show_hidden flt = false ->
          App.get_unified_complaints e (complaints_db (serve parse_sms w history)) flt
          = Return l ->
          In c l -> App.c_full_data c <> r') /\
  (forall e st f r,
      healthy e -> In r (rows st f) ->
      (f = agent_queue -> r_resumed r <> Some true) ->
      exists l,
        App.get_unified_complaints e st with_hidden = Return l /\
        In (App.to_complaint e f r) l).
Proof.
  assert (Hsound : forall e st flt l c,
             App.show_hidden flt = false ->
             App.get_unified_complaints e st flt = Return l -> In c l ->
             r_hidden (App.c_full_data c) <> Some true).
  { intros e st flt l c Hshow Hl Hc.
    destruct (listed_row _ _ _ _ _ Hl Hc) as [f [r [-> [_ Hpass]]]].
    unfold passes in Hpass. apply andb_true_iff in Hpass. destruct Hpass as [_ Hwhere].
    apply where_clause_parts in Hwhere. destruct Hwhere as [Hhidden _].
    rewrite Hshow in Hhidden. simpl in Hhidden.
    rewrite c_full_data_to_complaint. now apply false_or_null_spec. }
  split; [exact Hsound|]. split.
  - intros parse_sms w history f n r Hn Hhidden.
    destruct (evolves_nth _ _ f n r (serve_evolves parse_sms history w) Hn)
      as [r' [Hn' [Hid [Hh _]]]].
    exists r'. split; [exact Hn'|]. split; [exact Hid|].
    intros e flt l c Hshow Hl Hc Heq.
    apply (Hsound _ _ _ _ _ Hshow Hl Hc). rewrite Heq. auto.
  - intros e st f r [Hpool [_ [Hexists [Hraises _]]]] Hin Hresumed.
    apply row_listed; auto.
    unfold passes, App.where_clause. cbn.
    destruct f; try reflexivity.
    specialize (Hresumed eq_refl). apply false_or_null_spec in Hresumed.
    now rewrite Hresumed.
Qed.

(** A hidden meter concern is absent from the default listing and present
    in the one made with [show_hidden]. *)
Lemma hidden_rows_listed_only_on_request_witness :
  let st := update_by_id three_complaints meter_concern 7 set_hidden in
  let r := set_hidden (sample_row 7 "NEW" "LOW" 2000) in
  (forall l c,
      App.get_unified_complaints (calm 5000 1 "id") st App.no_filters = Return l ->
      In c l -> r_hidden (App.c_full_data c) <> Some true) /\
  exists l,
    App.get_unified_complaints (calm 5000 1 "id") st with_hidden = Return l /\
    In (App.to_complaint (calm 5000 1 "id") meter_concern r) l.
Proof.
  intros st r. destruct hidden_rows_listed_only_on_request as [Hsound [_ Hshown]].
  split.
  - intros l c. apply (Hsound (calm 5000 1 "id") st App.no_filters l c eq_refl).
  - apply (Hshown (calm 5000 1 "id") st meter_concern r (healthy_calm _ _ _)).
    + simpl. tauto.
    + discriminate.
Defined.




(** ** Searching *)

Lemma like_plain_char (c : ascii) (p s : string) :
  (Ascii.eqb c "%" || Ascii.eqb c "_" || Ascii.eqb c "\")%bool = false ->
  Sql.like (String c p) s =
  match s with
  | EmptyString => false
  | String d s' => Ascii.eqb c d && Sql.like p s'
  end.
Proof.
  intros H.
  destruct c as [[] [] [] [] [] [] [] []]; try discriminate H; reflexivity.
Qed.

Lemma like_percent (p s : string) :
  Sql.like (String "%" p) s = true <-> exists a b, s = a ++ b /\ Sql.like p b = true.
Proof.
  induction s as [|c s IH].
  - cbn. rewrite orb_false_r. split.
    + intros H. now exists "", "".
    + intros [a [b [Hs H]]]. destruct a; [|discriminate]. simpl in Hs. now subst b.
  - cbn. cbn in IH. rewrite orb_true_iff, IH. split.
    + intros [H|[a [b [-> H]]]].
      * now exists "", (String c s).
      * now exists (String c a), b.
    + intros [a [b [Hs H]]]. destruct a as [|d a].
      * left. simpl in Hs. now subst b.
      * right. simpl in Hs. injection Hs as -> ->. now exists a, b.
Qed.

Lemma like_plain_prefix (t p s : string) :
  plain t = true ->
  (Sql.like (t ++ p) s = true <-> exists s', s = t ++ s' /\ Sql.like p s' = true).
Proof.
  revert s. induction t as [|c t IH]; intros s Ht.
  - simpl. split; [intros H; now exists s | now intros [s' [-> H]]].
  - simpl in Ht. apply andb_true_iff in Ht. destruct Ht as [Hc Ht].
    apply negb_true_iff in Hc. simpl append. rewrite (like_plain_char _ _ _ Hc).
    destruct s as [|d s].
    + split; [discriminate | intros [s' [H _]]; discriminate].
    + rewrite andb_true_iff, Ascii.eqb_eq, (IH s Ht). split.
      * intros [-> [s' [-> H]]]. now exists s'.
      * intros [s' [Hs H]]. injection Hs as -> ->. split; [reflexivity | now exists s'].
Qed.

Lemma like_everything (s : string) : Sql.like "%" s = true.
Proof. apply like_percent. exists s, "". split; [|reflexivity]. induction s; simpl; congruence. Qed.

(** The pattern [%t%] with [t] plain matches the texts [t] occurs in. *)
Lemma like_contains (t s : string) :
  plain t = true -> Sql.like ("%" ++ t ++ "%") s = Py.contains t s.
Proof.
  intros Ht. apply eq_true_iff_eq.
  change ("%" ++ t ++ "%") with (String "%" (t ++ "%")).
  rewrite like_percent, contains_spec. unfold occurs_in. split.
  - intros [a [b [-> H]]]. apply (like_plain_prefix _ _ _ Ht) in H.
    destruct H as [s' [-> _]]. now exists a, s'.
  - intros [a [b ->]]. exists a, (t ++ b). split; [reflexivity|].
    apply (like_plain_prefix _ _ _ Ht). exists b. split; [reflexivity|].
    apply like_everything.
Qed.

Lemma lower_app (a b : string) : Py.lower (a ++ b) = Py.lower a ++ Py.lower b.
Proof. induction a; simpl; congruence. Qed.

Lemma plain_lower (t : string) : plain t = true -> plain (Py.lower t) = true.
Proof.
  induction t as [|c t IH]; [reflexivity|]. simpl. rewrite !andb_true_iff.
  intros [Hc Ht]. split; [|auto].
  destruct c as [[] [] [] [] [] [] [] []]; try discriminate Hc; reflexivity.
Qed.

(** [col ILIKE '%t%'] with [t] plain: [t] occurs in the column, letter
    case aside. *)
Lemma ilike_contains (t : string) (col : option string) :
  plain t = true ->
  Sql.ilike col ("%" ++ t ++ "%") =
  match col with
  | Some s => Py.contains (Py.lower t) (Py.lower s)
  | None => false
  end.
Proof.
  intros Ht. destruct col as [s|]; [|reflexivity]. unfold Sql.ilike.
  rewrite !lower_app. change (Py.lower "%") with "%".
  apply like_contains. now apply plain_lower.
Qed.

(** X4.  The search is a case-insensitive substring search.  For a search
    term without [%], [_] and backslash, every entry of the listing was
    built from a row one of whose three searched columns contains the term,
    letter case aside; and when nothing fails a row that is neither hidden
    nor resumed and has the term in a searched column is listed by the call
    that gives only the term.  The term [%] matches every row that has a
    searched column that is not NULL. *)
Theorem search_is_substring_search :
  (forall e st flt term l c,
      App.search_term flt = Some term -> term <> "" -> plain term = true ->
      App.get_unified_complaints e st flt = Return l -> In c l ->
      exists f s,
        App.c_table c = table_name f /\
        In (Some s) (App.search_columns f (App.c_full_data c)) /\
        occurs_in (Py.lower term) (Py.lower s)) /\
  (forall e st f r term s,
      healthy e -> term <> "" -> plain term = true ->
      In r (rows st f) -> r_hidden r <> Some true ->
      (f = agent_queue -> r_resumed r <> Some true) ->
      In (Some s) (App.search_columns f r) ->
      occurs_in (Py.lower term) (Py.lower s) ->
      exists l,
        App.get_unified_complaints e st (search_for term) = Return l /\
        In (App.to_complaint e f r) l) /\
  (forall e st f r s,
      healthy e -> In r (rows st f) -> r_hidden r <> Some true ->
      (f = agent_queue -> r_resumed r <> Some true) ->
      In (Some s) (App.search_columns f r) ->
      exists l,
        App.get_unified_complaints e st (search_for "%") = Return l /\
        In (App.to_complaint e f r) l).
Proof.
  split; [|split].
  - intros e st flt term l c Hterm Hne Hplain Hl Hc.
    destruct (listed_row _ _ _ _ _ Hl Hc) as [f [r [-> [_ Hpass]]]].
    unfold passes in Hpass. apply andb_true_iff in Hpass. destruct Hpass as [_ Hwhere].
    apply where_clause_parts in Hwhere. destruct Hwhere as [_ [Hsearch _]].
    rewrite Hterm in Hsearch.
    destruct (String.eqb term "") eqn:E; [apply String.eqb_eq in E; contradiction|].
    apply existsb_exists in Hsearch. destruct Hsearch as [col [Hcol Hlike]].
    rewrite (ilike_contains _ _ Hplain) in Hlike.
    destruct col as [s|]; [|discriminate].
    exists f, s. rewrite c_table_to_complaint, c_full_data_to_complaint.
    split; [reflexivity|]. split; [exact Hcol|]. now apply contains_spec.
  - intros e st f r term s [Hpool [_ [Hexists [Hraises _]]]] Hne Hplain Hin Hhidden
      Hresumed Hcol Hoccurs.
    apply row_listed; auto.
    unfold passes, App.where_clause.
    cbn -[append Sql.ilike App.search_columns existsb String.eqb].
    apply false_or_null_spec in Hhidden. rewrite Hhidden.
    destruct (String.eqb term "") eqn:E; [apply String.eqb_eq in E; contradiction|].
    assert (Hfound :
              existsb (fun col => Sql.ilike col ("%" ++ term ++ "%"))
                (App.search_columns f r) = true).
    { apply existsb_exists. exists (Some s). split; [exact Hcol|].
      rewrite (ilike_contains _ _ Hplain). now apply contains_spec. }
    rewrite Hfound. destruct f; try reflexivity.
    specialize (Hresumed eq_refl). apply false_or_null_spec in Hresumed.
    now rewrite Hresumed.
  - intros e st f r s [Hpool [_ [Hexists [Hraises _]]]] Hin Hhidden Hresumed Hcol.
    apply row_listed; auto.
    unfold passes, App.where_clause.
    cbn -[Sql.ilike App.search_columns existsb].
    apply false_or_null_spec in Hhidden. rewrite Hhidden.
    assert (Hfound :
              existsb (fun col => Sql.ilike col "%%%") (App.search_columns f r) = true).
    { apply existsb_exists. exists (Some s). split; [exact Hcol|].
      unfold Sql.ilike. change (Py.lower "%%%") with (String "%" "%%").
      apply like_percent. exists "", (Py.lower s). split; [reflexivity|].
      apply like_percent. exists "", (Py.lower s). split; [reflexivity|].
      apply like_everything. }
    rewrite Hfound. destruct f; try reflexivity.
    specialize (Hresumed eq_refl). apply false_or_null_spec in Hresumed.
    now rewrite Hresumed.
Qed.

(** The search for "DELA" finds the three sample complaints by the name
    "Juan Dela Cruz". *)
Lemma search_is_substring_search_witness :
  exists l,
    App.get_unified_complaints (calm 5000 1 "id") three_complaints (search_for "DELA")
    = Return l /\
    In (App.to_complaint (calm 5000 1 "id") meter_concern (sample_row 7 "NEW" "LOW" 2000)) l.
Proof.
  destruct search_is_substring_search as [_ [Hfound _]].
  apply (Hfound (calm 5000 1 "id") three_complaints meter_concern
           (sample_row 7 "NEW" "LOW" 2000) "DELA" "Juan Dela Cruz" (healthy_calm _ _ _)).
  - discriminate.
  - reflexivity.
  - simpl. tauto.
  - discriminate.
  - discriminate.
  - simpl. tauto.
  - exists "juan ", " cruz". reflexivity.
Defined.

(** ** Date bounds *)

Lemma parse_bound_malformed_date (e : env) (d : string) (time : option string)
  (default_time : Z) :
  d <> "" -> strptime_date e d = None ->
  App.parse_bound e (Some d) time default_time = Raise "ValueError".
Proof.
  intros Hd Hparse. unfold App.parse_bound, App.strptime.
  destruct (String.eqb d "") eqn:E; [apply String.eqb_eq in E; contradiction|].
  now rewrite Hparse.
Qed.

Lemma get_unified_complaints_bounds (e : env) (st : store) (flt flt' : App.filters) :
  App.status_filter flt' = App.status_filter flt ->
  App.priority_filter flt' = App.priority_filter flt ->
  App.type_filter flt' = App.type_filter flt ->
  App.search_term flt' = App.search_term flt ->
  App.show_hidden flt' = App.show_hidden flt ->
  bounds e flt' = bounds e flt ->
  App.get_unified_complaints e st flt' = App.get_unified_complaints e st flt.
Proof.
  intros Hs Hp Ht Hq Hh Hb. unfold App.get_unified_complaints.
  unfold bounds in Hb. now rewrite Hs, Hp, Ht, Hq, Hh, Hb.
Qed.

(** X5.  A date the listing cannot read switches bounds off without an
    error.  When [date_from] is not a [YYYY-MM-DD] date, the listing is the
    one the same call gives with no date or time bound, so a well-formed
    [date_to] is ignored as well; when [date_from] is empty or well formed
    and it is [date_to] that cannot be read, the listing is the one the call
    gives without the end bound, the start bound still applying. *)
Theorem unreadable_date_drops_bounds :
  (forall e st flt d,
      App.date_from flt = Some d -> d <> "" -> strptime_date e d = None ->
      App.get_unified_complaints e st flt
      = App.get_unified_complaints e st (without_dates flt)) /\
  (forall e st flt d start,
      App.parse_bound e (App.date_from flt) (App.time_from flt) 0 = Return start ->
      App.date_to flt = Some d -> d <> "" -> strptime_date e d = None ->
      App.get_unified_complaints e st flt
      = App.get_unified_complaints e st (without_end flt)).
Proof.
  split.
  - intros e st flt d Hfrom Hd Hparse. symmetry.
    apply get_unified_complaints_bounds; try reflexivity.
    unfold bounds, App.parse_datetime_filters. simpl.
    now rewrite Hfrom, (parse_bound_malformed_date _ _ _ _ Hd Hparse).
  - intros e st flt d start Hstart Hto Hd Hparse. symmetry.
    apply get_unified_complaints_bounds; try reflexivity.
    unfold bounds, App.parse_datetime_filters. simpl.
    now rewrite Hstart, Hto, (parse_bound_malformed_date _ _ _ _ Hd Hparse).
Qed.

(** With the start date "yesterday" and the end date "2026-01-01", which
    would keep nothing, the three sample complaints are all listed. *)
Lemma unreadable_date_drops_bounds_witness :
  let flt := App.mkFilters None None None None false
               (Some "yesterday") (Some "2026-01-01") None None in
  exists l,
    App.get_unified_complaints (calm_with_date 5000 "2026-01-01" (-86400000000))
      three_complaints flt = Return l /\
    length l = 3%nat.
Proof.
  intros flt.
  rewrite (proj1 unreadable_date_drops_bounds
             (calm_with_date 5000 "2026-01-01" (-86400000000)) three_complaints flt
             "yesterday" eq_refl ltac:(discriminate) eq_refl).
  eexists. split; reflexivity.
Defined.

(** ** A status update and the listing *)




(** ** A critical report on the board *)

Lemma sorted_before {A : Type} (R : A -> A -> Prop) (l1 l2 : list A) (x : A) :
  StronglySorted R (l1 ++ x :: l2) -> forall y, In y l1 -> R y x.
Proof.
  induction l1 as [|a l1 IH]; intros Hsorted y Hy; [now elim Hy|].
  simpl in Hsorted. apply StronglySorted_inv in Hsorted.
  destruct Hsorted as [Hrest Hall]. destruct Hy as [<-|Hy].
  - rewrite Forall_forall in Hall. apply Hall. apply in_or_app. right. now left.
  - now apply IH.
Qed.

Lemma status_order_zero (s : string) : App.status_order s = 0 -> s = "NEW".
Proof.
  unfold App.status_order. destruct (String.eqb s "NEW") eqn:E.
  - intros _. now apply String.eqb_eq.
  - repeat match goal with |- context [if ?b then _ else _] => destruct b end;
      discriminate.
Qed.

Lemma priority_order_zero (p : string) : App.priority_order p = 0 -> p = "CRITICAL".
Proof.
  unfold App.priority_order. destruct (String.eqb p "CRITICAL") eqn:E.
  - intros _. now apply String.eqb_eq.
  - repeat match goal with |- context [if ?b then _ else _] => destruct b end;
      discriminate.
Qed.

Lemma status_order_nonneg (s : string) : 0 <= App.status_order s.
Proof.
  unfold App.status_order.
  repeat match goal with |- context [if ?b then _ else _] => destruct b end; lia.
Qed.

Lemma priority_order_nonneg (p : string) : 0 <= App.priority_order p.
Proof.
  unfold App.priority_order.
  repeat match goal with |- context [if ?b then _ else _] => destruct b end; lia.
Qed.

(** What a successful submission of the public form leaves behind. *)
Lemma submit_power_outage_success (e : env) (st : store) (js : job_store)
  (d : App.outage_form) (st' : store) (js' : job_store) (events : list event)
  (effects : list effect) (resp : response) :
  App.submit_power_outage e st js d = (st', js', events, effects, resp) ->
  success resp = true ->
  let priority := App.determine_priority (App.f_incident_type d) (Py.strip (App.f_details d)) in
  events = (App.broadcast_new_complaint e (serial e) (Some priority) ++
            (if String.eqb priority "CRITICAL"
             then App.broadcast_critical_alert e (serial e) else []))%list /\
  exists r,
    In r (outage_rows st') /\
    (r = App.submitted_row e d priority \/
     r = set_job_order_id (fresh_id e) (App.submitted_row e d priority)).
Proof.
  intros Hcall Hok priority. revert Hcall. unfold App.submit_power_outage.
  fold priority.
  destruct (negb _); [intros H; injection H as <- <- <- <- <-; discriminate|].
  destruct (negb (pool_ok e)); [intros H; injection H as <- <- <- <- <-; discriminate|].
  destruct (_ ;;; _); [|intros H; injection H as <- <- <- <- <-; discriminate].
  pose proof (automatic_job_order_cases e
                (insert_row st power_outage_reports (App.submitted_row e d priority))
                js d priority) as Hauto.
  destruct (App.automatic_job_order _ _ _ _ _) as [[[st2 js2] effects2] job_order_id].
  intros H. injection H as <- <- <- <- <-. split; [reflexivity|].
  assert (Hnew : In (App.submitted_row e d priority)
                   (outage_rows (insert_row st power_outage_reports
                                   (App.submitted_row e d priority)))).
  { simpl. apply in_or_app. right. now left. }
  destruct Hauto as [[_ [-> _]]|[job [_ [_ [_ [[_ ->]|[_ ->]]]]]]].
  - eauto.
  - eauto.
  - exists (set_job_order_id (fresh_id e) (App.submitted_row e d priority)).
    split; [|now right].
    change (outage_rows ?s) with (rows s power_outage_reports).
    rewrite rows_update_by_id. apply in_map_iff.
    exists (App.submitted_row e d priority). split; [|exact Hnew].
    simpl. now rewrite Z.eqb_refl.
Qed.

(** X7.  A critical report goes to the top of the board.  When a
    submission of the public form succeeds, it raises one critical alert if
    its priority is CRITICAL and the socket layer works, and none otherwise.
    If the priority is CRITICAL, the next unfiltered listing (nothing
    failing) has an entry for the new report, with status NEW and priority
    CRITICAL, and every entry listed before it is itself NEW and CRITICAL. *)
Theorem critical_report_tops_the_board (e e' : env) (st st' : store)
  (js js' : job_store) (d : App.outage_form) (events : list event)
  (effects : list effect) (resp : response) :
  App.submit_power_outage e st js d = (st', js', events, effects, resp) ->
  success resp = true ->
  let priority := App.determine_priority (App.f_incident_type d) (Py.strip (App.f_details d)) in
  length (filter is_alert events)
  = (if emit_ok e && String.eqb priority "CRITICAL" then 1 else 0)%nat /\
  (priority = "CRITICAL" -> healthy e' ->
   exists l c,
     App.get_unified_complaints e' st' App.no_filters = Return l /\
     In c l /\
     App.c_table c = "power_outage_reports" /\ App.c_record_id c = serial e /\
     App.c_status c = "NEW" /\ App.c_priority c = "CRITICAL" /\
     forall before after, l = (before ++ c :: after)%list ->
       forall c', In c' before ->
         Py.upper (Py.strip (App.c_status c')) = "NEW" /\
         Py.upper (Py.strip (App.c_priority c')) = "CRITICAL").
Proof.
  intros Hcall Hok priority.
  destruct (submit_power_outage_success _ _ _ _ _ _ _ _ _ Hcall Hok) as [Hevents [r [Hin Hr]]].
  fold priority in Hevents, Hr. split.
  - rewrite Hevents. unfold App.broadcast_new_complaint, App.broadcast_critical_alert,
      App.stats_events.
    destruct (emit_ok e), (stats_ok e), (String.eqb priority "CRITICAL"); reflexivity.
  - intros Hcritical [Hpool [_ [Hexists [Hraises _]]]]. rewrite Hcritical in Hr.
    assert (Hpass : passes e' App.no_filters power_outage_reports r = true)
      by (destruct Hr as [->| ->]; reflexivity).
    destruct (row_listed e' st' App.no_filters power_outage_reports r
                Hpool (Hraises _) (Hraises _) (Hraises _) (Hexists _) (Hraises _) Hin Hpass)
      as [l [Hl Hc]].
    exists l, (App.to_complaint e' power_outage_reports r).
    split; [exact Hl|]. split; [exact Hc|].
    split; [reflexivity|].
    split; [destruct Hr as [->| ->]; reflexivity|].
    split; [destruct Hr as [->| ->]; reflexivity|].
    split; [destruct Hr as [->| ->]; reflexivity|].
    intros before after Hsplit c' Hc'.
    assert (Hsorted : StronglySorted
                        (fun a b => key_leq (App.sort_key a) (App.sort_key b)) l).
    { apply get_unified_complaints_returns in Hl. subst l.
      destruct (_ && _); [apply by_sort_key_sorted | constructor]. }
    rewrite Hsplit in Hsorted.
    pose proof (sorted_before _ _ _ _ Hsorted c' Hc') as Hle. cbv beta in Hle.
    assert (Hkey : App.sort_key (App.to_complaint e' power_outage_reports r)
                   = (0, 0, - now e))
      by (destruct Hr as [->| ->]; reflexivity).
    rewrite Hkey in Hle. unfold App.sort_key, key_leq in Hle.
    pose proof (status_order_nonneg (Py.upper (Py.strip (App.c_status c')))) as Hs.
    pose proof (priority_order_nonneg (Py.upper (Py.strip (App.c_priority c')))) as Hp.
    split.
    + apply status_order_zero. lia.
    + apply priority_order_zero. lia.
Qed.

(** A fallen wire reported on a board of three complaints raises one alert
    and is listed first. *)
Lemma critical_report_tops_the_board_witness :
  exists st' js' events effects resp l c rest,
    App.submit_power_outage (calm 9000 8 "id") three_complaints [] fallen_wire_form
    = (st', js', events, effects, resp) /\
    length (filter is_alert events) = 1%nat /\
    App.get_unified_complaints (calm 9500 9 "id") st' App.no_filters = Return l /\
    l = c :: rest /\ App.c_record_id c = 8 /\ App.c_priority c = "CRITICAL".
Proof.
  destruct (App.submit_power_outage (calm 9000 8 "id") three_complaints [] fallen_wire_form)
    as [[[[st' js'] events] effects] resp] eqn:Hcall.
  destruct (critical_report_tops_the_board (calm 9000 8 "id") (calm 9500 9 "id")
              _ _ _ _ _ _ _ _ Hcall) as [Halerts _].
  { vm_compute in Hcall. injection Hcall as <- <- <- <- <-. reflexivity. }
  exists st', js', events, effects, resp.
  vm_compute in Hcall. injection Hcall as <- <- <- <- <-.
  eexists. eexists. eexists.
  split; [reflexivity|]. split; [exact Halerts|].
  split; [reflexivity|]. split; [reflexivity|]. split; reflexivity.
Defined.

(** ** Requests that fail *)

Ltac handler_fails :=
  handler_cases; intros;
  repeat match goal with
         | H : Return _ = Return _ |- _ => injection H; clear H; intros; subst
         | H : (_, _) = (_, _) |- _ => injection H; clear H; intros; subst
         end;
  try discriminate; auto.

(** X8.  A request that reports failure has changed nothing.  Whenever
    one of the endpoints that write to a complaint table answers with
    [success] false, the complaint store is as it was before the call and no
    event was broadcast; for the public form the job-order store is unchanged
    as well and nothing was committed. *)
Theorem failed_request_changes_nothing :
  (forall e st table record_id status st' events resp,
      App.update_status e st table record_id status = (st', events, resp) ->
      success resp = false -> st' = st /\ events = []) /\
  (forall e st table record_id st' resp,
      App.hide_complaint e st table record_id = (st', resp) ->
      success resp = false -> st' = st) /\
  (forall e st table record_id st' resp,
      App.delete_complaint e st table record_id = (st', resp) ->
      success resp = false -> st' = st) /\
  (forall e st row_id st' resp,
      App.resume_conversation e st row_id = (st', resp) ->
      success resp = false -> st' = st) /\
  (forall e st table record_id la lo ac st' resp,
      App.update_complaint_location e st table record_id la lo ac = (st', resp) ->
      success resp = false -> st' = st) /\
  (forall e st js d st' js' events effects resp,
      App.submit_power_outage e st js d = (st', js', events, effects, resp) ->
      success resp = false -> st' = st /\ js' = js /\ events = [] /\ effects = []) /\
  (forall parse_sms e st from_number message_body st' events resp,
      SmsHandler.sms_webhook parse_sms e st from_number message_body = (st', events, resp) ->
      success resp = false -> st' = st /\ events = []) /\
  (forall e st data st' events resp,
      CloudApp.webhook_new_complaint e st data = (st', events, resp) ->
      success resp = false -> st' = st /\ events = []) /\
  (forall e st record_id status st' resp,
      LocalDashboard.update_status e st record_id status = (st', resp) ->
      success resp = false -> st' = st) /\
  (forall e st record_id st' resp,
      LocalDashboard.delete_complaint e st record_id = (st', resp) ->
      success resp = false -> st' = st).
Proof.
  split.
  { intros e st table record_id status st' events resp.
    unfold App.update_status, App.update_status_body. handler_fails. }
  split.
  { intros e st table record_id st' resp. unfold App.hide_complaint. handler_fails. }
  split.
  { intros e st table record_id st' resp. unfold App.delete_complaint. handler_fails. }
  split.
  { intros e st row_id st' resp. unfold App.resume_conversation. handler_fails. }
  split.
  { intros e st table record_id la lo ac st' resp.
    unfold App.update_complaint_location. handler_fails. }
  split.
  { intros e st js d st' js' events effects resp. unfold App.submit_power_outage.
    destruct (App.automatic_job_order _ _ _ _ _) as [[[st2 js2] effects2] job].
    handler_fails. }
  split.
  { intros parse_sms e st from_number message_body st' events resp.
    unfold SmsHandler.sms_webhook.
    destruct (parse_sms message_body from_number) as [parsed|]; [|handler_fails].
    destruct (SmsHandler.sms_row _ _) as [f new_row]. handler_fails. }
  split.
  { intros e st data st' events resp. unfold CloudApp.webhook_new_complaint.
    handler_fails. }
  split.
  { intros e st record_id status st' resp. unfold LocalDashboard.update_status.
    handler_fails. }
  intros e st record_id st' resp. unfold LocalDashboard.delete_complaint.
  handler_fails.
Qed.

(** A status update aimed at a record that does not exist fails and
    leaves the sample store as it was. *)
Lemma failed_request_changes_nothing_witness :
  fst (fst (App.update_status (calm 5000 1 "id") three_complaints "meter_concern" 99 "NEW"))
  = three_complaints.
Proof.
  destruct (App.update_status (calm 5000 1 "id") three_complaints "meter_concern" 99 "NEW")
    as [[st' events] resp] eqn:Hcall.
  destruct failed_request_changes_nothing as [Hupdate _].
  destruct (Hupdate _ _ _ _ _ _ _ _ Hcall) as [Hst _].
  - vm_compute in Hcall. injection Hcall as <- <- <-. reflexivity.
  - exact Hst.
Defined.

(** * The form validators *)

(** ** The matcher on the patterns in use *)

Section MatcherFacts.

Variable isdecimal : N -> bool.

Lemma run_lit (c : ascii) (s : Unicode.text) (k : Unicode.text -> bool) :
  Re.run isdecimal (Re.Lit c) s k = true <->
  exists rest, s = N_of_ascii c :: rest /\ k rest = true.
Proof.
  simpl. destruct s as [|d s].
  - split; [discriminate | intros [rest [H _]]; discriminate].
  - rewrite andb_true_iff, N.eqb_eq. split.
    + intros [-> H]. now exists s.
    + intros [rest [H Hk]]. injection H as -> ->. auto.
Qed.

Lemma run_seq (p q : Re.pattern) (s : Unicode.text) (k : Unicode.text -> bool) :
  Re.run isdecimal (Re.Seq p q) s k
  = Re.run isdecimal p s (fun rest => Re.run isdecimal q rest k).
Proof. reflexivity. Qed.

(** A counted run of digits takes a prefix of decimal digits whose length
    is within the bounds. *)
Lemma run_repeat_digit (lo hi : nat) (s : Unicode.text) (k : Unicode.text -> bool) :
  Re.run isdecimal (Re.Repeat lo hi Re.Digit) s k = true <->
  exists d rest,
    s = (d ++ rest)%list /\ forallb isdecimal d = true /\
    (lo <= length d <= hi)%nat /\ k rest = true.
Proof.
  revert lo s. induction hi as [|hi IH]; intros lo s.
  - simpl. split.
    + destruct lo; [|discriminate]. intros H. exists [], s. simpl. auto.
    + intros [d [rest [-> [_ [[Hlo Hhi] Hk]]]]].
      destruct d; [|simpl in Hhi; lia]. simpl in Hlo.
      destruct lo; [exact Hk | lia].
  - change (Re.run isdecimal (Re.Repeat lo (S hi) Re.Digit) s k)
      with (Re.run isdecimal Re.Digit s
              (fun rest => Re.run isdecimal (Re.Repeat (Nat.pred lo) hi Re.Digit) rest k)
            || match lo with O => k s | S _ => false end).
    rewrite orb_true_iff. split.
    + intros [H|H].
      * simpl in H. destruct s as [|c s]; [discriminate|].
        apply andb_true_iff in H. destruct H as [Hc H].
        apply (IH (Nat.pred lo) s) in H.
        destruct H as [d [rest [-> [Hd [[Hlo Hhi] Hk]]]]].
        exists (c :: d), rest. simpl. rewrite Hc, Hd.
        repeat split; auto; lia.
      * destruct lo; [|discriminate]. exists [], s. simpl. repeat split; auto; lia.
    + intros [d [rest [-> [Hd [[Hlo Hhi] Hk]]]]]. destruct d as [|c d].
      * right. simpl in Hlo. destruct lo; [exact Hk | lia].
      * left. simpl in Hd. apply andb_true_iff in Hd. destruct Hd as [Hc Hd].
        simpl. rewrite Hc. simpl.
        apply (IH (Nat.pred lo) (d ++ rest)%list). exists d, rest.
        simpl in Hlo, Hhi. repeat split; auto; lia.
Qed.

(** The end of the text, as [fullmatch] asks for it. *)
Lemma at_end (rest : Unicode.text) :
  match rest with [] => true | _ :: _ => false end = true <-> rest = [].
Proof. destruct rest; split; intros H; try reflexivity; discriminate. Qed.

Ltac lit_in H r :=
  cbv beta in H; rewrite ?run_seq in H; apply run_lit in H;
  destruct H as [r [-> H]]; cbv beta in H.

Ltac lit_goal rest :=
  cbv beta; rewrite ?run_seq; apply run_lit; exists rest;
  split; [reflexivity|]; cbv beta.

Lemma fullmatch_contact_number (s : Unicode.text) :
  Re.fullmatch isdecimal contact_number_pattern s = true <->
  exists d, s = (Unicode.of_string "09" ++ d)%list /\ length d = 9%nat /\
            forallb isdecimal d = true.
Proof.
  unfold Re.fullmatch, contact_number_pattern. split.
  - intros H. lit_in H r1. lit_in H r2.
    apply run_repeat_digit in H. destruct H as [d [rest [-> [Hd [Hlen Hend]]]]].
    apply at_end in Hend. subst rest. exists d. rewrite app_nil_r.
    repeat split; auto; lia.
  - intros [d [-> [Hlen Hd]]].
    lit_goal (Unicode.of_string "9" ++ d)%list. lit_goal d.
    apply run_repeat_digit. exists d, []. rewrite app_nil_r.
    repeat split; auto; lia.
Qed.

Lemma fullmatch_account_no (s : Unicode.text) :
  Re.fullmatch isdecimal account_no_pattern s = true <->
  forallb isdecimal s = true /\ (6 <= length s <= 12)%nat.
Proof.
  unfold Re.fullmatch, account_no_pattern. rewrite run_repeat_digit. split.
  - intros [d [rest [-> [Hd [Hlen Hend]]]]]. apply at_end in Hend. subst rest.
    now rewrite app_nil_r.
  - intros [Hd Hlen]. exists s, []. now rewrite app_nil_r.
Qed.

Lemma fullmatch_job_order_id (s : Unicode.text) :
  Re.fullmatch isdecimal job_order_id_pattern s = true <->
  exists date number,
    s = (Unicode.of_string "JO-" ++ date ++ Unicode.of_string "-" ++ number)%list /\
    length date = 8%nat /\ forallb isdecimal date = true /\
    length number = 4%nat /\ forallb isdecimal number = true.
Proof.
  unfold Re.fullmatch, job_order_id_pattern. split.
  - intros H. lit_in H r1. lit_in H r2. lit_in H r3.
    rewrite run_seq in H.
    apply run_repeat_digit in H. destruct H as [date [r4 [-> [Hdate [Hlen H]]]]].
    lit_in H r5.
    apply run_repeat_digit in H. destruct H as [number [r6 [-> [Hnumber [Hlen' Hend]]]]].
    apply at_end in Hend. subst r6. exists date, number. rewrite app_nil_r.
    repeat split; auto; lia.
  - intros [date [number [-> [Hlen [Hdate [Hlen' Hnumber]]]]]].
    lit_goal (Unicode.of_string "O-" ++ date ++ Unicode.of_string "-" ++ number)%list.
    lit_goal (Unicode.of_string "-" ++ date ++ Unicode.of_string "-" ++ number)%list.
    lit_goal (date ++ Unicode.of_string "-" ++ number)%list. rewrite run_seq.
    apply run_repeat_digit. exists date, (Unicode.of_string "-" ++ number)%list.
    split; [reflexivity|]. split; [exact Hdate|]. split; [lia|].
    lit_goal number.
    apply run_repeat_digit. exists number, []. rewrite app_nil_r.
    repeat split; auto; lia.
Qed.

End MatcherFacts.

Lemma append_empty (s : string) : s ++ "" = s.
Proof. induction s; simpl; congruence. Qed.

Lemma length_append (a b : string) :
  String.length (a ++ b) = (String.length a + String.length b)%nat.
Proof. induction a; simpl; congruence. Qed.

Lemma digits_append (a b : string) : digits (a ++ b) = digits a && digits b.
Proof.
  induction a as [|c a IH]; [reflexivity|]. simpl. now rewrite IH, andb_assoc.
Qed.

(** ** Texts of ASCII characters *)

Lemma of_string_append (a b : string) :
  Unicode.of_string (a ++ b) = (Unicode.of_string a ++ Unicode.of_string b)%list.
Proof.
  unfold Unicode.of_string. induction a as [|c a IH]; [reflexivity|].
  simpl. now rewrite IH.
Qed.

Lemma of_string_length (s : string) : length (Unicode.of_string s) = String.length s.
Proof.
  unfold Unicode.of_string. induction s as [|c s IH]; [reflexivity|].
  simpl. now rewrite IH.
Qed.

Lemma is_ascii_append (a b : Unicode.text) :
  Unicode.is_ascii (a ++ b)%list = Unicode.is_ascii a && Unicode.is_ascii b.
Proof. apply forallb_app. Qed.

Lemma ascii_digit_point (c : ascii) :
  ascii_digit c = true -> (48 <= N_of_ascii c <= 57)%N.
Proof.
  unfold ascii_digit. cbv zeta. rewrite andb_true_iff, !Nat.leb_le.
  intros [Hlo Hhi].
  assert (Hn : N.to_nat (N_of_ascii c) = nat_of_ascii c) by reflexivity.
  lia.
Qed.

Lemma digits_ascii (s : string) :
  digits s = true -> Unicode.is_ascii (Unicode.of_string s) = true.
Proof.
  induction s as [|c s IH]; [reflexivity|]. cbn [digits]. rewrite andb_true_iff.
  intros [Hc Hs]. apply ascii_digit_point in Hc.
  change (Unicode.is_ascii (Unicode.of_string (String c s)))
    with ((N_of_ascii c <? 128)%N && Unicode.is_ascii (Unicode.of_string s)).
  rewrite (IH Hs), andb_true_r. apply N.ltb_lt. lia.
Qed.

Lemma digits_decimal (u : Unicode.tables) (s : string) :
  Unicode.standard u -> digits s = true ->
  forallb (Unicode.isdecimal u) (Unicode.of_string s) = true.
Proof.
  intros [Hdigit _]. induction s as [|c s IH]; [reflexivity|]. cbn [digits].
  rewrite andb_true_iff. intros [Hc Hs].
  change (forallb (Unicode.isdecimal u) (Unicode.of_string (String c s)))
    with (Unicode.isdecimal u (N_of_ascii c) &&
          forallb (Unicode.isdecimal u) (Unicode.of_string s)).
  now rewrite (Hdigit _ (ascii_digit_point _ Hc)), (IH Hs).
Qed.

Lemma text_eqb_eq (a b : Unicode.text) : Unicode.eqb a b = true <-> a = b.
Proof.
  revert b. induction a as [|c a IH]; intros [|d b]; simpl;
    try (split; [discriminate | intros H; discriminate]); [tauto|].
  rewrite andb_true_iff, N.eqb_eq, IH. split.
  - intros [-> ->]. reflexivity.
  - intros H. injection H as -> ->. auto.
Qed.

Lemma text_mem_spec (a : Unicode.text) (l : list Unicode.text) :
  existsb (Unicode.eqb a) l = true <-> In a l.
Proof.
  rewrite existsb_exists. split.
  - intros [b [Hin Hb]]. apply text_eqb_eq in Hb. now subst.
  - intros Hin. exists a. split; [exact Hin | now apply text_eqb_eq].
Qed.

(** The sample tables are standard. *)
Lemma upper_point_char (c : ascii) :
  upper_point (N_of_ascii c) = N_of_ascii (Py.upper_char c).
Proof. destruct c as [[] [] [] [] [] [] [] []]; reflexivity. Qed.

Lemma space_point_char (c : ascii) : space_point (N_of_ascii c) = Py.isspace c.
Proof. destruct c as [[] [] [] [] [] [] [] []]; reflexivity. Qed.

Lemma of_string_nil (s : string) : Unicode.of_string s = [] -> s = "".
Proof. destruct s; [reflexivity | discriminate]. Qed.

Lemma lstrip_points_string (s : string) :
  lstrip_points (Unicode.of_string s) = Unicode.of_string (Py.lstrip s).
Proof.
  induction s as [|c s IH]; [reflexivity|].
  change (Unicode.of_string (String c s)) with (N_of_ascii c :: Unicode.of_string s).
  simpl. rewrite space_point_char. now destruct (Py.isspace c).
Qed.

Lemma rstrip_points_string (s : string) :
  rstrip_points (Unicode.of_string s) = Unicode.of_string (Py.rstrip s).
Proof.
  induction s as [|c s IH]; [reflexivity|].
  change (Unicode.of_string (String c s)) with (N_of_ascii c :: Unicode.of_string s).
  simpl. rewrite IH, space_point_char.
  destruct (Py.rstrip s) as [|c' r] eqn:Hr.
  - now destruct (Py.isspace c).
  - reflexivity.
Qed.

Lemma two_scripts_standard : Unicode.standard two_scripts.
Proof.
  split; [|split].
  - intros c Hc. simpl.
    apply orb_true_iff. left. apply andb_true_iff. split; apply N.leb_le; lia.
  - intros s _. simpl. unfold Unicode.of_string.
    induction s as [|c s IH]; [reflexivity|].
    simpl. now rewrite IH, upper_point_char.
  - intros s _. simpl. now rewrite lstrip_points_string, rstrip_points_string.
Qed.

(** ** Contact numbers and account numbers *)

(** X9.  The three contact-number validators are one function.  They
    accept exactly the answers of eleven characters that read 09 and then
    nine decimal digits, of any script, and hand the answer back unchanged.
    Every answer that reads 09 and then nine of the digits 0 to 9 is among
    them. *)
Theorem contact_number_is_09_and_nine_digits (u : Unicode.tables) :
  (forall v r,
      ValidatePowerOutageForm.validate_po_contact_number u v = Some r <->
      r = v /\ length v = 11%nat /\
      exists d, v = (Unicode.of_string "09" ++ d)%list /\
                forallb (Unicode.isdecimal u) d = true) /\
  (forall v,
      ValidateMeterConcernForm.validate_mc_contact_number u v
      = ValidatePowerOutageForm.validate_po_contact_number u v /\
      ValidateTalkToAgentForm.validate_tta_contact_number u v
      = ValidatePowerOutageForm.validate_po_contact_number u v) /\
  (Unicode.standard u ->
   forall d, String.length d = 9%nat -> digits d = true ->
     ValidatePowerOutageForm.validate_po_contact_number u (Unicode.of_string ("09" ++ d))
     = Some (Unicode.of_string ("09" ++ d))).
Proof.
  assert (Hshape : forall v,
    Re.fullmatch (Unicode.isdecimal u) contact_number_pattern v = true <->
    length v = 11%nat /\
    exists d, v = (Unicode.of_string "09" ++ d)%list /\
              forallb (Unicode.isdecimal u) d = true).
  { intros v. rewrite fullmatch_contact_number. split.
    - intros [d [-> [Hlen Hd]]]. split; [simpl; now rewrite Hlen|]. now exists d.
    - intros [Hlen [d [-> Hd]]]. exists d. simpl in Hlen.
      split; [reflexivity|]. split; [lia | exact Hd]. }
  split; [|split].
  - intros v r. unfold ValidatePowerOutageForm.validate_po_contact_number.
    destruct (Re.fullmatch _ _ v) eqn:Hre.
    + apply Hshape in Hre. split.
      * intros H. injection H as <-. tauto.
      * intros [-> _]. reflexivity.
    + split; [discriminate|]. intros [_ H]. apply Hshape in H. congruence.
  - intros v. split; reflexivity.
  - intros Hstandard d Hlen Hd.
    unfold ValidatePowerOutageForm.validate_po_contact_number.
    assert (Hre : Re.fullmatch (Unicode.isdecimal u) contact_number_pattern
                    (Unicode.of_string ("09" ++ d)) = true).
    { apply fullmatch_contact_number. exists (Unicode.of_string d).
      split; [apply (of_string_append "09" d)|].
      split; [now rewrite of_string_length | now apply digits_decimal]. }
    now rewrite Hre.
Qed.

(** The number 09123456789 is accepted, and so is 09 followed by nine
    Arabic-Indic threes where the tables know those digits; 0912345678 is one
    digit short. *)
Lemma contact_number_is_09_and_nine_digits_witness :
  ValidatePowerOutageForm.validate_po_contact_number two_scripts
    (Unicode.of_string "09123456789")
  = Some (Unicode.of_string "09123456789") /\
  ValidatePowerOutageForm.validate_po_contact_number two_scripts
    (Unicode.of_string "09" ++ repeat arabic_indic_three 9)%list
  = Some (Unicode.of_string "09" ++ repeat arabic_indic_three 9)%list /\
  ValidatePowerOutageForm.validate_po_contact_number two_scripts
    (Unicode.of_string "0912345678")
  = None.
Proof.
  destruct (contact_number_is_09_and_nine_digits two_scripts) as [Hiff [_ Hascii]].
  split; [|split].
  - exact (Hascii two_scripts_standard "123456789" eq_refl eq_refl).
  - apply Hiff. split; [reflexivity|]. split; [reflexivity|].
    exists (repeat arabic_indic_three 9). split; reflexivity.
  - reflexivity.
Defined.

(** X10.  An account number is accepted only after the format test and
    the lookup both pass: the validator returns a value exactly when the
    trimmed answer is 6 to 12 decimal digits, of any script, the connection,
    the cursor and the query on [consumer_accounts] raise nothing, and the
    trimmed answer is in that table; the value is the trimmed answer. *)
Theorem account_number_checked_then_looked_up (u : Unicode.tables) (e : env)
  (consumer_accounts : list Unicode.text) (v a : Unicode.text) :
  ValidateMeterConcernForm.validate_mc_account_no u e consumer_accounts v = Some a <->
  a = Unicode.strip u v /\ forallb (Unicode.isdecimal u) a = true /\
  (6 <= length a <= 12)%nat /\
  raises e StConnect = false /\ raises e StCursor = false /\
  raises e (StSelect "consumer_accounts") = false /\
  In a consumer_accounts.
Proof.
  unfold ValidateMeterConcernForm.validate_mc_account_no, execute, bind.
  destruct (Re.fullmatch _ account_no_pattern (Unicode.strip u v)) eqn:Hre; cbn [negb].
  - apply fullmatch_account_no in Hre. destruct Hre as [Hd Hlen].
    destruct (raises e StConnect); [split; [discriminate | intuition discriminate]|].
    destruct (raises e StCursor); [split; [discriminate | intuition discriminate]|].
    destruct (raises e (StSelect "consumer_accounts"));
      [split; [discriminate | intuition discriminate]|].
    destruct (existsb (Unicode.eqb (Unicode.strip u v)) consumer_accounts) eqn:Hmem.
    + apply text_mem_spec in Hmem. split.
      * intros H. injection H as <-. auto 10.
      * intros [-> _]. reflexivity.
    + split; [discriminate|]. intros [-> [_ [_ [_ [_ [_ Hin]]]]]].
      apply text_mem_spec in Hin. congruence.
  - split; [discriminate|]. intros [-> [Hd [Hlen _]]].
    assert (Re.fullmatch (Unicode.isdecimal u) account_no_pattern (Unicode.strip u v) = true)
      by (apply fullmatch_account_no; auto).
    congruence.
Qed.

(** The account 123456, typed between blanks, is accepted when it is in
    the table and rejected when it is not. *)
Lemma account_number_checked_then_looked_up_witness :
  ValidateMeterConcernForm.validate_mc_account_no two_scripts (calm 5000 1 "id")
    [Unicode.of_string "123456"] (Unicode.of_string " 123456 ")
  = Some (Unicode.of_string "123456") /\
  ValidateMeterConcernForm.validate_mc_account_no two_scripts (calm 5000 1 "id")
    [Unicode.of_string "654321"] (Unicode.of_string " 123456 ")
  = None.
Proof.
  split.
  - apply account_number_checked_then_looked_up.
    split; [reflexivity|]. split; [reflexivity|]. split; [simpl; lia|].
    split; [reflexivity|]. split; [reflexivity|]. split; [reflexivity|].
    now left.
  - reflexivity.
Defined.

(** ** Meter concerns *)



(** ** Trimming *)

Lemma lstrip_spaceless (s : string) : spaceless s = true -> Py.lstrip s = s.
Proof.
  destruct s as [|c s]; [reflexivity|]. simpl. intros H.
  apply andb_true_iff in H. destruct H as [Hc _]. apply negb_true_iff in Hc.
  now rewrite Hc.
Qed.

Lemma rstrip_spaceless (s : string) : spaceless s = true -> Py.rstrip s = s.
Proof.
  induction s as [|c s IH]; [reflexivity|]. simpl. intros H.
  apply andb_true_iff in H. destruct H as [Hc Hs]. apply negb_true_iff in Hc.
  rewrite (IH Hs). destruct s; [now rewrite Hc | reflexivity].
Qed.

Lemma strip_spaceless (s : string) : spaceless s = true -> Py.strip s = s.
Proof.
  intros H. unfold Py.strip. rewrite (lstrip_spaceless _ H). now apply rstrip_spaceless.
Qed.






Lemma digit_not_space (c : ascii) : ascii_digit c = true -> Py.isspace c = false.
Proof.
  unfold ascii_digit, Py.isspace. cbv zeta.
  rewrite andb_true_iff, !Nat.leb_le. intros H.
  apply orb_false_iff. split; apply andb_false_iff;
    rewrite !Nat.leb_gt; lia.
Qed.

Lemma digit_upper (c : ascii) : ascii_digit c = true -> Py.upper_char c = c.
Proof.
  unfold ascii_digit, Py.upper_char, Py.is_lower. cbv zeta.
  rewrite andb_true_iff, !Nat.leb_le. intros H.
  destruct ((97 <=? nat_of_ascii c)%nat) eqn:E; [|reflexivity].
  apply Nat.leb_le in E. lia.
Qed.

Lemma digits_spaceless (s : string) : digits s = true -> spaceless s = true.
Proof.
  induction s as [|c s IH]; [reflexivity|]. simpl. rewrite !andb_true_iff.
  intros [Hc Hs]. split; [|auto]. now rewrite (digit_not_space _ Hc).
Qed.

Lemma digits_upper (s : string) : digits s = true -> Py.upper s = s.
Proof.
  induction s as [|c s IH]; [reflexivity|]. simpl. rewrite andb_true_iff.
  intros [Hc Hs]. now rewrite (digit_upper _ Hc), (IH Hs).
Qed.

Lemma spaceless_append (a b : string) :
  spaceless (a ++ b) = spaceless a && spaceless b.
Proof.
  induction a as [|c a IH]; [reflexivity|]. simpl. now rewrite IH, andb_assoc.
Qed.

Lemma upper_append (a b : string) : Py.upper (a ++ b) = Py.upper a ++ Py.upper b.
Proof. induction a; simpl; congruence. Qed.

(** ** Job order numbers *)

(** The number drawn prints as four digits. *)
Lemma str_int_four_digits (draw : Z) :
  1000 <= draw <= 9999 ->
  String.length (str_int draw) = 4%nat /\ digits (str_int draw) = true.
Proof.
  intros Hdraw.
  assert (Hall : forallb
                   (fun k => let s := str_int (1000 + Z.of_nat k) in
                             (String.length s =? 4)%nat && digits s)
                   (seq 0 (Z.to_nat 9000)) = true) by (vm_compute; reflexivity).
  rewrite forallb_forall in Hall.
  specialize (Hall (Z.to_nat (draw - 1000))).
  replace (1000 + Z.of_nat (Z.to_nat (draw - 1000))) with draw in Hall by lia.
  cbv zeta in Hall. rewrite andb_true_iff, Nat.eqb_eq in Hall.
  apply Hall. apply in_seq. lia.
Qed.

(** A job order number is a text of ASCII characters without white space
    or lower-case letters. *)
Lemma job_order_number_plain (today : string) (draw : Z) :
  String.length today = 8%nat -> digits today = true -> 1000 <= draw <= 9999 ->
  let j := job_order_number today draw in
  Unicode.is_ascii (Unicode.of_string j) = true /\
  Py.upper j = j /\ Py.strip j = j.
Proof.
  intros Hlen Hd Hdraw j. destruct (str_int_four_digits draw Hdraw) as [Hlen' Hd'].
  assert (Hupper : Py.upper j = j).
  { unfold j, job_order_number.
    now rewrite !upper_append, (digits_upper _ Hd), (digits_upper _ Hd'). }
  split; [|split; [exact Hupper|]].
  - unfold j, job_order_number.
    rewrite !of_string_append, !is_ascii_append, (digits_ascii _ Hd), (digits_ascii _ Hd').
    reflexivity.
  - apply strip_spaceless. unfold j, job_order_number.
    rewrite !spaceless_append, (digits_spaceless _ Hd), (digits_spaceless _ Hd').
    reflexivity.
Qed.

Lemma job_order_number_matches (u : Unicode.tables) (today : string) (draw : Z) :
  Unicode.standard u ->
  String.length today = 8%nat -> digits today = true -> 1000 <= draw <= 9999 ->
  let j := Unicode.of_string (job_order_number today draw) in
  Re.fullmatch (Unicode.isdecimal u) job_order_id_pattern j = true /\
  Unicode.strip u (Unicode.upper u j) = j.
Proof.
  intros Hstandard Hlen Hd Hdraw j.
  destruct (str_int_four_digits draw Hdraw) as [Hlen' Hd'].
  destruct (job_order_number_plain today draw Hlen Hd Hdraw) as [Hascii [Hupper Hstrip]].
  split.
  - apply fullmatch_job_order_id.
    exists (Unicode.of_string today), (Unicode.of_string (str_int draw)).
    split; [unfold j, job_order_number; now rewrite !of_string_append|].
    rewrite !of_string_length.
    split; [exact Hlen|]. split; [now apply digits_decimal|].
    split; [exact Hlen' | now apply digits_decimal].
  - destruct Hstandard as [_ [Hup Hst]]. unfold j.
    rewrite (Hup _ Hascii), Hupper, (Hst _ Hascii), Hstrip. reflexivity.
Qed.

(** X12.  The follow-up form accepts the job order numbers the chatbot
    issues.  Whatever the validator accepts is the answer upper-cased and
    trimmed, is sixteen characters long and reads JO-, eight decimal digits,
    a hyphen, four decimal digits, the digits being of any script.  A
    number made by the submit actions from the eight-digit date and a draw
    between 1000 and 9999 is accepted and returned unchanged, and so is any
    answer that upper-cased and trimmed gives that number. *)
Theorem job_order_numbers_pass_the_follow_up_form (u : Unicode.tables) :
  (forall v t,
      ValidateFollowUpReportForm.validate_fr_job_order_id u v = Some t ->
      t = Unicode.strip u (Unicode.upper u v) /\ length t = 16%nat /\
      exists date number,
        t = (Unicode.of_string "JO-" ++ date ++ Unicode.of_string "-" ++ number)%list /\
        length date = 8%nat /\ forallb (Unicode.isdecimal u) date = true /\
        length number = 4%nat /\ forallb (Unicode.isdecimal u) number = true) /\
  (Unicode.standard u ->
   forall today draw,
      String.length today = 8%nat -> digits today = true -> 1000 <= draw <= 9999 ->
      let j := Unicode.of_string (job_order_number today draw) in
      ValidateFollowUpReportForm.validate_fr_job_order_id u j = Some j /\
      forall v, Unicode.strip u (Unicode.upper u v) = j ->
                ValidateFollowUpReportForm.validate_fr_job_order_id u v = Some j).
Proof.
  split.
  - intros v t. unfold ValidateFollowUpReportForm.validate_fr_job_order_id.
    destruct (Re.fullmatch _ _ _) eqn:Hre; [|discriminate].
    intros H. injection H as <-. split; [reflexivity|].
    apply fullmatch_job_order_id in Hre.
    destruct Hre as [date [number [Ht [Hlen [Hd [Hlen' Hd']]]]]].
    split.
    + rewrite Ht, !length_app, Hlen, Hlen'. reflexivity.
    + now exists date, number.
  - intros Hstandard today draw Hlen Hd Hdraw j.
    destruct (job_order_number_matches u today draw Hstandard Hlen Hd Hdraw)
      as [Hre Hnorm].
    fold j in Hre, Hnorm.
    assert (Hany : forall v, Unicode.strip u (Unicode.upper u v) = j ->
                             ValidateFollowUpReportForm.validate_fr_job_order_id u v = Some j).
    { intros v Hv. unfold ValidateFollowUpReportForm.validate_fr_job_order_id.
      now rewrite Hv, Hre. }
    split; [now apply Hany | exact Hany].
Qed.

(** The number of 1 January 2026 with the draw 1234, and the same typed
    in lower case between blanks; with a digit of the date typed as an
    Arabic-Indic three, the answer is accepted where the tables know that
    digit. *)
Lemma job_order_numbers_pass_the_follow_up_form_witness :
  ValidateFollowUpReportForm.validate_fr_job_order_id two_scripts
    (Unicode.of_string (job_order_number "20260101" 1234))
  = Some (Unicode.of_string "JO-20260101-1234") /\
  ValidateFollowUpReportForm.validate_fr_job_order_id two_scripts
    (Unicode.of_string "  jo-20260101-1234 ")
  = Some (Unicode.of_string "JO-20260101-1234") /\
  ValidateFollowUpReportForm.validate_fr_job_order_id two_scripts
    (Unicode.of_string "JO-2026010" ++ arabic_indic_three :: Unicode.of_string "-1234")%list
  = Some (Unicode.of_string "JO-2026010" ++ arabic_indic_three
            :: Unicode.of_string "-1234")%list.
Proof.
  destruct (proj2 (job_order_numbers_pass_the_follow_up_form two_scripts)
              two_scripts_standard "20260101" 1234 eq_refl eq_refl ltac:(lia))
    as [Hsame Hany].
  split; [exact Hsame|]. split; [apply Hany; reflexivity | reflexivity].
Defined.

(** ** Addresses *)





(** * The follow-up action *)

Lemma find_app_last {A : Type} (p : A -> bool) (l : list A) (x : A) :
  (forall y, In y l -> p y = false) -> p x = true -> find p (l ++ [x]) = Some x.
Proof.
  intros Hl Hx. induction l as [|y l IH]; simpl.
  - now rewrite Hx.
  - rewrite (Hl y (or_introl eq_refl)). apply IH. intros z Hz. apply Hl. now right.
Qed.

Lemma find_none_iff {A : Type} (p : A -> bool) (l : list A) :
  find p l = None <-> forall y, In y l -> p y = false.
Proof.
  split; [apply find_none|]. induction l as [|y l IH]; [reflexivity|]. intros H. simpl.
  rewrite (H y (or_introl eq_refl)). apply IH. intros z Hz. apply H. now right.
Qed.

Lemma find_map_same {A : Type} (p : A -> bool) (change : A -> A) (l : list A) :
  (forall x, p (change x) = p x) ->
  find p (map change l) = option_map change (find p l).
Proof.
  intros Hp. induction l as [|x l IH]; [reflexivity|]. simpl. rewrite Hp.
  destruct (p x); [reflexivity | exact IH].
Qed.

Lemma has_job_order_false (st : store) (j : string) :
  unused_number st j ->
  forall r, In r (outage_rows st) ->
            ActionSubmitFollowUpReportForm.has_job_order (Some j) r = false.
Proof.
  intros Hunused r Hin. specialize (Hunused r Hin). simpl. unfold Actions.eq_opt.
  destruct (r_job_order_id r) as [k|]; [|reflexivity].
  destruct (String.eqb k j) eqn:E; [|reflexivity].
  apply String.eqb_eq in E. subst k. now elim Hunused.
Qed.

(** The answer of the follow-up action when its statements raise nothing. *)
Lemma follow_up_answer (e : env) (st : store) (j : option string) :
  answers e ->
  fst (ActionSubmitFollowUpReportForm.run e st j)
  = match find (ActionSubmitFollowUpReportForm.has_job_order j) (outage_rows st) with
    | Some result =>
        match r_status result with
        | None =>
            ActionSubmitFollowUpReportForm.ErrorCheckingReport
              "'NoneType' object has no attribute 'lower'"
        | Some status =>
            if Py.mem (Py.lower status) ["completed"; "finished"]
            then ActionSubmitFollowUpReportForm.ResolvedAs j status
            else if Py.mem (Py.lower status) ["in progress"; "pending"]
            then ActionSubmitFollowUpReportForm.CurrentStatus status
            else ActionSubmitFollowUpReportForm.StatusUpdate j status
        end
    | None => ActionSubmitFollowUpReportForm.NoReportFound j
    end.
Proof.
  intros [Hconnect [Hcursor Hselect]].
  unfold ActionSubmitFollowUpReportForm.run, execute, bind.
  rewrite Hconnect, Hcursor, Hselect. cbn [fst].
  destruct (find _ _) as [result|]; [|reflexivity].
  destruct (r_status result) as [status|]; [|reflexivity].
  destruct (Py.mem _ _); [reflexivity|]. now destruct (Py.mem _ _).
Qed.

(** X14.  A number the chatbot has just issued can be followed up if,
    and only if, it belongs to an outage report.  After the outage action
    has logged a report under a number no earlier report carries, the
    follow-up action, its statements raising nothing, answers with the
    status NEW of that report.  After the meter-concern action has filed a
    concern under such a number, the follow-up action answers that no report
    has it: it looks in [power_outage_reports] only. *)
Theorem follow_up_reads_outage_reports_only :
  (forall e e' st st' full_name address contact_number sender_id j events,
      Actions.ActionSubmitPowerOutageFormEnhanced.run e st full_name address
        contact_number sender_id
      = (st', [Actions.ReportLogged full_name j address contact_number], events) ->
      unused_number st j -> answers e' ->
      fst (ActionSubmitFollowUpReportForm.run e' st' (Some j))
      = ActionSubmitFollowUpReportForm.StatusUpdate (Some j) "NEW") /\
  (forall e e' st st' account_no full_name address contact_number concern sender_id
          name j events,
      Actions.ActionSubmitMeterConcern.run e st account_no full_name address
        contact_number concern sender_id
      = (st', [Actions.ConcernSubmitted name j], events) ->
      unused_number st j -> answers e' ->
      fst (ActionSubmitFollowUpReportForm.run e' st' (Some j))
      = ActionSubmitFollowUpReportForm.NoReportFound (Some j)).
Proof.
  split.
  - intros e e' st st' full_name address contact_number sender_id j events
      Hrun Hunused He'.
    assert (Hst' : st' = insert_row st power_outage_reports
                           (Actions.ActionSubmitPowerOutageFormEnhanced.new_report e
                              sender_id full_name address contact_number)
                   /\ j = fresh_id e).
    { revert Hrun. unfold Actions.ActionSubmitPowerOutageFormEnhanced.run.
      handler_cases; intros Hrun;
        repeat match goal with
               | H : Return _ = Return _ |- _ => injection H; clear H; intros; subst
               | H : (_, _) = (_, _) |- _ => injection H; clear H; intros; subst
               end;
        try discriminate; auto. }
    destruct Hst' as [-> ->]. rewrite (follow_up_answer _ _ _ He').
    change (outage_rows (insert_row st power_outage_reports ?r))
      with (outage_rows st ++ [r])%list.
    rewrite find_app_last.
    + reflexivity.
    + now apply has_job_order_false.
    + simpl. apply String.eqb_refl.
  - intros e e' st st' account_no full_name address contact_number concern sender_id
      name j events Hrun Hunused He'.
    assert (Hst' : outage_rows st' = outage_rows st).
    { revert Hrun. unfold Actions.ActionSubmitMeterConcern.run.
      handler_cases; intros Hrun;
        repeat match goal with
               | H : (_, _) = (_, _) |- _ => injection H; clear H; intros; subst
               end;
        try discriminate; reflexivity. }
    rewrite (follow_up_answer _ _ _ He'), Hst'.
    assert (Hnone : find (ActionSubmitFollowUpReportForm.has_job_order (Some j))
                      (outage_rows st) = None)
      by (apply find_none_iff; now apply has_job_order_false).
    now rewrite Hnone.
Qed.

Lemma answers_calm (clock key : Z) (generated : string) : answers (calm clock key generated).
Proof. repeat split. Qed.

(** A report logged by the chatbot on an empty store, then followed up. *)
Lemma follow_up_reads_outage_reports_only_witness :
  fst (ActionSubmitFollowUpReportForm.run (calm 6000 2 "id")
         (fst (fst (Actions.ActionSubmitPowerOutageFormEnhanced.run
                      (calm 5000 1 "JO-20260101-1234") empty_store
                      (Some "Juan Dela Cruz") (Some "Brgy. Bacan, Cabatuan, Iloilo")
                      (Some "09123456789") "u1")))
         (Some "JO-20260101-1234"))
  = ActionSubmitFollowUpReportForm.StatusUpdate (Some "JO-20260101-1234") "NEW".
Proof.
  eapply (proj1 follow_up_reads_outage_reports_only
            (calm 5000 1 "JO-20260101-1234") (calm 6000 2 "id") empty_store _
            (Some "Juan Dela Cruz") (Some "Brgy. Bacan, Cabatuan, Iloilo")
            (Some "09123456789") "u1" "JO-20260101-1234" _).
  - reflexivity.
  - intros r [].
  - apply answers_calm.
Defined.




(** * The agent queue *)

Lemma asc_le_total (a b : option Z) : Sql.asc_le a b = false -> Sql.asc_le b a = true.
Proof.
  destruct a, b; simpl; try reflexivity; try discriminate.
  rewrite Z.leb_gt, Z.leb_le. lia.
Qed.

Lemma asc_le_trans (a b c : option Z) :
  Sql.asc_le a b = true -> Sql.asc_le b c = true -> Sql.asc_le a c = true.
Proof.
  destruct a, b, c; simpl; try reflexivity; try discriminate.
  rewrite !Z.leb_le. lia.
Qed.

(** The head of [ORDER BY timestamp ASC] is a row no other row precedes. *)
Lemma oldest_first_head (l : list row) (first : row) :
  hd_error (oldest_first l) = Some first ->
  In first l /\
  forall r, In r l -> Sql.asc_le (r_timestamp first) (r_timestamp r) = true.
Proof.
  intros Hhd.
  pose proof (stable_sort_sorted
                (fun a b => Sql.asc_le (r_timestamp a) (r_timestamp b))
                (fun a b => asc_le_total _ _)
                (fun a b c => asc_le_trans _ _ _) l) as Hsorted.
  fold (oldest_first l) in Hsorted.
  assert (Hin : forall r, In r (oldest_first l) <-> In r l)
    by (intros r; apply stable_sort_in).
  destruct (oldest_first l) as [|x rest]; [discriminate|].
  injection Hhd as ->. split; [apply Hin; now left|].
  intros r Hr. apply Hin in Hr. destruct Hr as [<-|Hr].
  - destruct (Sql.asc_le (r_timestamp first) (r_timestamp first)) eqn:E; [reflexivity|].
    pose proof (asc_le_total _ _ E). congruence.
  - apply StronglySorted_inv in Hsorted. destruct Hsorted as [_ Hall].
    rewrite Forall_forall in Hall. now apply Hall.
Qed.

Lemma eq_opt_spec (col : option string) (value : string) :
  Actions.eq_opt col value = true <-> col = Some value.
Proof.
  destruct col as [s|]; simpl.
  - rewrite String.eqb_eq. split; [now intros -> | intros H; now injection H].
  - split; discriminate.
Qed.

(** X16.  The queue is served oldest first.  When the action the
    talk-to-agent form ends up running announces that a user has been
    served, that user is a pending request of [agent_queue] than which no
    pending request has an earlier timestamp (requests without a timestamp
    come last); the rows of its key are set to Resolved, so the same
    request is not served twice, and nothing else changes.  When its
    statements raise nothing, it answers that the queue is empty exactly
    when no request is pending, and then changes nothing. *)
Theorem queue_is_served_oldest_first :
  (forall e st st' name events,
      Actions.ActionSubmitTalkToAgentForm.run e st = (st', [Actions.Served name], events) ->
      exists first,
        In first (agent_rows st) /\ r_status first = Some "Pending" /\
        name = r_full_name first /\
        (forall r, In r (agent_rows st) -> r_status r = Some "Pending" ->
                   Sql.asc_le (r_timestamp first) (r_timestamp r) = true) /\
        st' = update_by_id st agent_queue (r_id first) (set_status "Resolved") /\
        (forall r, In r (agent_rows st') -> r_id r = r_id first ->
                   r_status r = Some "Resolved")) /\
  (forall e st,
      raises e StConnect = false -> raises e StCursor = false -> raises e StQueue = false ->
      (Actions.ActionSubmitTalkToAgentForm.run e st = (st, [Actions.NoMoreUsers], [])
       <-> forall r, In r (agent_rows st) -> r_status r <> Some "Pending")).
Proof.
  split.
  - intros e st st' name events Hrun.
    unfold Actions.ActionSubmitTalkToAgentForm.run in Hrun.
    destruct (hd_error (Actions.ActionSubmitTalkToAgentForm.pending (agent_rows st)))
      as [first|] eqn:Hhd.
    + apply oldest_first_head in Hhd. destruct Hhd as [Hin Hleast].
      apply filter_In in Hin. destruct Hin as [Hin Hpending].
      apply eq_opt_spec in Hpending.
      exists first. split; [exact Hin|]. split; [exact Hpending|].
      revert Hrun. handler_cases; intros Hrun;
        repeat match goal with
               | H : Return _ = Return _ |- _ => injection H; clear H; intros; subst
               | H : (_, _) = (_, _) |- _ => injection H; clear H; intros; subst
               end;
        try discriminate.
      split; [reflexivity|]. split.
      * intros r Hr Hp. apply Hleast. apply filter_In. split; [exact Hr|].
        now apply eq_opt_spec.
      * split; [reflexivity|]. intros r Hr Hid.
        apply (status_set_after_update st agent_queue (r_id first) "Resolved" r Hr Hid).
    + revert Hrun. handler_cases; intros Hrun;
        repeat match goal with
               | H : Return _ = Return _ |- _ => injection H; clear H; intros; subst
               | H : (_, _) = (_, _) |- _ => injection H; clear H; intros; subst
               end;
        discriminate.
  - intros e st Hconnect Hcursor Hqueue.
    unfold Actions.ActionSubmitTalkToAgentForm.run, execute, bind.
    rewrite Hconnect, Hcursor, Hqueue.
    destruct (hd_error (Actions.ActionSubmitTalkToAgentForm.pending (agent_rows st)))
      as [first|] eqn:Hhd.
    + apply oldest_first_head in Hhd. destruct Hhd as [Hin _].
      apply filter_In in Hin. destruct Hin as [Hin Hpending].
      apply eq_opt_spec in Hpending. split.
      * destruct (raises e (StUpdate "agent_queue")); [discriminate|].
        destruct (raises e (StCommit 0)); discriminate.
      * intros Hnone. now elim (Hnone first Hin).
    + split; [|reflexivity]. intros _ r Hr Hp.
      unfold Actions.ActionSubmitTalkToAgentForm.pending in Hhd.
      assert (Hlisted : In r (oldest_first
                                (filter (fun r => Actions.eq_opt (r_status r) "Pending")
                                   (agent_rows st)))).
      { apply stable_sort_in. apply filter_In. split; [exact Hr|]. now apply eq_opt_spec. }
      destruct (oldest_first _); [now elim Hlisted | discriminate].
Qed.

(** Of two waiting requests the one with the earlier timestamp is served,
    though it was inserted last. *)
Lemma queue_is_served_oldest_first_witness :
  exists first,
    In first (agent_rows waiting_room) /\ r_status first = Some "Pending" /\
    r_id first = 2 /\
    fst (fst (Actions.ActionSubmitTalkToAgentForm.run (calm 5000 3 "id") waiting_room))
    = update_by_id waiting_room agent_queue 2 (set_status "Resolved").
Proof.
  destruct (proj1 queue_is_served_oldest_first (calm 5000 3 "id") waiting_room
              (update_by_id waiting_room agent_queue 2 (set_status "Resolved"))
              (Some "Juan Dela Cruz") [] eq_refl)
    as [first [Hin [Hpending [_ [Hleast _]]]]].
  exists first. split; [exact Hin|]. split; [exact Hpending|].
  split; [|reflexivity].
  simpl in Hin. destruct Hin as [<-|[<-|[]]]; [|reflexivity].
  specialize (Hleast (sample_row 2 "Pending" "low" 1000)
                (or_intror (or_introl eq_refl)) eq_refl).
  discriminate Hleast.
Defined.

(** * Accounts and the login *)

Lemma fetch_update_user (users : list Auth.user) (name name' : string)
  (change : Auth.user -> Auth.user) :
  (forall u, Auth.u_username (change u) = Auth.u_username u) ->
  Auth.fetch_user (Auth.update_user users name change) name'
  = option_map (fun u => if String.eqb (Auth.u_username u) name then change u else u)
      (Auth.fetch_user users name').
Proof.
  intros Hname. unfold Auth.fetch_user, Auth.update_user. apply find_map_same.
  intros u. destruct (String.eqb (Auth.u_username u) name); [|reflexivity].
  now rewrite Hname.
Qed.

Lemma fetch_user_name (users : list Auth.user) (name : string) (u : Auth.user) :
  Auth.fetch_user users name = Some u -> In u users /\ Auth.u_username u = name.
Proof.
  intros H. apply find_some in H. destruct H as [Hin Hname].
  apply String.eqb_eq in Hname. auto.
Qed.

Lemma fetch_update_user_same (users : list Auth.user) (name : string)
  (change : Auth.user -> Auth.user) (u : Auth.user) :
  (forall u, Auth.u_username (change u) = Auth.u_username u) ->
  Auth.fetch_user users name = Some u ->
  Auth.fetch_user (Auth.update_user users name change) name = Some (change u).
Proof.
  intros Hname Hu. rewrite (fetch_update_user _ _ _ _ Hname), Hu. simpl.
  destruct (fetch_user_name _ _ _ Hu) as [_ ->]. now rewrite String.eqb_refl.
Qed.

(** The lock check lets an account without a lock through, whatever
    happens to its statements. *)
Lemma check_account_locked_open (e : env) (users : list Auth.user) (name : string)
  (u : Auth.user) :
  Auth.fetch_user users name = Some u -> Auth.u_locked_until u = None ->
  Auth.check_account_locked e users name = (users, false).
Proof.
  intros Hu Hlock. unfold Auth.check_account_locked, execute, bind.
  rewrite Hu, Hlock.
  destruct (negb (pool_ok e)); [reflexivity|].
  destruct (raises e StCursor); [reflexivity|].
  now destruct (raises e (StSelect "users")).
Qed.

(** The lock check when it reaches the table. *)
Lemma check_account_locked_reached (e : env) (users : list Auth.user) (name : string)
  (u : Auth.user) (t : Z) :
  pool_ok e = true -> raises e StCursor = false -> raises e (StSelect "users") = false ->
  Auth.fetch_user users name = Some u -> Auth.u_locked_until u = Some t ->
  Auth.check_account_locked e users name =
  if now e <? t then (users, true)
  else if raises e (StUpdate "users") || raises e (StCommit 0) then (users, false)
       else (Auth.update_user users name Auth.unlock, false).
Proof.
  intros Hpool Hcursor Hselect Hu Hlock.
  unfold Auth.check_account_locked, execute, bind.
  rewrite Hpool, Hcursor, Hselect, Hu, Hlock. cbn [negb].
  destruct (now e <? t); [reflexivity|].
  destruct (raises e (StUpdate "users")); [reflexivity|].
  now destruct (raises e (StCommit 0)).
Qed.

(** A failure counted when nothing fails: the counter goes up by one, and
    the fifth failure sets the lock. *)
Lemma increment_failed_login_counts (e : env) (users : list Auth.user) (name : string)
  (u : Auth.user) (n : Z) :
  healthy e ->
  Auth.fetch_user users name = Some u -> Auth.u_failed_login_attempts u = Some n ->
  exists u',
    Auth.fetch_user (Auth.increment_failed_login e users name) name = Some u' /\
    Auth.u_password_hash u' = Auth.u_password_hash u /\
    Auth.u_is_active u' = Auth.u_is_active u /\
    Auth.u_failed_login_attempts u' = Some (n + 1) /\
    Auth.u_locked_until u'
    = (if 5 <=? n + 1 then Some (now e + Auth.lock_time) else Auth.u_locked_until u).
Proof.
  intros [Hpool [_ [_ [Hraises _]]]] Hu Hn.
  unfold Auth.increment_failed_login, execute, bind. rewrite Hpool, !Hraises.
  cbn [negb].
  assert (Hcounted : Auth.fetch_user (Auth.update_user users name Auth.count_failure) name
                     = Some (Auth.count_failure u))
    by (apply fetch_update_user_same; [reflexivity | exact Hu]).
  rewrite Hcounted. cbn [Auth.u_failed_login_attempts Auth.count_failure].
  rewrite Hn. cbn [option_map].
  destruct (5 <=? n + 1).
  - exists (Auth.lock_until (now e + Auth.lock_time) (Auth.count_failure u)).
    split; [apply fetch_update_user_same; [reflexivity | exact Hcounted]|].
    simpl. now rewrite Hn.
  - exists (Auth.count_failure u). split; [exact Hcounted|]. simpl. now rewrite Hn.
Qed.

Section LoginFacts.

Variable check_password_hash : string -> string -> bool.

(** One failed attempt on an account that is not locked. *)
Lemma failed_attempt (e : env) (users : list Auth.user) (name password : string)
  (u : Auth.user) (n : Z) :
  healthy e -> Py.strip name <> "" -> password <> "" ->
  Auth.fetch_user users (Py.strip name) = Some u ->
  Auth.u_locked_until u = None -> Auth.u_failed_login_attempts u = Some n ->
  Auth.u_is_active u = Some true ->
  check_password_hash (Auth.u_password_hash u) password = false ->
  exists u',
    Auth.fetch_user (login_attempts check_password_hash [e] users name password)
      (Py.strip name) = Some u' /\
    Auth.u_password_hash u' = Auth.u_password_hash u /\
    Auth.u_is_active u' = Some true /\
    Auth.u_failed_login_attempts u' = Some (n + 1) /\
    Auth.u_locked_until u'
    = (if 5 <=? n + 1 then Some (now e + Auth.lock_time) else None).
Proof.
  intros He Hname Hpw Hu Hlock Hn Hactive Hwrong.
  destruct (increment_failed_login_counts e users (Py.strip name) u n He Hu Hn)
    as [u' [Hu' [Hhash [Hact [Hn' Hlock']]]]].
  exists u'. rewrite Hact, Hactive, Hlock in *.
  split; [|auto].
  destruct He as [Hpool [_ [_ [Hraises _]]]].
  unfold login_attempts, Auth.login, execute, bind.
  destruct (String.eqb (Py.strip name) "") eqn:E1;
    [apply String.eqb_eq in E1; contradiction|].
  destruct (String.eqb password "") eqn:E2;
    [apply String.eqb_eq in E2; contradiction|].
  cbn [orb]. rewrite (check_account_locked_open _ _ _ _ Hu Hlock).
  rewrite Hpool, !Hraises, Hu, Hactive, Hwrong. cbn [negb]. exact Hu'.
Qed.

Lemma attempts_app (envs1 envs2 : list env) (users : list Auth.user)
  (name password : string) :
  login_attempts check_password_hash (envs1 ++ envs2) users name password
  = login_attempts check_password_hash envs2
      (login_attempts check_password_hash envs1 users name password) name password.
Proof.
  revert users. induction envs1 as [|e envs1 IH]; intros users; [reflexivity|].
  cbn [login_attempts app].
  destruct (Auth.login check_password_hash e e e e users [] None name password "")
    as [[[users' a] s] r].
  apply IH.
Qed.

(** Failed attempts that stay below five leave the account open. *)
Lemma failed_attempts_below_five (envs : list env) (users : list Auth.user)
  (name password : string) (u : Auth.user) (n : Z) :
  Forall healthy envs -> Py.strip name <> "" -> password <> "" ->
  Auth.fetch_user users (Py.strip name) = Some u ->
  Auth.u_locked_until u = None -> Auth.u_failed_login_attempts u = Some n ->
  Auth.u_is_active u = Some true ->
  check_password_hash (Auth.u_password_hash u) password = false ->
  n + Z.of_nat (length envs) < 5 ->
  exists u',
    Auth.fetch_user (login_attempts check_password_hash envs users name password)
      (Py.strip name) = Some u' /\
    Auth.u_password_hash u' = Auth.u_password_hash u /\
    Auth.u_is_active u' = Some true /\
    Auth.u_failed_login_attempts u' = Some (n + Z.of_nat (length envs)) /\
    Auth.u_locked_until u' = None.
Proof.
  intros Henvs Hname Hpw. revert users u n.
  induction Henvs as [|e envs He Henvs IH]; intros users u n Hu Hlock Hn Hactive Hwrong Hlt.
  - exists u. simpl. rewrite Z.add_0_r. auto.
  - change (e :: envs) with ([e] ++ envs)%list. rewrite attempts_app.
    destruct (failed_attempt e users name password u n He Hname Hpw Hu Hlock Hn
                Hactive Hwrong) as [u1 [Hu1 [Hhash1 [Hact1 [Hn1 Hlock1]]]]].
    simpl length in Hlt.
    assert (Hbelow : (5 <=? n + 1) = false) by (apply Z.leb_gt; lia).
    rewrite Hbelow in Hlock1.
    destruct (IH _ u1 (n + 1) Hu1 Hlock1 Hn1 Hact1) as [u' [Hu' [Hhash' [Hact' [Hn' Hlock']]]]].
    + now rewrite Hhash1.
    + lia.
    + exists u'. split; [exact Hu'|]. split; [congruence|]. split; [exact Hact'|].
      split; [|exact Hlock']. rewrite Hn'. f_equal. simpl length. lia.
Qed.

End LoginFacts.




(** X18.  Five failed attempts lock the account for thirty minutes.  An
    active account without a lock and with no failure counted is tried
    five times in a row with a password that [check_password_hash] rejects,
    nothing failing.  After the fifth attempt its counter is 5 and its lock
    runs until thirty minutes after that attempt.  Any login on the name
    whose lock check reaches the table before the lock runs out is refused
    with status 403, opens no session and leaves the table as it is,
    whatever password it brings, the empty one apart. *)
Theorem five_failures_lock_the_account
  (check_password_hash : string -> string -> bool)
  (before : list env) (e5 : env) (users : list Auth.user) (name password : string)
  (u : Auth.user) :
  Forall healthy before -> length before = 4%nat -> healthy e5 ->
  Py.strip name <> "" -> password <> "" ->
  Auth.fetch_user users (Py.strip name) = Some u ->
  Auth.u_is_active u = Some true ->
  Auth.u_failed_login_attempts u = Some 0 -> Auth.u_locked_until u = None ->
  check_password_hash (Auth.u_password_hash u) password = false ->
  let users' :=
    login_attempts check_password_hash (before ++ [e5]) users name password in
  exists u',
    Auth.fetch_user users' (Py.strip name) = Some u' /\
    Auth.u_failed_login_attempts u' = Some 5 /\
    Auth.u_locked_until u' = Some (now e5 + Auth.lock_time) /\
    forall e_lock e e_update e_audit audit any_password ip_address,
      pool_ok e_lock = true -> raises e_lock StCursor = false ->
      raises e_lock (StSelect "users") = false ->
      now e_lock < now e5 + Auth.lock_time -> any_password <> "" ->
      exists audit',
        Auth.login check_password_hash e_lock e e_update e_audit users' audit None
          name any_password ip_address
        = (users', audit', None, locked_reply).
Proof.
  intros Hbefore Hlen He5 Hname Hpw Hu Hactive Hn Hlock Hwrong users'.
  destruct (failed_attempts_below_five check_password_hash before users name password
              u 0 Hbefore Hname Hpw Hu Hlock Hn Hactive Hwrong)
    as [u4 [Hu4 [Hhash4 [Hact4 [Hn4 Hlock4]]]]]; [rewrite Hlen; lia|].
  rewrite Hlen in Hn4.
  destruct (failed_attempt check_password_hash e5 _ name password u4 4 He5 Hname Hpw
              Hu4 Hlock4 Hn4 Hact4) as [u' [Hu' [_ [_ [Hn' Hlock']]]]];
    [now rewrite Hhash4|].
  rewrite <- attempts_app in Hu'. fold users' in Hu'.
  exists u'. split; [exact Hu'|]. split; [exact Hn'|]. split; [exact Hlock'|].
  intros e_lock e e_update e_audit audit any_password ip_address
    Hpool Hcursor Hselect Hnow Hany.
  unfold Auth.login.
  destruct (String.eqb (Py.strip name) "") eqn:E1;
    [apply String.eqb_eq in E1; contradiction|].
  destruct (String.eqb any_password "") eqn:E2;
    [apply String.eqb_eq in E2; contradiction|].
  cbn [orb].
  rewrite (check_account_locked_reached _ _ _ _ _ Hpool Hcursor Hselect Hu' Hlock').
  apply Z.ltb_lt in Hnow. rewrite Hnow. eexists. reflexivity.
Qed.

(** Five wrong passwords, a minute apart, and then the right one a minute
    later: refused. *)
Lemma five_failures_lock_the_account_witness :
  let minute := 60000000 in
  let users' :=
    login_attempts String.eqb
      [calm minute 1 "id"; calm (2 * minute) 1 "id"; calm (3 * minute) 1 "id";
       calm (4 * minute) 1 "id"; calm (5 * minute) 1 "id"]
      [operator_account] "operator" "guess" in
  exists audit',
    Auth.login String.eqb (calm (6 * minute) 1 "id") (calm (6 * minute) 1 "id")
      (calm (6 * minute) 1 "id") (calm (6 * minute) 1 "id")
      users' [] None "operator" "secret" "10.0.0.1"
    = (users', audit', None, locked_reply).
Proof.
  intros minute users'.
  destruct (five_failures_lock_the_account String.eqb
              [calm minute 1 "id"; calm (2 * minute) 1 "id"; calm (3 * minute) 1 "id";
               calm (4 * minute) 1 "id"]
              (calm (5 * minute) 1 "id") [operator_account] "operator" "guess"
              operator_account)
    as [u' [_ [_ [_ Hrefused]]]];
    try reflexivity; try discriminate.
  - repeat constructor; apply healthy_calm.
  - apply healthy_calm.
  - apply Hrefused; try reflexivity. discriminate.
Defined.

(** X19.  A login that succeeds clears the counter.  When nothing fails,
    an active account that carries no lock, or one that has run out, is
    opened by the password [check_password_hash] accepts: the reply is the
    success reply, the session is that of the account, and the account is
    left with no failure counted, no lock, and the time of the login. *)
Theorem login_clears_the_counter
  (check_password_hash : string -> string -> bool)
  (e : env) (users : list Auth.user) (audit : list Auth.audit_entry)
  (name password ip_address : string) (u : Auth.user) :
  healthy e -> Py.strip name <> "" -> password <> "" ->
  Auth.fetch_user users (Py.strip name) = Some u ->
  Auth.u_is_active u = Some true ->
  check_password_hash (Auth.u_password_hash u) password = true ->
  (forall t, Auth.u_locked_until u = Some t -> t <= now e) ->
  exists users' audit' s u',
    Auth.login check_password_hash e e e e users audit None name password ip_address
    = (users', audit', Some s, Auth.Json ok_response) /\
    Auth.s_user_id s = Auth.u_id u /\
    Auth.fetch_user users' (Py.strip name) = Some u' /\
    Auth.u_failed_login_attempts u' = Some 0 /\
    Auth.u_locked_until u' = None /\
    Auth.u_last_login u' = Some (now e).
Proof.
  intros He Hname Hpw Hu Hactive Hchk Hexpired.
  pose proof He as [Hpool [_ [_ [Hraises _]]]].
  assert (Hcheck : exists users1 u1,
             Auth.check_account_locked e users (Py.strip name) = (users1, false) /\
             Auth.fetch_user users1 (Py.strip name) = Some u1 /\
             Auth.u_is_active u1 = Some true /\
             Auth.u_password_hash u1 = Auth.u_password_hash u /\
             Auth.u_id u1 = Auth.u_id u).
  { destruct (Auth.u_locked_until u) as [t|] eqn:Hlock.
    - rewrite (check_account_locked_reached _ _ _ _ _ Hpool (Hraises _) (Hraises _)
                 Hu Hlock).
      specialize (Hexpired t eq_refl). apply Z.ltb_ge in Hexpired.
      rewrite Hexpired, !Hraises. cbn [orb].
      exists (Auth.update_user users (Py.strip name) Auth.unlock), (Auth.unlock u).
      split; [reflexivity|].
      split; [apply fetch_update_user_same; [reflexivity | exact Hu]|]. auto.
    - rewrite (check_account_locked_open _ _ _ _ Hu Hlock). exists users, u. auto. }
  destruct Hcheck as [users1 [u1 [Hcheck [Hu1 [Hact1 [Hhash1 Hid1]]]]]].
  unfold Auth.login.
  destruct (String.eqb (Py.strip name) "") eqn:E1;
    [apply String.eqb_eq in E1; contradiction|].
  destruct (String.eqb password "") eqn:E2;
    [apply String.eqb_eq in E2; contradiction|].
  cbn [orb]. rewrite Hcheck. unfold execute, bind.
  rewrite Hpool, !Hraises, Hu1, Hact1, Hhash1, Hchk. cbn [negb].
  eexists. eexists. eexists. exists (Auth.record_login (now e) u1).
  split; [reflexivity|]. split; [exact Hid1|]. split; [|auto].
  unfold Auth.reset_failed_login, execute, bind. rewrite Hpool, !Hraises. cbn [negb].
  apply fetch_update_user_same; [reflexivity | exact Hu1].
Qed.

(** The operator logs in an hour after a lock has run out. *)
Lemma login_clears_the_counter_witness :
  let locked := Auth.lock_until 1000 (Auth.count_failure operator_account) in
  exists users' audit' s u',
    Auth.login String.eqb (calm 5000 1 "id") (calm 5000 1 "id") (calm 5000 1 "id")
      (calm 5000 1 "id") [locked] [] None "operator" "secret" "10.0.0.1"
    = (users', audit', Some s, Auth.Json ok_response) /\
    Auth.s_user_id s = 1 /\
    Auth.fetch_user users' "operator" = Some u' /\
    Auth.u_failed_login_attempts u' = Some 0 /\
    Auth.u_locked_until u' = None /\
    Auth.u_last_login u' = Some 5000.
Proof.
  intros locked.
  apply (login_clears_the_counter String.eqb (calm 5000 1 "id") [locked] []
           "operator" "secret" "10.0.0.1" locked (healthy_calm _ _ _)).
  - discriminate.
  - discriminate.
  - reflexivity.
  - reflexivity.
  - reflexivity.
  - intros t Ht. injection Ht as <-. simpl. lia.
Defined.

(** X20.  The lock check gives way when it cannot read the table.  When
    [check_account_locked] gets no connection, or its cursor or its query
    raises, it answers that the account is not locked; if the route's own
    connection then works, the login goes on to the password, and the
    password [check_password_hash] accepts opens a session for an active
    account whatever its [locked_until] says. *)
Theorem lock_check_gives_way
  (check_password_hash : string -> string -> bool)
  (e_lock e e_update e_audit : env) (users : list Auth.user)
  (audit : list Auth.audit_entry) (name password ip_address : string) (u : Auth.user) :
  pool_ok e_lock = false \/ raises e_lock StCursor = true \/
  raises e_lock (StSelect "users") = true ->
  pool_ok e = true -> raises e StCursor = false -> raises e (StSelect "users") = false ->
  Py.strip name <> "" -> password <> "" ->
  Auth.fetch_user users (Py.strip name) = Some u ->
  Auth.u_is_active u = Some true ->
  check_password_hash (Auth.u_password_hash u) password = true ->
  Auth.check_account_locked e_lock users (Py.strip name) = (users, false) /\
  exists users' audit' s,
    Auth.login check_password_hash e_lock e e_update e_audit users audit None
      name password ip_address
    = (users', audit', Some s, Auth.Json ok_response) /\
    Auth.s_user_id s = Auth.u_id u.
Proof.
  intros Hfails Hpool Hcursor Hselect Hname Hpw Hu Hactive Hchk.
  assert (Hcheck : Auth.check_account_locked e_lock users (Py.strip name) = (users, false)).
  { unfold Auth.check_account_locked, execute, bind.
    destruct Hfails as [H|[H|H]]; rewrite H; cbn [negb]; try reflexivity.
    - now destruct (pool_ok e_lock).
    - destruct (pool_ok e_lock); [|reflexivity]. now destruct (raises e_lock StCursor). }
  split; [exact Hcheck|].
  unfold Auth.login.
  destruct (String.eqb (Py.strip name) "") eqn:E1;
    [apply String.eqb_eq in E1; contradiction|].
  destruct (String.eqb password "") eqn:E2;
    [apply String.eqb_eq in E2; contradiction|].
  cbn [orb]. rewrite Hcheck. unfold execute, bind.
  rewrite Hpool, Hcursor, Hselect, Hu, Hactive, Hchk. cbn [negb].
  eexists. eexists. eexists. split; reflexivity.
Qed.

(** The pool has no connection for the lock check: the locked operator
    logs in. *)
Lemma lock_check_gives_way_witness :
  let locked := Auth.lock_until 9000 (Auth.count_failure operator_account) in
  let no_pool :=
    mkEnv 5000 "" (fun _ => "") (fun _ => None) (fun _ => None) 1 "id"
      false true (fun _ => true) (fun _ => false) (fun _ => "error") true true in
  exists users' audit' s,
    Auth.login String.eqb no_pool (calm 5000 1 "id") (calm 5000 1 "id")
      (calm 5000 1 "id") [locked] [] None "operator" "secret" "10.0.0.1"
    = (users', audit', Some s, Auth.Json ok_response) /\
    Auth.s_user_id s = 1.
Proof.
  intros locked no_pool.
  apply (lock_check_gives_way String.eqb no_pool (calm 5000 1 "id") (calm 5000 1 "id")
           (calm 5000 1 "id") [locked] [] "operator" "secret" "10.0.0.1" locked);
    try reflexivity; try discriminate.
  now left.
Defined.

(** * The statistics of the dashboard *)

Lemma filter_length_perm {A : Type} (p : A -> bool) (l l' : list A) :
  Permutation l l' -> length (filter p l) = length (filter p l').
Proof.
  induction 1 as [|x l l' _ IH|x y l|l1 l2 l3 _ IH1 _ IH2]; simpl.
  - reflexivity.
  - destruct (p x); simpl; congruence.
  - destruct (p x), (p y); reflexivity.
  - congruence.
Qed.

Lemma filter_length_le {A : Type} (p : A -> bool) (l : list A) :
  (length (filter p l) <= length l)%nat.
Proof.
  induction l as [|x l IH]; simpl; [lia|]. destruct (p x); simpl; lia.
Qed.

Lemma filter_all {A : Type} (p : A -> bool) (l : list A) :
  (forall x, In x l -> p x = true) -> filter p l = l.
Proof.
  induction l as [|x l IH]; intros H; [reflexivity|]. simpl.
  rewrite (H x (or_introl eq_refl)). f_equal. apply IH. intros y Hy. apply H. now right.
Qed.

Lemma filter_none {A : Type} (p : A -> bool) (l : list A) :
  (forall x, In x l -> p x = false) -> filter p l = [].
Proof.
  induction l as [|x l IH]; intros H; [reflexivity|]. simpl.
  rewrite (H x (or_introl eq_refl)). apply IH. intros y Hy. apply H. now right.
Qed.

Lemma is_service_contribution (e : env) (st : store) (flt : App.filters) (f : family)
  (c : App.complaint) :
  In c (contribution e st flt f) ->
  is_service c = match f with agent_queue => true | _ => false end.
Proof.
  intros Hc. apply in_contribution in Hc. destruct Hc as [Hc _].
  apply in_matching in Hc. destruct Hc as [r [-> _]].
  unfold is_service. rewrite c_table_to_complaint. now destruct f.
Qed.

(** The test the unfiltered listing puts on a request of the queue is the
    test of the queue listing. *)
Lemma unfiltered_agent_rows (e : env) (st : store) :
  matching e st App.no_filters agent_queue
  = map (App.to_complaint e agent_queue)
      (newest_first
         (filter (fun r => Sql.false_or_null (r_hidden r) && Sql.false_or_null (r_resumed r))
            (agent_rows st))).
Proof.
  unfold matching. cbn -[newest_first App.where_clause]. f_equal. f_equal.
  apply filter_ext. intros r.
  unfold App.where_clause. cbn. now rewrite !andb_true_r.
Qed.

(** X21.  [get_current_stats] yields its figures exactly when the listing
    of the board returns, which it does when no connection can be had or
    the rollback does not raise; where the listing raises, the statistics
    are the empty dictionary.  Of the figures it yields: the total is the
    length of the unfiltered board; the critical and the resolved-today
    counts are at most the total; with both listings unhindered, the queue
    length is the number of agent-queue entries of the board; and without a
    connection for the board the three counts taken from it are zero. *)
Theorem statistics_agree_with_the_board (e e_list e_queue : env) (st : store) :
  (forall s,
     Stats.get_current_stats e e_list e_queue st = Some s ->
     exists l,
       App.get_unified_complaints e_list st App.no_filters = Return l /\
       Stats.total_active s = length l /\
       (Stats.critical_count s <= Stats.total_active s)%nat /\
       (Stats.resolved_today s <= Stats.total_active s)%nat /\
       (healthy e_list -> healthy e_queue ->
        Stats.in_queue s = length (filter is_service l)) /\
       (pool_ok e_list = false ->
        Stats.total_active s = 0%nat /\ Stats.critical_count s = 0%nat /\
        Stats.resolved_today s = 0%nat)) /\
  (pool_ok e_list = false \/ raises e_list StRollback = false ->
   exists s, Stats.get_current_stats e e_list e_queue st = Some s) /\
  (forall msg,
     App.get_unified_complaints e_list st App.no_filters = Raise msg ->
     Stats.get_current_stats e e_list e_queue st = None).
Proof.
  split; [|split].
  - intros s. unfold Stats.get_current_stats.
    destruct (App.get_unified_complaints e_list st App.no_filters) as [l|msg] eqn:Hl;
      [|discriminate].
    intros Hs. injection Hs as <-. exists l. split; [reflexivity|].
    apply get_unified_complaints_returns in Hl.
    cbn [Stats.total_active Stats.critical_count Stats.resolved_today Stats.in_queue].
    split; [reflexivity|]. split; [apply filter_length_le|].
    split; [apply filter_length_le|]. split.
    + intros [Hpool [_ [Hexists [Hraises _]]]] [Hpool' [_ [_ [Hraises' _]]]].
      rewrite Hpool, !Hraises in Hl. cbn [negb andb] in Hl. subst l.
      unfold by_sort_key.
      rewrite <- (filter_length_perm is_service _ _ (stable_sort_perm _ _)).
      rewrite !filter_app, !length_app.
      rewrite (filter_all is_service (contribution e_list st App.no_filters agent_queue))
        by (intros c Hc; now rewrite (is_service_contribution _ _ _ _ _ Hc)).
      rewrite (filter_none is_service (contribution e_list st App.no_filters meter_concern))
        by (intros c Hc; now rewrite (is_service_contribution _ _ _ _ _ Hc)).
      rewrite (filter_none is_service
                 (contribution e_list st App.no_filters power_outage_reports))
        by (intros c Hc; now rewrite (is_service_contribution _ _ _ _ _ Hc)).
      simpl length. rewrite !Nat.add_0_r.
      unfold contribution. rewrite Hexists, Hraises. cbn [negb andb].
      rewrite unfiltered_agent_rows, length_map.
      unfold App.get_agent_queue. rewrite Hpool', !Hraises'. cbn [negb orb].
      unfold newest_first, oldest_first.
      rewrite <- (Permutation_length (stable_sort_perm _ _)).
      rewrite <- (Permutation_length (stable_sort_perm _ _)). reflexivity.
    + intros Hpool. rewrite Hpool in Hl. cbn [andb] in Hl. subst l. cbn. auto.
  - intros Hwhy. unfold Stats.get_current_stats.
    assert (Hreturns : exists l,
               App.get_unified_complaints e_list st App.no_filters = Return l).
    { destruct Hwhy as [Hpool|Hrollback].
      - rewrite get_unified_complaints_cases, Hpool. eexists. reflexivity.
      - rewrite (get_unified_complaints_eq _ _ _ Hrollback). eexists. reflexivity. }
    destruct Hreturns as [l ->]. eexists. reflexivity.
  - intros msg Hl. unfold Stats.get_current_stats. now rewrite Hl.
Qed.

(** The three sample complaints: one of the three entries of the board
    is a request of the queue, and the queue counts one.  On a connection
    that has gone dead there are no figures. *)
Lemma statistics_agree_with_the_board_witness :
  (exists s,
     Stats.get_current_stats (calm 5000 1 "id") (calm 5000 1 "id") (calm 5000 1 "id")
       three_complaints = Some s /\
     Stats.total_active s = 3%nat /\ Stats.in_queue s = 1%nat) /\
  Stats.get_current_stats (calm 5000 1 "id") dead_connection (calm 5000 1 "id")
    three_complaints = None.
Proof.
  destruct (statistics_agree_with_the_board (calm 5000 1 "id") (calm 5000 1 "id")
              (calm 5000 1 "id") three_complaints) as [Hfigures [Hyields _]].
  destruct (statistics_agree_with_the_board (calm 5000 1 "id") dead_connection
              (calm 5000 1 "id") three_complaints) as [_ [_ Hnone]].
  split.
  - destruct (Hyields (or_intror eq_refl)) as [s Hs].
    destruct (Hfigures s Hs) as [l [Hl [Htotal [_ [_ [Hqueue _]]]]]].
    exists s. split; [exact Hs|].
    rewrite (Hqueue (healthy_calm _ _ _) (healthy_calm _ _ _)), Htotal.
    vm_compute in Hl. injection Hl as <-. split; reflexivity.
  - exact (Hnone "connection already closed" eq_refl).
Defined.

(** * An SMS on the board *)

(** X22.  A complaint sent by SMS reaches the board.  When the webhook
    accepts a message and stores it, the row goes to the table of the parsed
    issue type (outage reports, meter concerns for BILLING, the agent queue
    otherwise), and the next unfiltered listing, nothing failing, has an
    entry for it with status NEW.  The entry shows the parsed priority,
    except for a BILLING message, which is stored as MEDIUM.  The critical
    alert goes by the parsed priority alone: it is raised once when that is
    CRITICAL and the socket layer works, also for a BILLING message. *)
Theorem sms_complaint_reaches_the_board
  (parse_sms : string -> string -> option SmsHandler.parsed_sms)
  (e e' : env) (st st' : store) (from_number message_body : string)
  (p : SmsHandler.parsed_sms) (events : list event) (resp : response) :
  parse_sms message_body from_number = Some p ->
  SmsHandler.sms_webhook parse_sms e st from_number message_body = (st', events, resp) ->
  success resp = true -> healthy e' ->
  let f :=
    if String.eqb (SmsHandler.p_issue_type p) "POWER OUTAGE" then power_outage_reports
    else if String.eqb (SmsHandler.p_issue_type p) "BILLING" then meter_concern
    else agent_queue in
  let stored :=
    match f with
    | meter_concern => "MEDIUM"
    | _ => SmsHandler.p_priority p
    end in
  length (filter is_alert events)
  = (if emit_ok e && String.eqb (SmsHandler.p_priority p) "CRITICAL" then 1 else 0)%nat /\
  exists l c,
    App.get_unified_complaints e' st' App.no_filters = Return l /\
    In c l /\
    App.c_table c = table_name f /\ App.c_record_id c = serial e /\
    App.c_status c = "NEW" /\
    App.c_priority c = Py.upper (Py.or_else (Some stored) (App.default_priority f)).
Proof.
  intros Hparse Hcall Hok [Hpool [_ [Hexists [Hraises _]]]] f stored.
  unfold SmsHandler.sms_webhook in Hcall. rewrite Hparse in Hcall.
  destruct (negb (pool_ok e)); [injection Hcall as <- <- <-; discriminate|].
  destruct (SmsHandler.sms_row e p) as [g new_row] eqn:Hrow.
  destruct (_ ;;; _); [|injection Hcall as <- <- <-; discriminate].
  injection Hcall as <- <- _. split.
  - unfold App.broadcast_new_complaint, App.broadcast_critical_alert, App.stats_events.
    destruct (emit_ok e), (stats_ok e), (String.eqb (SmsHandler.p_priority p) "CRITICAL");
      reflexivity.
  - assert (Hnew : g = f /\ r_id new_row = serial e /\
                   r_status new_row = Some "NEW" /\
                   r_priority new_row = Some stored /\
                   passes e' App.no_filters g new_row = true).
    { unfold SmsHandler.sms_row in Hrow. unfold f, stored.
      destruct (String.eqb (SmsHandler.p_issue_type p) "POWER OUTAGE");
        [injection Hrow as <- <-; repeat split|].
      destruct (String.eqb (SmsHandler.p_issue_type p) "BILLING");
        injection Hrow as <- <-; repeat split. }
    destruct Hnew as [Hg [Hid [Hstatus [Hpriority Hpass]]]].
    destruct (row_listed e' (insert_row st g new_row) App.no_filters g new_row
                Hpool (Hraises _) (Hraises _) (Hraises _) (Hexists _) (Hraises _)) as [l [Hl Hc]].
    + unfold insert_row. rewrite rows_set_rows_same. apply in_or_app. right. now left.
    + exact Hpass.
    + exists l, (App.to_complaint e' g new_row).
      split; [exact Hl|]. split; [exact Hc|].
      rewrite c_table_to_complaint, c_record_id_to_complaint, c_status_to_complaint,
        c_priority_to_complaint, Hstatus, Hpriority, Hg.
      repeat split; assumption.
Qed.

(** A billing message about a fire: one alert is raised, and the board
    shows the complaint as MEDIUM. *)
Lemma sms_complaint_reaches_the_board_witness :
  exists st' events resp l c,
    SmsHandler.sms_webhook billing_fire (calm 5000 9 "id") three_complaints
      "+639171234567" "ILECO BILLING" = (st', events, resp) /\
    length (filter is_alert events) = 1%nat /\
    App.get_unified_complaints (calm 6000 10 "id") st' App.no_filters = Return l /\
    In c l /\ App.c_table c = "meter_concern" /\ App.c_record_id c = 9 /\
    App.c_priority c = "MEDIUM".
Proof.
  destruct (SmsHandler.sms_webhook billing_fire (calm 5000 9 "id") three_complaints
              "+639171234567" "ILECO BILLING") as [[st' events] resp] eqn:Hcall.
  destruct (sms_complaint_reaches_the_board billing_fire (calm 5000 9 "id")
              (calm 6000 10 "id") three_complaints st' "+639171234567" "ILECO BILLING"
              _ events resp eq_refl Hcall)
    as [Halerts [l [c [Hl [Hc [Htable [Hid [_ Hpriority]]]]]]]].
  - vm_compute in Hcall. injection Hcall as <- <- <-. reflexivity.
  - apply healthy_calm.
  - exists st', events, resp, l, c. repeat split; assumption.
Defined.

(** * The two dashboards *)






(** * The connected dashboards *)

Lemma dict_set_fresh (key : string) (value : Sockets.user_info)
  (d : list (string * Sockets.user_info)) :
  ~ In key (map fst d) ->
  map fst (Sockets.dict_set key value d) = (map fst d ++ [key])%list.
Proof.
  induction d as [|[k v] d IH]; intros Hfresh; [reflexivity|]. simpl in *.
  destruct (String.eqb k key) eqn:E.
  - apply String.eqb_eq in E. elim Hfresh. now left.
  - simpl. f_equal. apply IH. tauto.
Qed.

Lemma dict_pop_keys (key : string) (d : list (string * Sockets.user_info)) (k : string) :
  In k (map fst (Sockets.dict_pop key d)) -> In k (map fst d).
Proof.
  induction d as [|[k' v] d IH]; [auto|]. simpl.
  destruct (String.eqb k' key); simpl; tauto.
Qed.

Lemma dict_pop_present (key : string) (d : list (string * Sockets.user_info)) :
  In key (map fst d) -> NoDup (map fst d) ->
  S (length (Sockets.dict_pop key d)) = length d /\
  NoDup (map fst (Sockets.dict_pop key d)).
Proof.
  induction d as [|[k v] d IH]; intros Hin Hnodup; [now elim Hin|]. simpl in *.
  apply NoDup_cons_iff in Hnodup. destruct Hnodup as [Hk Hnodup].
  destruct (String.eqb k key) eqn:E; [auto|].
  apply String.eqb_neq in E. destruct Hin as [Hin|Hin]; [contradiction|].
  destruct (IH Hin Hnodup) as [Hlen Hnd]. simpl. split; [congruence|].
  apply NoDup_cons; [|exact Hnd]. intros Hk'. apply Hk. eapply dict_pop_keys, Hk'.
Qed.

(** X24.  The count of connected dashboards.  Through any sequence of
    connections and disconnections the counter [active_connections], which
    is broadcast as the number of active users, is never negative.  When the
    events come as the socket layer delivers them (a connection with a
    session id not in use, a disconnection after a connection of its
    session id), the counter is the number of entries of [active_users], and
    no session id has two entries. *)
Theorem connection_counter_counts_sessions :
  (forall events s,
      0 <= Sockets.active_connections s ->
      0 <= Sockets.active_connections (fold_left socket_step events s)) /\
  (forall events s,
      orderly s events ->
      NoDup (connected s) ->
      Sockets.active_connections s = Z.of_nat (length (Sockets.active_users s)) ->
      let s' := fold_left socket_step events s in
      Sockets.active_connections s' = Z.of_nat (length (Sockets.active_users s')) /\
      NoDup (connected s')).
Proof.
  split.
  - induction events as [|ev events IH]; intros s Hs; [exact Hs|].
    simpl. apply IH. destruct ev; simpl; lia.
  - induction events as [|ev events IH]; intros s Horderly Hnodup Hcount; [auto|].
    simpl in Horderly. destruct Horderly as [Hev Hrest].
    cbn [fold_left]. apply IH; [exact Hrest| |].
    + destruct ev as [e sid session|sid]; unfold connected in *; simpl.
      * rewrite (dict_set_fresh _ _ _ Hev).
        apply NoDup_app; [exact Hnodup | repeat constructor; intros [] |].
        intros k Hk [<-|[]]. contradiction.
      * now apply dict_pop_present.
    + destruct ev as [e sid session|sid]; unfold connected in *; simpl.
      * assert (Hlen : length (Sockets.dict_set sid
                                 match session with
                                 | Some data =>
                                     Sockets.mkInfo (Some (Auth.s_user_id data))
                                       (Auth.s_username data) (now e) (Auth.s_role data)
                                 | None => Sockets.mkInfo None "Anonymous" (now e)
                                             (Some "viewer")
                                 end (Sockets.active_users s))
                       = S (length (Sockets.active_users s))).
        { rewrite <- (length_map fst), (dict_set_fresh _ _ _ Hev), length_app, length_map.
          simpl. lia. }
        rewrite Hlen. lia.
      * destruct (dict_pop_present sid _ Hev Hnodup) as [Hlen _]. lia.
Qed.

(** Two dashboards connect and the first leaves: one is counted. *)
Lemma connection_counter_counts_sessions_witness :
  let s' :=
    fold_left socket_step
      [SocketConnect (calm 1000 1 "id") "sid-a" None;
       SocketConnect (calm 2000 1 "id") "sid-b" None;
       SocketDisconnect "sid-a"]
      Sockets.initial in
  Sockets.active_connections s' = 1 /\ connected s' = ["sid-b"].
Proof.
  intros s'.
  destruct (proj2 connection_counter_counts_sessions
              [SocketConnect (calm 1000 1 "id") "sid-a" None;
               SocketConnect (calm 2000 1 "id") "sid-b" None;
               SocketDisconnect "sid-a"]
              Sockets.initial) as [Hcount _].
  - simpl. repeat split; try tauto. intros [H|[]]. discriminate.
  - constructor.
  - reflexivity.
  - fold s' in Hcount. rewrite Hcount. split; reflexivity.
Defined.

(** * Catching up with the public node *)

Lemma sync_loop_grows (e : env) (batch : list CloudSync.exported) :
  forall key reports synced reports' synced',
    CloudSync.sync_loop e key reports batch synced = Return (reports', synced') ->
    exists added,
      reports' = (reports ++ added)%list /\
      synced' = (synced + length added)%nat /\
      forall c, In c batch ->
                CloudSync.x_contact_number c <> None ->
                CloudSync.x_timestamp c <> None ->
                existsb (CloudSync.same_caller_same_day c) reports' = true.
Proof.
  induction batch as [|c batch IH]; intros key reports synced reports' synced' Hloop.
  - simpl in Hloop. injection Hloop as <- <-. exists []. rewrite app_nil_r. simpl.
    split; [reflexivity|]. split; [lia|]. intros c [].
  - cbn [CloudSync.sync_loop] in Hloop. unfold execute, bind in Hloop.
    destruct (raises e (StSelect "power_outage_reports")); [discriminate|].
    destruct (existsb (CloudSync.same_caller_same_day c) reports) eqn:Hthere.
    + destruct (IH _ _ _ _ _ Hloop) as [added [-> [-> Hall]]].
      exists added. split; [reflexivity|]. split; [reflexivity|].
      intros c' [<-|Hin] Hphone Htime; [|now apply Hall].
      rewrite existsb_app, Hthere. reflexivity.
    + destruct (raises e (StInsert "power_outage_reports")); [discriminate|].
      destruct (IH _ _ _ _ _ Hloop) as [added [-> [-> Hall]]].
      exists (CloudSync.synced_row key c :: added).
      split; [now rewrite <- app_assoc|]. split; [simpl; lia|].
      intros c' [<-|Hin] Hphone Htime; [|now apply Hall].
      assert (Hself : CloudSync.same_caller_same_day c (CloudSync.synced_row key c) = true).
      { unfold CloudSync.same_caller_same_day. simpl.
        destruct (CloudSync.x_contact_number c) as [phone|]; [|now elim Hphone].
        destruct (CloudSync.x_timestamp c) as [t|]; [|now elim Htime].
        simpl. now rewrite String.eqb_refl, Z.eqb_refl. }
      rewrite !existsb_app, Hthere. cbn [existsb]. rewrite Hself. reflexivity.
Qed.

Lemma sync_loop_nothing_new (e : env) (batch : list CloudSync.exported) :
  forall key reports synced,
    raises e (StSelect "power_outage_reports") = false ->
    (forall c, In c batch ->
               existsb (CloudSync.same_caller_same_day c) reports = true) ->
    CloudSync.sync_loop e key reports batch synced = Return (reports, synced).
Proof.
  induction batch as [|c batch IH]; intros key reports synced Hselect Hall; [reflexivity|].
  cbn [CloudSync.sync_loop]. unfold execute, bind. rewrite Hselect.
  rewrite (Hall c (or_introl eq_refl)). apply IH; [exact Hselect|].
  intros c' Hc'. apply Hall. now right.
Qed.

Lemma set_rows_rows (st : store) (f : family) : set_rows st f (rows st f) = st.
Proof. now destruct st, f. Qed.

(** X25.  Catching up with the public node adds each complaint once.  A
    sync that succeeds appends [synced] rows to [power_outage_reports] and
    changes nothing else; afterwards every complaint of the export that
    names a caller and a time has a report of that caller on that day.  If
    every complaint of the export does, syncing the same export again,
    with the request, the connection, the cursor, the lookups and the commit
    working, adds nothing and reports zero. *)
Theorem sync_adds_each_complaint_once (e e' : env) (st st' : store)
  (batch : list CloudSync.exported) (resp : response) (n : nat) :
  CloudSync.sync_from_ec2 e st (Some batch) = (st', resp, Some n) ->
  (exists added,
      outage_rows st' = (outage_rows st ++ added)%list /\ length added = n /\
      meter_rows st' = meter_rows st /\ agent_rows st' = agent_rows st) /\
  (forall c, In c batch ->
      CloudSync.x_contact_number c <> None -> CloudSync.x_timestamp c <> None ->
      existsb (CloudSync.same_caller_same_day c) (outage_rows st') = true) /\
  (well_identified batch ->
   pool_ok e' = true -> raises e' StHttp = false -> raises e' StCursor = false ->
   raises e' (StSelect "power_outage_reports") = false -> raises e' (StCommit 0) = false ->
   CloudSync.sync_from_ec2 e' st' (Some batch) = (st', ok_response, Some 0%nat)).
Proof.
  intros Hsync. unfold CloudSync.sync_from_ec2, execute, bind in Hsync.
  destruct (raises e StHttp); [discriminate|].
  destruct (negb (pool_ok e)); [discriminate|].
  destruct (raises e StCursor); [discriminate|].
  destruct (CloudSync.sync_loop e (serial e) (outage_rows st) batch 0)
    as [[reports' synced']|] eqn:Hloop; [|discriminate].
  destruct (raises e (StCommit 0)); [discriminate|].
  cbn [fst snd] in Hsync. injection Hsync as <- _ <-.
  destruct (sync_loop_grows _ _ _ _ _ _ _ Hloop) as [added [-> [-> Hall]]].
  split; [|split].
  - exists added. simpl. auto.
  - intros c Hc Hphone Htime. simpl. now apply Hall.
  - intros Hbatch Hpool Hhttp Hcursor Hselect Hcommit.
    unfold CloudSync.sync_from_ec2, execute, bind.
    rewrite Hhttp, Hpool, Hcursor. cbn [negb].
    rewrite sync_loop_nothing_new.
    + rewrite Hcommit. cbn [fst snd].
      change (outage_rows ?s) with (rows s power_outage_reports).
      now rewrite set_rows_rows.
    + exact Hselect.
    + intros c Hc. destruct (Hbatch c Hc) as [Hphone Htime].
      simpl. now apply Hall.
Qed.

(** The sample export on an empty store: two of its three complaints are
    added, the second being of the same caller and day as the first, and a
    second sync adds none. *)
Lemma sync_adds_each_complaint_once_witness :
  exists st' resp,
    CloudSync.sync_from_ec2 (calm 5000 1 "id") empty_store (Some sample_export)
    = (st', resp, Some 2%nat) /\
    CloudSync.sync_from_ec2 (calm 6000 3 "id") st' (Some sample_export)
    = (st', ok_response, Some 0%nat).
Proof.
  destruct (CloudSync.sync_from_ec2 (calm 5000 1 "id") empty_store (Some sample_export))
    as [[st' resp] n] eqn:Hsync.
  assert (Hn : n = Some 2%nat)
    by (vm_compute in Hsync; injection Hsync as _ _ <-; reflexivity).
  subst n. exists st', resp. split; [reflexivity|].
  destruct (sync_adds_each_complaint_once (calm 5000 1 "id") (calm 6000 3 "id")
              empty_store st' sample_export resp 2 Hsync) as [_ [_ Hagain]].
  apply Hagain; try reflexivity.
  intros c Hc. simpl in Hc.
  destruct Hc as [<-|[<-|[<-|[]]]]; split; discriminate.
Defined.

(** * A meter concern of the chatbot on the board *)

Lemma sorted_after {A : Type} (R : A -> A -> Prop) (l1 l2 : list A) (x : A) :
  StronglySorted R (l1 ++ x :: l2) -> forall y, In y l2 -> R x y.
Proof.
  induction l1 as [|a l1 IH]; intros Hsorted y Hy.
  - simpl in Hsorted. apply StronglySorted_inv in Hsorted.
    destruct Hsorted as [_ Hall]. rewrite Forall_forall in Hall. now apply Hall.
  - simpl in Hsorted. apply StronglySorted_inv in Hsorted. now apply IH.
Qed.

Lemma status_order_valid (s : string) : In s App.valid_statuses -> App.status_order s <= 3.
Proof. simpl. intros [<-|[<-|[<-|[<-|[]]]]]; vm_compute; discriminate. Qed.

(** X26.  A meter concern filed through the chatbot goes to the bottom of
    the board.  The action stores it with the status PENDING, which is none
    of the four statuses the board ranks.  In the next unfiltered listing,
    nothing failing, the concern has an entry with that status and with the
    job order number the user was told, and no entry listed after it has one
    of the statuses NEW, ASSIGNED, IN_PROGRESS and RESOLVED: resolved
    complaints come before it. *)
Theorem chatbot_meter_concern_is_listed_last (e e' : env) (st st' : store)
  (mc_account_no mc_full_name mc_address mc_contact_number mc_meter_concern : option string)
  (sender_id full_name j : string) (events : list Actions.rasa_event) :
  Actions.ActionSubmitMeterConcern.run e st mc_account_no mc_full_name mc_address
    mc_contact_number mc_meter_concern sender_id
  = (st', [Actions.ConcernSubmitted full_name j], events) ->
  healthy e' ->
  exists l c,
    App.get_unified_complaints e' st' App.no_filters = Return l /\
    In c l /\
    App.c_table c = "meter_concern" /\ App.c_record_id c = serial e /\
    App.c_status c = "PENDING" /\ App.c_job_order_id c = Some j /\
    forall before after, l = (before ++ c :: after)%list ->
      forall c', In c' after ->
        ~ In (Py.upper (Py.strip (App.c_status c'))) App.valid_statuses.
Proof.
  intros Hrun [Hpool [_ [Hexists [Hraises _]]]].
  assert (Hst' : exists r,
             st' = insert_row st meter_concern r /\ r_id r = serial e /\
             r_status r = Some "PENDING" /\ r_priority r = Some "MEDIUM" /\
             r_job_order_id r = Some j /\ r_hidden r = Some false /\
             r_timestamp r = Some (now e)).
  { revert Hrun. unfold Actions.ActionSubmitMeterConcern.run.
    handler_cases; intros Hrun;
      repeat match goal with
             | H : (_, _) = (_, _) |- _ => injection H; clear H; intros; subst
             end;
      try discriminate.
    eexists. split; [reflexivity|]. repeat split. }
  destruct Hst' as [r [-> [Hid [Hstatus [Hpriority [Hjob [Hhidden Htime]]]]]]].
  assert (Hpass : passes e' App.no_filters meter_concern r = true).
  { unfold passes, App.where_clause. cbn. now rewrite Hhidden. }
  destruct (row_listed e' (insert_row st meter_concern r) App.no_filters meter_concern r
              Hpool (Hraises _) (Hraises _) (Hraises _) (Hexists _) (Hraises _)) as [l [Hl Hc]].
  { unfold insert_row. rewrite rows_set_rows_same. apply in_or_app. right. now left. }
  { exact Hpass. }
  exists l, (App.to_complaint e' meter_concern r).
  split; [exact Hl|]. split; [exact Hc|].
  split; [reflexivity|]. split; [exact Hid|].
  split; [simpl; now rewrite Hstatus|]. split; [exact Hjob|].
  intros before after Hsplit c' Hc' Hvalid.
  assert (Hsorted : StronglySorted
                      (fun a b => key_leq (App.sort_key a) (App.sort_key b)) l).
  { apply get_unified_complaints_returns in Hl. subst l.
    destruct (_ && _); [apply by_sort_key_sorted | constructor]. }
  rewrite Hsplit in Hsorted.
  pose proof (sorted_after _ _ _ _ Hsorted c' Hc') as Hle. cbv beta in Hle.
  assert (Hkey : App.sort_key (App.to_complaint e' meter_concern r) = (4, 2, - now e))
    by (unfold App.sort_key; simpl; now rewrite Hstatus, Hpriority, Htime).
  rewrite Hkey in Hle. unfold App.sort_key, key_leq in Hle.
  apply status_order_valid in Hvalid. lia.
Qed.

(** The meter concern of a chatbot user, filed when the board holds the
    three sample complaints: it is listed fourth, after the resolved one. *)
Lemma chatbot_meter_concern_is_listed_last_witness :
  let filed :=
    Actions.ActionSubmitMeterConcern.run (calm 9000 8 "JO-20260101-1234") three_complaints
      (Some "123456") (Some "Juan Dela Cruz") (Some "Brgy. Bacan, Cabatuan, Iloilo")
      (Some "09123456789") (Some "broken") "u1" in
  exists l c,
    App.get_unified_complaints (calm 9500 9 "id") (fst (fst filed)) App.no_filters
    = Return l /\
    nth_error l 3 = Some c /\ App.c_status c = "PENDING" /\ App.c_record_id c = 8.
Proof.
  intros filed.
  destruct (chatbot_meter_concern_is_listed_last (calm 9000 8 "JO-20260101-1234")
              (calm 9500 9 "id") three_complaints (fst (fst filed))
              (Some "123456") (Some "Juan Dela Cruz")
              (Some "Brgy. Bacan, Cabatuan, Iloilo") (Some "09123456789") (Some "broken")
              "u1" "Juan Dela Cruz" "JO-20260101-1234" (snd filed) eq_refl
              (healthy_calm _ _ _))
    as [l [c [Hl _]]].
  exists l. vm_compute in Hl. injection Hl as <-.
  eexists. split; [reflexivity|]. split; [reflexivity|]. split; reflexivity.
Defined.

(** * The audit trail of the login *)

Lemma log_audit_result (e : env) (audit : list Auth.audit_entry) (user_id : option Z)
  (action details ip_address : string) :
  Auth.log_audit e audit user_id action details ip_address
  = (if pool_ok e && negb (raises e StCursor) && negb (raises e (StInsert "audit_log"))
        && negb (raises e (StCommit 0))
     then (audit ++ [Auth.mkAudit user_id action details ip_address])%list
     else audit).
Proof.
  unfold Auth.log_audit, execute, bind.
  destruct (pool_ok e); [|reflexivity]. cbn [negb andb].
  destruct (raises e StCursor); [reflexivity|].
  destruct (raises e (StInsert "audit_log")); [reflexivity|].
  now destruct (raises e (StCommit 0)).
Qed.

(** X27.  The login keeps an audit trail.  A login request adds at most
    one entry to [audit_log], under one of the actions LOGIN_ATTEMPT_LOCKED,
    LOGIN_FAILED and LOGIN_SUCCESS and with the address of the request, and
    touches no earlier entry.  When the entry can be written (connection,
    cursor, insert and commit of [log_audit] working), a session that is
    opened is recorded by a LOGIN_SUCCESS entry with the key of its account,
    and a refusal with status 401 or 403 by a LOGIN_FAILED or
    LOGIN_ATTEMPT_LOCKED entry. *)
Theorem login_is_audited
  (check_password_hash : string -> string -> bool)
  (e_lock e e_update e_audit : env) (users users' : list Auth.user)
  (audit audit' : list Auth.audit_entry) (session' : option Auth.session_data)
  (name password ip_address : string) (resp : response) :
  Auth.login check_password_hash e_lock e e_update e_audit users audit None
    name password ip_address = (users', audit', session', Auth.Json resp) ->
  (audit' = audit \/
   exists entry,
     audit' = (audit ++ [entry])%list /\ Auth.a_ip_address entry = ip_address /\
     In (Auth.a_action entry) ["LOGIN_ATTEMPT_LOCKED"; "LOGIN_FAILED"; "LOGIN_SUCCESS"]) /\
  (pool_ok e_audit = true -> raises e_audit StCursor = false ->
   raises e_audit (StInsert "audit_log") = false -> raises e_audit (StCommit 0) = false ->
   (forall s, session' = Some s ->
      exists entry,
        audit' = (audit ++ [entry])%list /\ Auth.a_action entry = "LOGIN_SUCCESS" /\
        Auth.a_user_id entry = Some (Auth.s_user_id s)) /\
   (http_status resp = 401 \/ http_status resp = 403 ->
      exists entry,
        audit' = (audit ++ [entry])%list /\
        In (Auth.a_action entry) ["LOGIN_ATTEMPT_LOCKED"; "LOGIN_FAILED"])).
Proof.
  unfold Auth.login. rewrite !log_audit_result.
  set (writes := pool_ok e_audit && negb (raises e_audit StCursor)
                 && negb (raises e_audit (StInsert "audit_log"))
                 && negb (raises e_audit (StCommit 0))).
  intros Hlogin.
  assert (Hwrites : pool_ok e_audit = true -> raises e_audit StCursor = false ->
                    raises e_audit (StInsert "audit_log") = false ->
                    raises e_audit (StCommit 0) = false -> writes = true)
    by (unfold writes; intros -> -> -> ->; reflexivity).
  revert Hlogin.
  destruct (String.eqb (Py.strip name) "" || String.eqb password "").
  { intros H. injection H as <- <- <- <-. split; [now left|].
    intros _ _ _ _. split; [discriminate|]. simpl. intros [H|H]; discriminate. }
  destruct (Auth.check_account_locked e_lock users (Py.strip name)) as [users1 locked].
  destruct locked.
  { intros H. injection H as <- <- <- <-. split.
    - destruct writes; [right|now left]. eexists. split; [reflexivity|].
      simpl. tauto.
    - intros H1 H2 H3 H4. rewrite (Hwrites H1 H2 H3 H4).
      split; [discriminate|]. intros _. eexists. split; [reflexivity|]. simpl. tauto. }
  destruct (negb (pool_ok e)).
  { intros H. injection H as <- <- <- <-. split; [now left|].
    intros _ _ _ _. split; [discriminate|]. simpl. intros [H|H]; discriminate. }
  destruct (_ ;;; _).
  2: { intros H. injection H as <- <- <- <-. split; [now left|].
       intros _ _ _ _. split; [discriminate|]. simpl. intros [H|H]; discriminate. }
  destruct (Auth.fetch_user users1 (Py.strip name)) as [found|];
    rewrite ?log_audit_result; fold writes.
  2: { intros H. injection H as <- <- <- <-. split.
       - destruct writes; [right|now left]. eexists. split; [reflexivity|].
         simpl. tauto.
       - intros H1 H2 H3 H4. rewrite (Hwrites H1 H2 H3 H4).
         split; [discriminate|]. intros _. eexists. split; [reflexivity|]. simpl. tauto. }
  destruct (negb match Auth.u_is_active found with Some b => b | None => false end).
  { intros H. injection H as <- <- <- <-. split.
    - destruct writes; [right|now left]. eexists. split; [reflexivity|].
      simpl. tauto.
    - intros H1 H2 H3 H4. rewrite (Hwrites H1 H2 H3 H4).
      split; [discriminate|]. intros _. eexists. split; [reflexivity|]. simpl. tauto. }
  destruct (negb (check_password_hash (Auth.u_password_hash found) password)).
  { intros H. injection H as <- <- <- <-. split.
    - destruct writes; [right|now left]. eexists. split; [reflexivity|].
      simpl. tauto.
    - intros H1 H2 H3 H4. rewrite (Hwrites H1 H2 H3 H4).
      split; [discriminate|]. intros _. eexists. split; [reflexivity|]. simpl. tauto. }
  intros H. injection H as <- <- <- <-. split.
  - destruct writes; [right|now left]. eexists. split; [reflexivity|]. simpl. tauto.
  - intros H1 H2 H3 H4. rewrite (Hwrites H1 H2 H3 H4). split.
    + intros s Hs. injection Hs as <-. eexists. split; [reflexivity|]. split; reflexivity.
    + simpl. intros [H|H]; discriminate.
Qed.

(** A wrong password for the operator leaves one LOGIN_FAILED entry. *)
Lemma login_is_audited_witness :
  exists users' audit' entry,
    Auth.login String.eqb (calm 5000 1 "id") (calm 5000 1 "id") (calm 5000 1 "id")
      (calm 5000 1 "id") [operator_account] [] None "operator" "guess" "10.0.0.1"
    = (users', audit', None,
       Auth.Json (error_response 401 "Invalid username or password")) /\
    audit' = [entry] /\
    In (Auth.a_action entry) ["LOGIN_ATTEMPT_LOCKED"; "LOGIN_FAILED"].
Proof.
  destruct (Auth.login String.eqb (calm 5000 1 "id") (calm 5000 1 "id") (calm 5000 1 "id")
              (calm 5000 1 "id") [operator_account] [] None "operator" "guess" "10.0.0.1")
    as [[[users' audit'] session'] r] eqn:Hlogin.
  assert (Hr : session' = None /\
               r = Auth.Json (error_response 401 "Invalid username or password"))
    by (vm_compute in Hlogin; injection Hlogin as _ _ <- <-; split; reflexivity).
  destruct Hr as [-> ->].
  destruct (login_is_audited String.eqb _ _ _ _ _ _ _ _ _ _ _ _ _ Hlogin) as [_ Htrail].
  destruct (Htrail eq_refl eq_refl eq_refl eq_refl) as [_ Hrefused].
  destruct (Hrefused (or_introl eq_refl)) as [entry [Haudit Haction]].
  exists users', audit', entry. split; [reflexivity|]. split; assumption.
Defined.
